(** * AI defect detection: inference cascade and active-learning lifecycle

    A shallow embedding of the orchestration code of the repository:

    - [active_learning/active_learning_service.py]: [handle_detection],
      [get_pending_images], [label_image], [check_retrain_trigger];
    - [anomaly/anomaly_service.py]: [detect_anomaly];
    - [app.py]: the [/api/pipeline] route, [pipeline], and the routes
      [detect], [cnn_detect], [label_pending_image], [history],
      [generate_report] with [_record_history];
    - [services/model_service.py] and [services/cnn_lstm_service.py]: what
      [predict_defects] and [predict_cnn_lstm] do around their models;
    - [training/incremental_retrain.py]: [create_incremental_dataset_yaml],
      [run_incremental_retraining].

    The neural models, the image codecs of OpenCV and the settings file are
    outside the repository's own logic; they are gathered in the record
    [Env] and every definition is stated for an arbitrary [Env].

    The directories the services work on are modelled as finite maps from
    entry names to regular files, on a POSIX file system: names are byte
    strings compared as they are, "/" separates the components of a path,
    the pending and the labeled directory are two directories of one file
    system, neither inside the other, and input and output on them does
    not fail.  A file name that comes with a request is resolved as
    [PENDING_DIR / filename] resolves it ([pending_path_of]): a name of one
    component is an entry of the directory or is missing, the empty name
    and "." are the directory itself, and every other name (one with a
    separator or a NUL, "..", a name longer than the file system takes)
    leads out of the two directories, where [label_image] has the outcome
    [Beyond], about which nothing is stated.  Python exceptions are the
    [Raise] constructor of [res]; the state survives a raise, as it does
    in Python.  What the functions print is left out.  [pipeline] is the
    route up to its result; its entry in the history deque, which the
    route does not read, is added by [api_pipeline]. *)

From Stdlib Require Import ZArith QArith String Ascii List Lia Sorted.
From stdpp Require Import gmap strings list fin_maps pretty sorting.

Local Open Scope string_scope.
Local Open Scope Z_scope.

(** ** Python values and helpers *)

Definition bytes := list Byte.byte.

(** A decoded BGR image, [numpy.ndarray] of shape (h, w, 3): rows of pixels. *)
Definition pixel : Type := N * N * N.
Definition image := list (list pixel).

(** [img.shape[:2]] *)
Definition shape2 (img : image) : Z * Z :=
  (Z.of_nat (length img), Z.of_nat (length (List.hd [] img))).

(** Index adjustment of a slice bound for a sequence of length [n]
    (step 1): a negative bound counts from the end, then both are clipped
    to [0, n]. *)
Definition slice_bound (n i : Z) : Z :=
  if i <? 0 then Z.max 0 (i + n) else Z.min i n.

(** [l[lo:hi]] *)
Definition py_slice {A} (lo hi : Z) (l : list A) : list A :=
  let n := Z.of_nat (length l) in
  let a := slice_bound n lo in
  let b := slice_bound n hi in
  take (Z.to_nat (b - a)) (drop (Z.to_nat a) l).

(** [img[y1:y2, x1:x2]] *)
Definition crop_image (img : image) (y1 y2 x1 x2 : Z) : image :=
  map (py_slice x1 x2) (py_slice y1 y2 img).

(** [arr.size]: the number of scalars, three per pixel. *)
Definition ndarray_size (img : image) : Z :=
  3 * Z.of_nat (length (concat img)).

(** [s.endswith(suf)]; [dir.glob("*.jpg")] keeps the names with
    [endswith name ".jpg"]. *)
Definition endswith (s suf : string) : bool :=
  let n := String.length s in
  let k := String.length suf in
  if (k <=? n)%nat then String.eqb (substring (n - k) k s) suf else false.

Fixpoint rsplit_dot (s : string) : option string :=
  match s with
  | EmptyString => None
  | String c r =>
      match rsplit_dot r with
      | Some p => Some (String c p)
      | None => if Ascii.eqb c "."%char then Some EmptyString else None
      end
  end.

(** [s.rsplit(".", 1)[0]] *)
Definition rsplit_dot_head (s : string) : string :=
  match rsplit_dot s with Some p => p | None => s end.

(** Python's [>] and [<] on finite floats, read as rationals. *)
Definition Qltb (a b : Q) : bool := negb (Qle_bool b a).

(** [f"{q:.2f}"]: two decimals, correctly rounded, ties to even. *)
Definition round_half_even (n : Z) (d : Z) : Z :=
  let q := n / d in
  let r := n mod d in
  if 2 * r <? d then q
  else if d <? 2 * r then q + 1
  else if Z.even q then q else q + 1.

Definition two_digits (n : Z) : string :=
  if n <? 10 then "0" +:+ pretty n else pretty n.

Definition format_2f (q : Q) : string :=
  let r := round_half_even (Z.abs (Qnum q) * 100) (Zpos (Qden q)) in
  (if Qnum q <? 0 then "-" else "")
    +:+ pretty (r / 100) +:+ "." +:+ two_digits (r mod 100).

(** Outcome of a Python call: a value or a raised exception with [str(e)]. *)
Inductive res (A : Type) : Type :=
| Ok (a : A)
| Raise (msg : string).
Arguments Ok {A} a.
Arguments Raise {A} msg.

(** ** The file system the services share *)

(** A dumped dataset description, [abs_yaml]. *)
Record dataset_yaml := {
  yaml_path : string;
  yaml_train : string;
  yaml_val : string;
  yaml_nc : Z;
  yaml_names : list (Z * string);
}.

Inductive file : Type :=
| Jpeg (img : image)          (* written by [cv2.imwrite(".jpg")] *)
| Text (s : string)           (* written through [open(path, "w")] *)
| Yaml (y : dataset_yaml)     (* written by [yaml.dump] *)
| Blob (b : bytes).           (* model weights and anything else *)

Record FS := {
  pending : gmap string file;            (* PENDING_DIR *)
  labeled : gmap string file;            (* LABELED_DIR = NEWLY_LABELED_DIR *)
  consumed : option (gmap string file);  (* BASE / "consumed_labeled_data" *)
  model_out : option file;               (* MODEL_OUT, models/best.pt *)
  backup_model : option file;            (* models/best_backup.pt *)
  best_weights : option file;            (* runs/detect/incremental_retrain/weights/best.pt *)
  incremental_yaml : option file;        (* BASE / "incremental_dataset.yaml" *)
}.

Definition set_pending (p : gmap string file) (fs : FS) : FS :=
  {| pending := p; labeled := labeled fs; consumed := consumed fs;
     model_out := model_out fs; backup_model := backup_model fs;
     best_weights := best_weights fs; incremental_yaml := incremental_yaml fs |}.

Definition set_labeled (l : gmap string file) (fs : FS) : FS :=
  {| pending := pending fs; labeled := l; consumed := consumed fs;
     model_out := model_out fs; backup_model := backup_model fs;
     best_weights := best_weights fs; incremental_yaml := incremental_yaml fs |}.

Definition set_consumed (c : option (gmap string file)) (fs : FS) : FS :=
  {| pending := pending fs; labeled := labeled fs; consumed := c;
     model_out := model_out fs; backup_model := backup_model fs;
     best_weights := best_weights fs; incremental_yaml := incremental_yaml fs |}.

Definition set_model_out (m : option file) (fs : FS) : FS :=
  {| pending := pending fs; labeled := labeled fs; consumed := consumed fs;
     model_out := m; backup_model := backup_model fs;
     best_weights := best_weights fs; incremental_yaml := incremental_yaml fs |}.

Definition set_backup_model (m : option file) (fs : FS) : FS :=
  {| pending := pending fs; labeled := labeled fs; consumed := consumed fs;
     model_out := model_out fs; backup_model := m;
     best_weights := best_weights fs; incremental_yaml := incremental_yaml fs |}.

Definition set_best_weights (m : option file) (fs : FS) : FS :=
  {| pending := pending fs; labeled := labeled fs; consumed := consumed fs;
     model_out := model_out fs; backup_model := backup_model fs;
     best_weights := m; incremental_yaml := incremental_yaml fs |}.

Definition set_incremental_yaml (y : option file) (fs : FS) : FS :=
  {| pending := pending fs; labeled := labeled fs; consumed := consumed fs;
     model_out := model_out fs; backup_model := backup_model fs;
     best_weights := best_weights fs; incremental_yaml := y |}.

(** [list(dir.glob("*.jpg"))], as (name, file) entries. *)
Definition glob_jpg (dir : gmap string file) : list (string * file) :=
  List.filter (fun e => endswith (fst e) ".jpg") (map_to_list dir).

(** ** External collaborators *)

(** A verdict of the CNN+LSTM verifier, the fields [pipeline] reads. *)
Record cnn_result := {
  cnn_verdict : string;
  cnn_confidence : Q;
  cnn_heatmap_image : string;
}.

Record verification := {
  v_verdict : string;
  v_confidence : Q;
  v_heatmap : string;
}.

(** One detection dict built by [predict_defects]; [d_verification] is the
    key [pipeline] adds. *)
Record defect := {
  d_class : string;
  d_class_id : Z;
  d_confidence : Q;
  d_bbox : Z * Z * Z * Z;
  d_source : string;
  d_verification : option verification;
}.

Record yolo_results := {
  y_status : string;
  y_defects : list defect;
  y_confidence : Q;
  y_annotated_image : string;
  y_classes : Z;
}.

Record Env := {
  (* config/settings.yaml *)
  CONFIDENCE_THRESHOLD : Q;
  TRIGGER_COUNT : Z;
  anomaly_threshold : Q;
  labeled_dir_path : string;
  (* [PENDING_DIR.name], the last component of the pending directory *)
  pending_dir_name : string;
  (* the file system: the longest name an entry can have, in bytes *)
  NAME_MAX : nat;
  (* OpenCV *)
  imdecode : bytes -> option image;
  imencode_jpg : image -> option bytes;
  imwrite_error : string;
  none_shape_error : string;
  (* anomaly/anomaly_service.py: the loaded autoencoder, if any, as the
     reconstruction error it yields for the request bytes *)
  autoencoder_model : option (bytes -> res Q);
  (* services/model_service.py: the YOLO model on a decoded image, with
     the assembling of the result dict (lines 62-107) *)
  yolo_infer : image -> res yolo_results;
  (* services/cnn_lstm_service.py *)
  predict_cnn_lstm : bytes -> res cnn_result;
}.

(** JSON scalars of a request body, and [str] of them as an f-string
    prints them. *)
Inductive jvalue : Type :=
| JInt (z : Z)
| JFloat (q : Q)
| JStr (s : string).

(** A bounding box of a labeling request: a [dict]. *)
Definition box := gmap string jvalue.

(** What a call that takes a file name from the request leaves behind:
    its answer and the file system; or its answer after [shutil.move] has
    moved PENDING_DIR itself into LABELED_DIR, under its own name, so that
    PENDING_DIR no longer exists ([pending fs] are then the entries of the
    moved directory, [labeled fs] the regular files of LABELED_DIR); or,
    for a name that leads out of the two directories, something that the
    two directories do not decide. *)
Inductive outcome (A : Type) : Type :=
| Answered (answer : A) (fs : FS)
| Answered_pending_moved (answer : A) (fs : FS)
| Beyond.
Arguments Answered {A} answer fs.
Arguments Answered_pending_moved {A} answer fs.
Arguments Beyond {A}.

Section Services.

Context (E : Env).

(** [str] of a float is the shortest repr that reads back; it is taken
    from the interpreter. *)
Context (py_str_float : Q -> string).

Definition py_str (v : jvalue) : string :=
  match v with
  | JInt z => pretty z
  | JFloat q => py_str_float q
  | JStr s => s
  end.

(** ** active_learning/active_learning_service.py *)

Inductive al_status : Type :=
| AL_FLAGGED (file_name reason : string)
| AL_ERROR (message : string)
| AL_OK.

(** [f"review_pending_{timestamp}_conf{confidence:.2f}_cls{class_id}.jpg"] *)
Definition pending_filename (timestamp : string) (confidence : Q) (class_id : Z)
  : string :=
  "review_pending_" +:+ timestamp +:+ "_conf" +:+ format_2f confidence
    +:+ "_cls" +:+ pretty class_id +:+ ".jpg".

(** [cv2.imwrite(str(PENDING_DIR / filename), img)]: raises on the empty
    image [None]. *)
Definition imwrite_pending (filename : string) (img : option image) (fs : FS)
  : res unit * FS :=
  match img with
  | None => (Raise (imwrite_error E), fs)
  | Some i => (Ok tt, set_pending (<[filename := Jpeg i]> (pending fs)) fs)
  end.

(** [timestamp] is what [datetime.datetime.now().strftime(...)] reads. *)
Definition handle_detection (timestamp : string) (image_bytes : bytes)
    (confidence : Q) (class_id : Z) (fs : FS) : al_status * FS :=
  if Qltb confidence (CONFIDENCE_THRESHOLD E) then
    let filename := pending_filename timestamp confidence class_id in
    let img := imdecode E image_bytes in
    match imwrite_pending filename img fs with
    | (Ok _, fs') => (AL_FLAGGED filename "Low confidence score", fs')
    | (Raise msg, fs') => (AL_ERROR msg, fs')
    end
  else (AL_OK, fs).

Definition get_pending_images (fs : FS) : list string * FS :=
  (map fst (map_to_list (pending fs)), fs).

Inductive label_result : Type :=
| L_status_SUCCESS
| L_error (msg : string).

(** [box[key]], a [KeyError] prints as the quoted key. *)
Definition box_get (b : box) (key : string) : res jvalue :=
  match b !! key with
  | Some v => Ok v
  | None => Raise ("'" +:+ key +:+ "'")
  end.

(** One annotation line,
    [f"{box['class_id']} {box['cx']} {box['cy']} {box['w']} {box['h']}\n"]. *)
Definition newline : string := String (ascii_of_nat 10) EmptyString.

Definition box_line (b : box) : res string :=
  match box_get b "class_id" with Raise m => Raise m | Ok c =>
  match box_get b "cx" with Raise m => Raise m | Ok cx =>
  match box_get b "cy" with Raise m => Raise m | Ok cy =>
  match box_get b "w" with Raise m => Raise m | Ok w =>
  match box_get b "h" with Raise m => Raise m | Ok h =>
    Ok (py_str c +:+ " " +:+ py_str cx +:+ " " +:+ py_str cy +:+ " "
          +:+ py_str w +:+ " " +:+ py_str h +:+ newline)
  end end end end end.

(** The [for box in bounding_boxes: f.write(...)] loop; [written] is what
    the file holds so far, and stays in it when a box raises. *)
Fixpoint write_boxes (bounding_boxes : list box) (written : string)
  : res unit * string :=
  match bounding_boxes with
  | [] => (Ok tt, written)
  | b :: rest =>
      match box_line b with
      | Ok line => write_boxes rest (written +:+ line)
      | Raise m => (Raise m, written)
      end
  end.

Definition NUL : ascii := ascii_of_nat 0.

(** A name that is one component of a path, and one the file system
    takes: not empty, neither "." nor "..", without a separator or a NUL,
    of at most [NAME_MAX] bytes. *)
Definition is_component (filename : string) : bool :=
  negb (String.eqb filename "") && negb (String.eqb filename ".")
  && negb (String.eqb filename "..")
  && forallb (fun c => negb (Ascii.eqb c "/") && negb (Ascii.eqb c NUL))
       (list_ascii_of_string filename)
  && (String.length filename <=? NAME_MAX E)%nat.

(** What [PENDING_DIR / filename] is, for [exists()] and [shutil.move]: an
    entry of the directory, when the directory has an entry of that name;
    otherwise the directory itself, for the empty name and for ".", which
    pathlib drops from a path; nothing, for another name of one component;
    and for the rest a path, or an error of the file system, that the
    pending directory does not decide. *)
Inductive pending_path : Type :=
| Path_entry (f : file)
| Path_pending_dir
| Path_missing
| Path_beyond.

Definition pending_path_of (filename : string) (fs : FS) : pending_path :=
  match pending fs !! filename with
  | Some f => Path_entry f
  | None =>
      if String.eqb filename "" || String.eqb filename "." then
        Path_pending_dir
      else if is_component filename then Path_missing
      else Path_beyond
  end.

(** [str(e)] of what [shutil.move] raises when PENDING_DIR.name is taken
    in LABELED_DIR, and of what [open] raises on a directory. *)
Definition destination_exists_error : string :=
  "Destination path '" +:+ labeled_dir_path E +:+ "/" +:+ pending_dir_name E
    +:+ "' already exists".

Definition is_a_directory_error (label_filename : string) : string :=
  "[Errno 21] Is a directory: '" +:+ labeled_dir_path E +:+ "/"
    +:+ label_filename +:+ "'".

Definition label_image (filename : string) (label_class : string)
    (bounding_boxes : option (list box)) (fs : FS) : outcome label_result :=
  match pending_path_of filename fs with
  | Path_missing => Answered (L_error "File not found") fs
  | Path_beyond => Beyond
  | Path_entry f =>
      (* shutil.move(pending_path, labeled_img_path) *)
      let fs1 := set_labeled (<[filename := f]> (labeled fs))
                   (set_pending (delete filename (pending fs)) fs) in
      match bounding_boxes with
      | None => Answered L_status_SUCCESS fs1
      | Some boxes =>
          let label_filename := rsplit_dot_head filename +:+ ".txt" in
          let '(r, written) := write_boxes boxes "" in
          let fs2 :=
            set_labeled (<[label_filename := Text written]> (labeled fs1)) fs1 in
          match r with
          | Ok _ => Answered L_status_SUCCESS fs2
          | Raise m => Answered (L_error m) fs2
          end
      end
  | Path_pending_dir =>
      (* shutil.move(PENDING_DIR, LABELED_DIR): into the directory, as
         LABELED_DIR / PENDING_DIR.name, unless that exists *)
      match labeled fs !! pending_dir_name E with
      | Some _ => Answered (L_error destination_exists_error) fs
      | None =>
          match bounding_boxes with
          | None => Answered_pending_moved L_status_SUCCESS fs
          | Some boxes =>
              let label_filename := rsplit_dot_head filename +:+ ".txt" in
              if String.eqb label_filename (pending_dir_name E) then
                Answered_pending_moved
                  (L_error (is_a_directory_error label_filename)) fs
              else
                let '(r, written) := write_boxes boxes "" in
                let fs2 :=
                  set_labeled (<[label_filename := Text written]> (labeled fs))
                    fs in
                match r with
                | Ok _ => Answered_pending_moved L_status_SUCCESS fs2
                | Raise m => Answered_pending_moved (L_error m) fs2
                end
          end
      end
  end.

(** [len(list(LABELED_DIR.glob("*.jpg")))], the labeled count. *)
Definition labeled_count (fs : FS) : Z :=
  Z.of_nat (length (glob_jpg (labeled fs))).

Definition check_retrain_trigger (fs : FS) : bool * FS :=
  (TRIGGER_COUNT E <=? labeled_count fs, fs).

(** ** anomaly/anomaly_service.py *)

Record anomaly_result := {
  a_status : string;
  a_anomaly_score : Q;
  a_threshold : Q;
  a_message : option string;
}.

Definition detect_anomaly (image_bytes : bytes) : res anomaly_result :=
  match autoencoder_model E with
  | None =>
      Ok {| a_status := "PASS";
            a_anomaly_score := 0;
            a_threshold := anomaly_threshold E;
            a_message :=
              Some "Autoencoder model not found. Passing by default." |}
  | Some reconstruction_mse =>
      match reconstruction_mse image_bytes with
      | Raise m => Raise m
      | Ok mse =>
          let is_anomaly := Qltb (anomaly_threshold E) mse in
          Ok {| a_status := if is_anomaly then "ANOMALY" else "NORMAL";
                a_anomaly_score := mse;
                a_threshold := anomaly_threshold E;
                a_message := None |}
      end
  end.

(** ** services/model_service.py *)

(** The decoding guard of [predict_defects], then the model. *)
Definition predict_defects (image_bytes : bytes) : res yolo_results :=
  match imdecode E image_bytes with
  | None => Raise "Could not decode the uploaded image."
  | Some img => yolo_infer E img
  end.

(** ** app.py, [/api/pipeline] *)

Record upload := {
  up_filename : string;
  up_content : bytes;
}.

Record final_results := {
  fr_status : string;
  fr_defects : list defect;
  fr_discarded_defects : list defect;
  fr_confidence : Q;
  fr_annotated_image : string;
  fr_anomaly_info : anomaly_result;
  fr_active_learning_flagged : bool;
  fr_model_type : string;
  fr_yolo_classes : Z;
}.

Inductive response : Type :=
| Json_ok (r : final_results)
| Json_error (msg : string) (code : Z).

(** The state a request runs in: the file system, and the crops handed to
    the verifier so far (a record of the calls, for the properties that
    count them). *)
Record world := {
  w_fs : FS;
  w_verifier_calls : list bytes;
}.

Definition with_verification (d : defect) (c : cnn_result) : defect :=
  {| d_class := d_class d; d_class_id := d_class_id d;
     d_confidence := d_confidence d; d_bbox := d_bbox d;
     d_source := d_source d;
     d_verification :=
       Some {| v_verdict := cnn_verdict c;
               v_confidence := cnn_confidence c;
               v_heatmap := cnn_heatmap_image c |} |}.

(** The bounding box as line 133 leaves it:
    [max(0, x1), max(0, y1), min(w, x2), min(h, y2)]. *)
Definition clamp_bbox (img : image) (bbox : Z * Z * Z * Z) : Z * Z * Z * Z :=
  let '(x1, y1, x2, y2) := bbox in
  let '(h, w) := shape2 img in
  (Z.max 0 x1, Z.max 0 y1, Z.min w x2, Z.min h y2).

Definition crop_bbox (img : image) (bbox : Z * Z * Z * Z) : image :=
  let '(x1, y1, x2, y2) := clamp_bbox img bbox in
  crop_image img y1 y2 x1 x2.

(** Steps 2 and 3, the [for defect in yolo_results.get("defects", [])]
    loop, with its two accumulators. *)
Fixpoint verify_loop (img_cv : option image) (defects : list defect)
    (verified_defects discarded_defects : list defect) (calls : list bytes)
  : res (list defect * list defect) * list bytes :=
  match defects with
  | [] => (Ok (verified_defects, discarded_defects), calls)
  | d :: rest =>
      match img_cv with
      | None => (Raise (none_shape_error E), calls)
      | Some img =>
          let crop := crop_bbox img (d_bbox d) in
          if ndarray_size crop =? 0 then
            verify_loop img_cv rest verified_defects discarded_defects calls
          else
            match imencode_jpg E crop with
            | None =>
                verify_loop img_cv rest verified_defects discarded_defects calls
            | Some crop_bytes =>
                match predict_cnn_lstm E crop_bytes with
                | Raise m => (Raise m, (calls ++ [crop_bytes])%list)
                | Ok cnn =>
                    let d' := with_verification d cnn in
                    if String.eqb (cnn_verdict cnn) "DEFECTIVE" then
                      verify_loop img_cv rest (verified_defects ++ [d'])%list
                        discarded_defects (calls ++ [crop_bytes])%list
                    else
                      verify_loop img_cv rest verified_defects
                        (discarded_defects ++ [d'])%list (calls ++ [crop_bytes])%list
                end
            end
      end
  end.

(** Line 154. *)
Definition aggregate_status (verified_defects : list defect)
    (anomaly : anomaly_result) : string :=
  if (0 <? Z.of_nat (length verified_defects))
     || String.eqb (a_status anomaly) "ANOMALY"
  then "FAIL" else "PASS".

Definition al_is_flagged (s : al_status) : bool :=
  match s with AL_FLAGGED _ _ => true | _ => false end.

Definition pipeline (timestamp : string) (request_image : option upload)
    (wd : world) : response * world :=
  match request_image with
  | None => (Json_error "No image uploaded" 400, wd)
  | Some file =>
      if String.eqb (up_filename file) "" then
        (Json_error "No image selected" 400, wd)
      else
        let image_bytes := up_content file in
        match detect_anomaly image_bytes with
        | Raise m => (Json_error m 500, wd)
        | Ok anomaly =>
            match predict_defects image_bytes with
            | Raise m => (Json_error m 500, wd)
            | Ok yolo =>
                let '(al, fs1) :=
                  handle_detection timestamp image_bytes (y_confidence yolo) 0
                    (w_fs wd) in
                let img_cv := imdecode E image_bytes in
                match verify_loop img_cv (y_defects yolo) [] []
                        (w_verifier_calls wd) with
                | (Raise m, calls) =>
                    (Json_error m 500,
                     {| w_fs := fs1; w_verifier_calls := calls |})
                | (Ok (verified_defects, discarded_defects), calls) =>
                    (Json_ok
                       {| fr_status :=
                            aggregate_status verified_defects anomaly;
                          fr_defects := verified_defects;
                          fr_discarded_defects := discarded_defects;
                          fr_confidence := y_confidence yolo;
                          fr_annotated_image := y_annotated_image yolo;
                          fr_anomaly_info := anomaly;
                          fr_active_learning_flagged := al_is_flagged al;
                          fr_model_type := "YOLOv8 + CNN-LSTM + TF-Anomaly";
                          fr_yolo_classes := y_classes yolo |},
                     {| w_fs := fs1; w_verifier_calls := calls |})
                end
            end
        end
  end.

(** ** training/incremental_retrain.py *)

Definition backslash : ascii := ascii_of_nat 92.

(** [s.replace(backslash, "/")] *)
Fixpoint replace_backslash (s : string) : string :=
  match s with
  | EmptyString => EmptyString
  | String c r =>
      String (if Ascii.eqb c backslash then "/"%char else c)
        (replace_backslash r)
  end.

Definition abs_yaml : dataset_yaml :=
  {| yaml_path := replace_backslash (labeled_dir_path E);
     yaml_train := ".";
     yaml_val := ".";
     yaml_nc := 10;
     yaml_names :=
       [(0, "crack"); (1, "blowhole"); (2, "break"); (3, "fray");
        (4, "open"); (5, "short"); (6, "mousebite"); (7, "spur");
        (8, "copper"); (9, "pin_hole")] |}.

Definition create_incremental_dataset_yaml (fs : FS) : string * FS :=
  ("incremental_dataset.yaml", set_incremental_yaml (Some (Yaml abs_yaml)) fs).

(** [consumed_dir.mkdir(exist_ok=True)] *)
Definition mkdir_consumed (fs : FS) : FS :=
  set_consumed (Some (default ∅ (consumed fs))) fs.

(** [shutil.move(str(f), str(consumed_dir / f.name))], in the directory
    [mkdir_consumed] has made. *)
Definition move_to_consumed (name : string) (f : file) (fs : FS) : FS :=
  set_consumed (Some (<[name := f]> (default ∅ (consumed fs))))
    (set_labeled (delete name (labeled fs)) fs).

(** [for f in NEWLY_LABELED_DIR.iterdir(): if f.is_file(): shutil.move(...)],
    over the names the directory listing gave. *)
Fixpoint consume_loop (names : list string) (fs : FS) : FS :=
  match names with
  | [] => fs
  | name :: rest =>
      match labeled fs !! name with
      | Some f => consume_loop rest (move_to_consumed name f fs)
      | None => consume_loop rest fs
      end
  end.

(** [training] stands for [YOLO(str(MODEL_OUT))] and [model.train(...)]
    on the dataset file, and for everything else that happens to the file
    system until they return: the trainer writes its checkpoints, and the
    web service goes on serving [label_image]. *)
Definition run_incremental_retraining
    (training : string -> FS -> res unit * FS) (fs : FS) : res bool * FS :=
  let labeled_images := glob_jpg (labeled fs) in
  match labeled_images with
  | [] => (Ok false, fs)
  | _ :: _ =>
      let '(dataset_yaml, fs1) := create_incremental_dataset_yaml fs in
      match model_out fs1 with
      | None => (Ok false, fs1)
      | Some _ =>
          match training dataset_yaml fs1 with
          | (Raise m, fs2) => (Raise m, fs2)
          | (Ok _, fs2) =>
              match best_weights fs2 with
              | Some new_best =>
                  match model_out fs2 with
                  | None => (Raise "No such file or directory", fs2)
                  | Some old_best =>
                      (* shutil.copy2(MODEL_OUT, backup_model) *)
                      let fs3 := set_backup_model (Some old_best) fs2 in
                      (* shutil.copy2(best_weights, MODEL_OUT) *)
                      let fs4 := set_model_out (Some new_best) fs3 in
                      let fs5 := mkdir_consumed fs4 in
                      let names := map fst (map_to_list (labeled fs5)) in
                      (Ok true, consume_loop names fs5)
                  end
              | None => (Ok true, fs2)
              end
          end
      end
  end.

End Services.

(** ** An example deployment

    A concrete environment and file system on which the definitions run:
    a 2 x 2 image, a codec that cannot encode one-row crops, a verifier
    that answers DEFECTIVE, and a detector that reports four regions. *)
Module Example.

Definition img : image :=
  [[(0, 0, 0); (1, 1, 1)]; [(2, 2, 2); (3, 3, 3)]]%N.

Definition image_bytes : bytes := [Byte.x01].

Definition region (bbox : Z * Z * Z * Z) : defect :=
  {| d_class := "DEFECTIVE"; d_class_id := 1; d_confidence := 9 # 10;
     d_bbox := bbox; d_source := "DeepPCB-Binary"; d_verification := None |}.

(** The whole image; a region whose clamped box has zero width; a region
    outside the image; a one-row region. *)
Definition whole : defect := region (0, 0, 2, 2).
Definition zero_width : defect := region (2, 0, 7, 2).
Definition outside : defect := region (5, 5, 9, 9).
Definition one_row : defect := region (0, 0, 2, 1).

Definition detection : yolo_results :=
  {| y_status := "FAIL";
     y_defects := [whole; zero_width; outside; one_row];
     y_confidence := 9 # 10;
     y_annotated_image := "";
     y_classes := 2 |}.

Definition verdict : cnn_result :=
  {| cnn_verdict := "DEFECTIVE"; cnn_confidence := 4 # 5;
     cnn_heatmap_image := "" |}.

Definition env : Env :=
  {| CONFIDENCE_THRESHOLD := 1 # 2;
     TRIGGER_COUNT := 2;
     anomaly_threshold := 1 # 2;
     labeled_dir_path := "/srv/active_learning/newly_labeled";
     pending_dir_name := "review_pending";
     NAME_MAX := 255;
     imdecode := fun b => match b with [] => None | _ => Some img end;
     imencode_jpg :=
       fun crop => if (length crop =? 1)%nat then None else Some [Byte.x02];
     imwrite_error := "!_img.empty()";
     none_shape_error := "'NoneType' object has no attribute 'shape'";
     autoencoder_model := None;
     yolo_infer := fun _ => Ok detection;
     predict_cnn_lstm := fun _ => Ok verdict |}.

(** [str] of the floats the examples use: [str(0.5)] and [str(1.0)]. *)
Definition str_float (q : Q) : string :=
  if Qeq_bool q (1 # 2) then "0.5"
  else if Qeq_bool q 1 then "1.0"
  else format_2f q.

Definition empty_fs : FS :=
  {| pending := ∅; labeled := ∅; consumed := None; model_out := None;
     backup_model := None; best_weights := None; incremental_yaml := None |}.

(** One image waiting for review. *)
Definition one_pending : FS := set_pending {[ "a.jpg" := Jpeg img ]} empty_fs.

(** One labeled image and no production model. *)
Definition no_model : FS := set_labeled {[ "a.jpg" := Jpeg img ]} empty_fs.

(** Two labeled images with one annotation file: the count is at the
    trigger of [env]. *)
Definition two_labeled : FS :=
  set_labeled
    {[ "a.jpg" := Jpeg img; "a.txt" := Text ""; "b.jpg" := Jpeg img ]}
    empty_fs.

(** One labeled image, one image still waiting, and a production model. *)
Definition ready : FS :=
  set_model_out (Some (Blob [Byte.x10]))
    (set_pending {[ "late.jpg" := Jpeg img ]} no_model).

Definition start : world := {| w_fs := empty_fs; w_verifier_calls := [] |}.

Definition request : option upload :=
  Some {| up_filename := "part.jpg"; up_content := image_bytes |}.

Definition full_box : box :=
  {[ "class_id" := JInt 0; "cx" := JFloat (1 # 2); "cy" := JFloat (1 # 2);
     "w" := JFloat 1; "h" := JFloat 1 ]}.

(** A training run during which the operator labels "late.jpg", and which
    ends with a new checkpoint. *)
Definition training_with_late_label (dataset : string) (fs : FS)
  : res unit * FS :=
  let fs' :=
    match label_image env str_float "late.jpg" "0" (Some [full_box]) fs with
    | Answered _ fs' => fs'
    | _ => fs
    end in
  (Ok tt, set_best_weights (Some (Blob [Byte.x11])) fs').

End Example.

(** ** Vocabulary of the statements *)

(** The lines of a file, one after the other. *)
Fixpoint join_lines (lines : list string) : string :=
  match lines with
  | [] => ""
  | l :: rest => l +:+ join_lines rest
  end.

(** A box that carries the five keys of an annotation. *)
Definition box_complete (b : box) : Prop :=
  is_Some (b !! "class_id") /\ is_Some (b !! "cx") /\ is_Some (b !! "cy")
  /\ is_Some (b !! "w") /\ is_Some (b !! "h").

(** [line] is the annotation of [b]: class id, cx, cy, w, h, separated by
    single spaces and ended by a newline. *)
Definition annotation_line (py_str_float : Q -> string) (b : box)
    (line : string) : Prop :=
  exists c cx cy w h,
    b !! "class_id" = Some c /\ b !! "cx" = Some cx /\ b !! "cy" = Some cy
    /\ b !! "w" = Some w /\ b !! "h" = Some h
    /\ line = py_str py_str_float c +:+ " " +:+ py_str py_str_float cx
               +:+ " " +:+ py_str py_str_float cy +:+ " "
               +:+ py_str py_str_float w +:+ " " +:+ py_str py_str_float h
               +:+ newline.

(** The answer of [label_image] for an id that is not pending. *)
Definition NotFound : label_result := L_error "File not found".

(** The name of the annotation file that goes with an image. *)
Definition sidecar_name (filename : string) : string :=
  rsplit_dot_head filename +:+ ".txt".

(** Width and height of the clamped box. *)
Definition clamped_width (img : image) (bbox : Z * Z * Z * Z) : Z :=
  let '(x1, _, x2, _) := clamp_bbox img bbox in x2 - x1.

Definition clamped_height (img : image) (bbox : Z * Z * Z * Z) : Z :=
  let '(_, y1, _, y2) := clamp_bbox img bbox in y2 - y1.

(** What the loop of [pipeline] hands to the verifier for one region: the
    encoded crop, if the crop is not empty and encodes. *)
Definition crop_to_verify (E : Env) (img : image) (d : defect)
  : option bytes :=
  let crop := crop_bbox img (d_bbox d) in
  if ndarray_size crop =? 0 then None else imencode_jpg E crop.

(** The detector's answer with another list of regions, and the
    environment with another detector: to compare a request with the one
    in which a region was not reported. *)
Definition with_defects (yolo : yolo_results) (defects : list defect)
  : yolo_results :=
  {| y_status := y_status yolo; y_defects := defects;
     y_confidence := y_confidence yolo;
     y_annotated_image := y_annotated_image yolo;
     y_classes := y_classes yolo |}.

Definition with_yolo_infer (E : Env)
    (detector : image -> res yolo_results) : Env :=
  {| CONFIDENCE_THRESHOLD := CONFIDENCE_THRESHOLD E;
     TRIGGER_COUNT := TRIGGER_COUNT E;
     anomaly_threshold := anomaly_threshold E;
     labeled_dir_path := labeled_dir_path E;
     pending_dir_name := pending_dir_name E;
     NAME_MAX := NAME_MAX E;
     imdecode := imdecode E;
     imencode_jpg := imencode_jpg E;
     imwrite_error := imwrite_error E;
     none_shape_error := none_shape_error E;
     autoencoder_model := autoencoder_model E;
     yolo_infer := detector;
     predict_cnn_lstm := predict_cnn_lstm E |}.


(** What the detector reported of a region: the entry without the
    verification [pipeline] attaches. *)
Definition detected (d : defect) : string * Z * Q * (Z * Z * Z * Z) * string :=
  (d_class d, d_class_id d, d_confidence d, d_bbox d, d_source d).

(** An image of [h] rows of [w] pixels, as [cv2.imdecode] gives them. *)
Definition rectangular (img : image) (h w : Z) : Prop :=
  Z.of_nat (length img) = h
  /\ Forall (fun row => Z.of_nat (length row) = w) img.

(** ** Further example deployments *)
Module Scenario.

(** A detector that finds nothing, with confidence 0. *)
Definition nothing_detected : yolo_results :=
  {| y_status := "PASS"; y_defects := []; y_confidence := 0;
     y_annotated_image := ""; y_classes := 2 |}.

(** An autoencoder with reconstruction error 0.9 against the threshold
    0.5, and a detector that finds nothing. *)
Definition anomalous : Env :=
  {| CONFIDENCE_THRESHOLD := 1 # 2;
     TRIGGER_COUNT := 2;
     anomaly_threshold := 1 # 2;
     labeled_dir_path := "/srv/active_learning/newly_labeled";
     pending_dir_name := "review_pending";
     NAME_MAX := 255;
     imdecode := imdecode Example.env;
     imencode_jpg := imencode_jpg Example.env;
     imwrite_error := imwrite_error Example.env;
     none_shape_error := none_shape_error Example.env;
     autoencoder_model := Some (fun _ => Ok (9 # 10));
     yolo_infer := fun _ => Ok nothing_detected;
     predict_cnn_lstm := fun _ => Ok Example.verdict |}.

(** An autoencoder whose reconstruction error equals the threshold. *)
Definition at_threshold : Env :=
  {| CONFIDENCE_THRESHOLD := 1 # 2;
     TRIGGER_COUNT := 2;
     anomaly_threshold := 1 # 2;
     labeled_dir_path := "/srv/active_learning/newly_labeled";
     pending_dir_name := "review_pending";
     NAME_MAX := 255;
     imdecode := imdecode Example.env;
     imencode_jpg := imencode_jpg Example.env;
     imwrite_error := imwrite_error Example.env;
     none_shape_error := none_shape_error Example.env;
     autoencoder_model := Some (fun _ => Ok (1 # 2));
     yolo_infer := fun _ => Ok nothing_detected;
     predict_cnn_lstm := fun _ => Ok Example.verdict |}.

(** A detector that reports the whole image with confidence 0.3, and a
    verifier that raises. *)
Definition unsure : yolo_results :=
  {| y_status := "FAIL"; y_defects := [Example.whole];
     y_confidence := 3 # 10; y_annotated_image := ""; y_classes := 2 |}.

Definition failing_verifier : Env :=
  {| CONFIDENCE_THRESHOLD := 1 # 2;
     TRIGGER_COUNT := 2;
     anomaly_threshold := 1 # 2;
     labeled_dir_path := "/srv/active_learning/newly_labeled";
     pending_dir_name := "review_pending";
     NAME_MAX := 255;
     imdecode := imdecode Example.env;
     imencode_jpg := imencode_jpg Example.env;
     imwrite_error := imwrite_error Example.env;
     none_shape_error := none_shape_error Example.env;
     autoencoder_model := None;
     yolo_infer := fun _ => Ok unsure;
     predict_cnn_lstm := fun _ => Raise "Could not decode the uploaded image." |}.

Definition part : upload :=
  {| up_filename := "part.jpg"; up_content := Example.image_bytes |}.

Definition unreadable : upload :=
  {| up_filename := "part.jpg"; up_content := [] |}.

(** A region that lies entirely to the left of the 2 x 2 image, and a
    detector that reports it alone. *)
Definition left_of_image : defect := Example.region (-5, 0, -1, 2).

Definition detects_left : Env :=
  with_yolo_infer Example.env
    (fun _ => Ok (with_defects Example.detection [left_of_image])).

End Scenario.

(** ** services/model_service.py, the result of [predict_defects]

    What lines 64-107 make of the rows of [results.boxes.data.tolist()];
    an [Env] whose [yolo_infer] is [assemble_results] of the model's rows
    is the service as the repository has it. *)

(** One row: x1, y1, x2, y2, conf, class_id, all floats. *)
Record yolo_box := {
  b_x1 : Q;
  b_y1 : Q;
  b_x2 : Q;
  b_y2 : Q;
  b_conf : Q;
  b_class_id : Q;
}.

(** [int(x)]: towards zero. *)
Definition py_int (q : Q) : Z := Z.quot (Qnum q) (Zpos (Qden q)).

(** [round(x, 4)]: four decimals, ties to even. *)
Definition round4 (q : Q) : Q :=
  let r := round_half_even (Z.abs (Qnum q) * 10000) (Zpos (Qden q)) in
  Qmake (if Qnum q <? 0 then - r else r) 10000.

(** [CLASS_INFO], name and source of a class id. *)
Definition CLASS_INFO : gmap Z (string * string) :=
  {[ 0 := ("GOOD", "DeepPCB-Binary"); 1 := ("DEFECTIVE", "DeepPCB-Binary") ]}.

(** [CLASS_INFO.get(cls_id, {"name": model.names.get(cls_id, "Unknown"),
    "source": "-"})] *)
Definition class_meta (names : gmap Z string) (cls_id : Z) : string * string :=
  match CLASS_INFO !! cls_id with
  | Some meta => meta
  | None => (default "Unknown" (names !! cls_id), "-")
  end.

Definition defect_of_box (names : gmap Z string) (b : yolo_box) : defect :=
  let cls_id := py_int (b_class_id b) in
  let cls_meta := class_meta names cls_id in
  {| d_class := fst cls_meta;
     d_class_id := cls_id;
     d_confidence := round4 (b_conf b);
     d_bbox := (py_int (b_x1 b), py_int (b_y1 b), py_int (b_x2 b),
                py_int (b_y2 b));
     d_source := snd cls_meta;
     d_verification := None |}.

(** [defects.sort(key=lambda d: d["confidence"], reverse=True)]: a stable
    sort, so the result is the one of inserting the entries, in their
    order, each behind the entries of at least its confidence. *)
Fixpoint insert_desc (d : defect) (sorted : list defect) : list defect :=
  match sorted with
  | [] => [d]
  | x :: rest =>
      if Qle_bool (d_confidence d) (d_confidence x)
      then x :: insert_desc d rest
      else d :: x :: rest
  end.

Definition sort_desc (defects : list defect) : list defect :=
  fold_left (fun sorted d => insert_desc d sorted) defects [].

(** [max(max_conf, conf)] over the rows, from [0.0]. *)
Definition max_conf_of (boxes : list yolo_box) : Q :=
  fold_left (fun m b => if Qltb m (b_conf b) then b_conf b else m) boxes 0%Q.

Definition assemble_results (names : gmap Z string) (boxes : list yolo_box)
    (annotated : string) : yolo_results :=
  let defects := sort_desc (map (defect_of_box names) boxes) in
  let max_conf := max_conf_of boxes in
  {| y_status := match defects with [] => "PASS" | _ => "FAIL" end;
     y_defects := defects;
     y_confidence := if Qltb 0 max_conf then round4 max_conf else 0%Q;
     y_annotated_image := annotated;
     y_classes := Z.of_nat (size CLASS_INFO) |}.

(** ** services/cnn_lstm_service.py, [predict_cnn_lstm]

    [classifier] stands for the preprocessing, Grad-CAM and the forward
    pass: it gives P(defective) and the heatmap for a decoded image. *)
Record cnn_lstm_result := {
  cl_verdict : string;
  cl_verdict_label : string;
  cl_confidence : Q;
  cl_heatmap_image : string;
  cl_model_type : string;
  cl_model_loaded : bool;
  cl_defect_probability : Q;
  cl_healthy_probability : Q;
  cl_threshold : Q;
}.

Definition predict_cnn_lstm_service (decode : bytes -> option image)
    (classifier : image -> res (Q * string)) (model_loaded : bool)
    (image_bytes : bytes) : res cnn_lstm_result :=
  match decode image_bytes with
  | None => Raise "Could not decode the uploaded image."
  | Some img_cv =>
      match classifier img_cv with
      | Raise m => Raise m
      | Ok (prob, heatmap_b64) =>
          Ok {| cl_verdict := if Qltb (1 # 2) prob then "DEFECTIVE" else "GOOD";
                cl_verdict_label := if Qltb (1 # 2) prob then "FAIL" else "PASS";
                cl_confidence := round4 prob;
                cl_heatmap_image := heatmap_b64;
                cl_model_type := "CNN+LSTM";
                cl_model_loaded := model_loaded;
                cl_defect_probability := round4 prob;
                cl_healthy_probability := round4 (1 - prob);
                cl_threshold := 1 # 2 |}
      end
  end.

(** The keys of the verifier's answer that [pipeline] reads. *)
Definition cnn_result_of (c : cnn_lstm_result) : cnn_result :=
  {| cnn_verdict := cl_verdict c;
     cnn_confidence := cl_confidence c;
     cnn_heatmap_image := cl_heatmap_image c |}.

Definition res_map {A B} (f : A -> B) (r : res A) : res B :=
  match r with Ok a => Ok (f a) | Raise m => Raise m end.

(** ** app.py, the history and the other routes *)

Record history_entry := {
  h_id : Z;
  h_timestamp : string;
  h_filename : string;
  h_model : string;
  h_verdict : option string;
  h_confidence : Q;
  h_num_defects : Z;
}.

(** The keys [_record_history] reads of a result dict, [None] for a key
    the dict does not have. *)
Record result_keys := {
  k_verdict_label : option string;
  k_status : option string;
  k_confidence : option Q;
  k_defects : option nat;
}.

(** [a or b] on strings that may be missing: the empty string is false. *)
Definition py_or (a b : option string) : option string :=
  match a with
  | Some s => if String.eqb s "" then b else Some s
  | None => b
  end.

(** [deque(maxlen=50)] *)
Definition history_maxlen : nat := 50.

(** [history_store.appendleft(entry)]: a full deque drops its last. *)
Definition appendleft (entry : history_entry) (store : list history_entry)
  : list history_entry :=
  take history_maxlen (entry :: store).

Definition _record_history (now : string) (filename model_type : string)
    (result : result_keys) (history_store : list history_entry)
  : list history_entry :=
  let entry :=
    {| h_id := Z.of_nat (length history_store) + 1;
       h_timestamp := now;
       h_filename := filename;
       h_model := model_type;
       h_verdict := py_or (k_verdict_label result) (k_status result);
       h_confidence := default 0%Q (k_confidence result);
       h_num_defects := Z.of_nat (default 0%nat (k_defects result)) |} in
  appendleft entry history_store.

Definition keys_of_yolo (y : yolo_results) : result_keys :=
  {| k_verdict_label := None; k_status := Some (y_status y);
     k_confidence := Some (y_confidence y);
     k_defects := Some (length (y_defects y)) |}.

Definition keys_of_cnn (c : cnn_lstm_result) : result_keys :=
  {| k_verdict_label := Some (cl_verdict_label c); k_status := None;
     k_confidence := Some (cl_confidence c); k_defects := None |}.

Definition keys_of_final (r : final_results) : result_keys :=
  {| k_verdict_label := None; k_status := Some (fr_status r);
     k_confidence := Some (fr_confidence r);
     k_defects := Some (length (fr_defects r)) |}.

(** What a route answers: [jsonify(value)], or [jsonify({"error": msg})]
    with a status code. *)
Inductive reply (A : Type) : Type :=
| Reply (value : A)
| Reply_error (msg : string) (code : Z).
Arguments Reply {A} value.
Arguments Reply_error {A} msg code.

(** [/api/detect] *)
Definition detect (E : Env) (now : string) (request_image : option upload)
    (history_store : list history_entry)
  : reply yolo_results * list history_entry :=
  match request_image with
  | None => (Reply_error "No image uploaded" 400, history_store)
  | Some file =>
      match predict_defects E (up_content file) with
      | Raise m => (Reply_error m 500, history_store)
      | Ok results =>
          (Reply results,
           _record_history now (up_filename file) "YOLOv8"
             (keys_of_yolo results) history_store)
      end
  end.

(** [/api/cnn-detect], for the verifier service [verifier]. *)
Definition cnn_detect (verifier : bytes -> res cnn_lstm_result) (now : string)
    (request_image : option upload) (history_store : list history_entry)
  : reply cnn_lstm_result * list history_entry :=
  match request_image with
  | None => (Reply_error "No image uploaded" 400, history_store)
  | Some file =>
      match verifier (up_content file) with
      | Raise m => (Reply_error m 500, history_store)
      | Ok results =>
          (Reply results,
           _record_history now (up_filename file) "CNN+LSTM"
             (keys_of_cnn results) history_store)
      end
  end.

(** [/api/pipeline] with its entry in the history: [pipeline] above, then
    [_record_history(file.filename, "Pipeline", final_results)]. *)
Definition api_pipeline (E : Env) (timestamp now : string)
    (request_image : option upload) (wd : world)
    (history_store : list history_entry)
  : response * world * list history_entry :=
  let '(resp, wd') := pipeline E timestamp request_image wd in
  match resp, request_image with
  | Json_ok r, Some file =>
      (resp, wd',
       _record_history now (up_filename file) "Pipeline" (keys_of_final r)
         history_store)
  | _, _ => (resp, wd', history_store)
  end.

(** [/api/history] *)
Definition history (history_store : list history_entry)
  : list history_entry * Z :=
  (history_store, Z.of_nat (length history_store)).




(** [/api/pending-images] *)
Definition get_pending (fs : FS) : list string * FS := get_pending_images fs.

(** ** app.py, [/api/report] *)

(** The keys [generate_report] reads of the posted dict, [None] for a
    missing key: of each defect its "class", of "model_info" its "type",
    of "anomaly_info" its "status". *)
Record report_data := {
  rd_status : option string;
  rd_verdict_label : option string;
  rd_verdict : option string;
  rd_defects : option (list (option string));
  rd_confidence : option Q;
  rd_model_info_type : option string;
  rd_model_type : option string;
  rd_anomaly_status : option string;
  rd_active_learning_flagged : option bool;
}.

Record report := {
  rp_report_id : string;
  rp_timestamp : string;
  rp_model_used : option string;
  rp_verdict : string;
  rp_confidence : Q;
  rp_num_defects : Z;
  rp_defect_classes : gset string;   (* [list(set)], in no fixed order *)
  rp_anomaly_status : string;
  rp_active_learning_flagged : bool;
  rp_recommendation : string;
}.

(** [s.upper()] on ASCII letters. *)
Definition upper_ascii (c : ascii) : ascii :=
  let n := nat_of_ascii c in
  if ((97 <=? n) && (n <=? 122))%nat then ascii_of_nat (n - 32) else c.

Fixpoint upper (s : string) : string :=
  match s with
  | EmptyString => EmptyString
  | String c r => String (upper_ascii c) (upper r)
  end.

(** [{d["class"] for d in defects}]: a defect without the key raises. *)
Fixpoint defect_classes (defects : list (option string))
  : res (gset string) :=
  match defects with
  | [] => Ok ∅
  | None :: _ => Raise "'class'"
  | Some c :: rest =>
      match defect_classes rest with
      | Ok classes => Ok ({[ c ]} ∪ classes)
      | Raise m => Raise m
      end
  end.

(** [uuid_hex] is [uuid.uuid4().hex], [now] is [datetime.now().isoformat()];
    a body that is missing or empty is [None]. *)
Definition generate_report (uuid_hex now : string)
    (request_json : option report_data) : reply report :=
  match request_json with
  | None => Reply_error "No data provided" 400
  | Some data =>
      let status :=
        py_or (py_or (rd_status data) (rd_verdict_label data))
          (Some (default "UNKNOWN" (rd_verdict data))) in
      let defects := default [] (rd_defects data) in
      let conf := default 0%Q (rd_confidence data) in
      let model := py_or (rd_model_info_type data)
                     (Some (default "Unknown" (rd_model_type data))) in
      let is_pass :=
        match status with
        | Some s => String.eqb s "PASS" || String.eqb s "GOOD"
        | None => false
        end in
      match defect_classes defects with
      | Raise m => Reply_error m 500
      | Ok classes =>
          Reply
            {| rp_report_id := "RPT-" +:+ upper (substring 0 8 uuid_hex);
               rp_timestamp := now;
               rp_model_used := model;
               rp_verdict := if is_pass then "PASS" else "FAIL";
               rp_confidence := round4 conf;
               rp_num_defects := Z.of_nat (length defects);
               rp_defect_classes := classes;
               rp_anomaly_status := default "N/A" (rd_anomaly_status data);
               rp_active_learning_flagged :=
                 default false (rd_active_learning_flagged data);
               rp_recommendation :=
                 if is_pass
                 then "✅ Component passed inspection. Clear for assembly."
                 else "❌ " +:+ pretty (Z.of_nat (length defects))
                        +:+ " defect(s) detected. Remove component from production line." |}
      end
  end.

(** The dict [/api/pipeline] answers with, as [/api/report] reads it when
    it is posted back. *)
Definition report_data_of_final (r : final_results) : report_data :=
  {| rd_status := Some (fr_status r);
     rd_verdict_label := None;
     rd_verdict := None;
     rd_defects := Some (map (fun d => Some (d_class d)) (fr_defects r));
     rd_confidence := Some (fr_confidence r);
     rd_model_info_type := Some (fr_model_type r);
     rd_model_type := None;
     rd_anomaly_status := Some (a_status (fr_anomaly_info r));
     rd_active_learning_flagged := Some (fr_active_learning_flagged r) |}.

(** ** A deployment with the two services as the repository has them *)
Module Traffic.

(** Two rows of the model: the whole image, once with confidence 0.61234
    and class 1, once with confidence 0.95 and class 0. *)
Definition rows : list yolo_box :=
  [ {| b_x1 := 2 # 10; b_y1 := 7 # 10; b_x2 := 2; b_y2 := 2;
       b_conf := 61234 # 100000; b_class_id := 1 |};
    {| b_x1 := 0; b_y1 := 0; b_x2 := 2; b_y2 := 2;
       b_conf := 95 # 100; b_class_id := 0 |} ].

(** A classifier that gives P(defective) = 0.7. *)
Definition classifier (i : image) : res (Q * string) := Ok (7 # 10, "heat").

Definition verifier (image_bytes : bytes) : res cnn_lstm_result :=
  predict_cnn_lstm_service (fun _ => Some Example.img) classifier true
    image_bytes.

Definition env : Env :=
  {| CONFIDENCE_THRESHOLD := 1 # 2;
     TRIGGER_COUNT := 2;
     anomaly_threshold := 1 # 2;
     labeled_dir_path := "/srv/active_learning/newly_labeled";
     pending_dir_name := "review_pending";
     NAME_MAX := 255;
     imdecode := imdecode Example.env;
     imencode_jpg := imencode_jpg Example.env;
     imwrite_error := imwrite_error Example.env;
     none_shape_error := none_shape_error Example.env;
     autoencoder_model := None;
     yolo_infer := fun _ => Ok (assemble_results ∅ rows "");
     predict_cnn_lstm := fun b => res_map cnn_result_of (verifier b) |}.

(** A history that is full: fifty entries. *)
Definition old_entry : history_entry :=
  {| h_id := 1; h_timestamp := "2024-01-01 00:00:00"; h_filename := "old.jpg";
     h_model := "YOLOv8"; h_verdict := Some "PASS"; h_confidence := 0;
     h_num_defects := 0 |}.

Definition full_history : list history_entry := replicate 50 old_entry.

End Traffic.

(** * Properties *)

(** ** The active-learning gate and the review store *)

Lemma Qltb_true (a b : Q) : (a < b)%Q -> Qltb a b = true.
Proof.
  intros Hlt. unfold Qltb.
  destruct (Qle_bool b a) eqn:Hle; [|reflexivity].
  apply Qle_bool_iff in Hle. exfalso. exact (Qlt_not_le _ _ Hlt Hle).
Qed.

Lemma Qltb_false (a b : Q) : (b <= a)%Q -> Qltb a b = false.
Proof.
  intros Hle. unfold Qltb.
  apply Qle_bool_iff in Hle. rewrite Hle. reflexivity.
Qed.

(** Inside [pipeline] the gate is reached only with bytes that decode. *)
Lemma predict_defects_decodes (E : Env) (image_bytes : bytes)
    (yolo : yolo_results) :
  predict_defects E image_bytes = Ok yolo ->
  exists i, imdecode E image_bytes = Some i.
Proof.
  unfold predict_defects.
  destruct (imdecode E image_bytes) as [i|]; [by eexists | discriminate].
Qed.

(** Bytes that do not decode make [cv2.imwrite] raise: the gate answers
    ERROR and stores nothing. *)
Lemma handle_detection_undecodable (E : Env) (timestamp : string)
    (image_bytes : bytes) (c : Q) (class_id : Z) (fs : FS) :
  (c < CONFIDENCE_THRESHOLD E)%Q ->
  imdecode E image_bytes = None ->
  handle_detection E timestamp image_bytes c class_id fs
  = (AL_ERROR (imwrite_error E), fs).
Proof.
  intros Hlt Hdec. unfold handle_detection.
  by rewrite (Qltb_true _ _ Hlt), Hdec.
Qed.

(** The gate when the generated name is new: a confidence strictly below
    the threshold stores the decoded image as one new pending item, under
    the generated name, and answers FLAGGED with that name; a confidence at
    or above the threshold answers OK and leaves the file system as it
    was. *)
Theorem handle_detection_gate (E : Env) (timestamp : string)
    (image_bytes : bytes) (c : Q) (class_id : Z) (fs : FS) :
  ((c < CONFIDENCE_THRESHOLD E)%Q ->
   forall i, imdecode E image_bytes = Some i ->
   pending fs !! pending_filename timestamp c class_id = None ->
   exists fs',
     handle_detection E timestamp image_bytes c class_id fs
       = (AL_FLAGGED (pending_filename timestamp c class_id)
            "Low confidence score", fs')
     /\ fs' = set_pending
                (<[pending_filename timestamp c class_id := Jpeg i]>
                   (pending fs)) fs
     /\ size (pending fs') = S (size (pending fs))
     /\ forall name, name <> pending_filename timestamp c class_id ->
          pending fs' !! name = pending fs !! name)
  /\ ((CONFIDENCE_THRESHOLD E <= c)%Q ->
      handle_detection E timestamp image_bytes c class_id fs = (AL_OK, fs)).
Proof.
  split.
  - intros Hlt i Hdec Hfresh. unfold handle_detection.
    rewrite (Qltb_true _ _ Hlt), Hdec. cbn.
    eexists. split; [reflexivity|]. split; [reflexivity|]. cbn. split.
    + by apply map_size_insert_None.
    + intros name Hne. by rewrite lookup_insert_ne.
  - intros Hle. unfold handle_detection. by rewrite (Qltb_false _ _ Hle).
Qed.

Lemma handle_detection_gate_witness :
  (exists fs',
     handle_detection Example.env "20240101_120000_000001" Example.image_bytes
       (3 # 10) 0 Example.empty_fs
       = (AL_FLAGGED "review_pending_20240101_120000_000001_conf0.30_cls0.jpg"
            "Low confidence score", fs')
     /\ size (pending fs') = 1%nat)
  /\ handle_detection Example.env "20240101_120000_000001" Example.image_bytes
       (1 # 2) 0 Example.empty_fs = (AL_OK, Example.empty_fs).
Proof.
  destruct (handle_detection_gate Example.env "20240101_120000_000001"
              Example.image_bytes (3 # 10) 0 Example.empty_fs) as [Hlow _].
  destruct (handle_detection_gate Example.env "20240101_120000_000001"
              Example.image_bytes (1 # 2) 0 Example.empty_fs) as [_ Hhigh].
  split.
  - destruct (Hlow ltac:(reflexivity) Example.img ltac:(reflexivity)
                ltac:(reflexivity)) as (fs' & Hrun & _ & Hsize & _).
    exists fs'. split; [exact Hrun | exact Hsize].
  - apply Hhigh. cbv. discriminate.
Defined.

(** C7, the part the code breaks: a confidence below the threshold is
    answered FLAGGED with the generated name and the image is stored under
    it, but that is a new pending item only if the name is new.  The name
    is made of the timestamp, the confidence printed with two decimals and
    the class id, so a second detection that reads the same timestamp, with
    a confidence that prints alike and the same class id, is answered
    FLAGGED with the same name and creates no item: the pending directory
    is as large as after the first, and the image of the first is
    replaced. *)
Theorem handle_detection_name_collision (E : Env) (timestamp : string)
    (bytes1 bytes2 : bytes) (c1 c2 : Q) (class_id : Z) (fs : FS)
    (i1 i2 : image) :
  (c1 < CONFIDENCE_THRESHOLD E)%Q ->
  (c2 < CONFIDENCE_THRESHOLD E)%Q ->
  imdecode E bytes1 = Some i1 ->
  imdecode E bytes2 = Some i2 ->
  format_2f c1 = format_2f c2 ->
  exists name fs1 fs2,
    name = pending_filename timestamp c1 class_id
    /\ handle_detection E timestamp bytes1 c1 class_id fs
       = (AL_FLAGGED name "Low confidence score", fs1)
    /\ handle_detection E timestamp bytes2 c2 class_id fs1
       = (AL_FLAGGED name "Low confidence score", fs2)
    /\ (size (pending fs1) = S (size (pending fs))
        <-> pending fs !! name = None)
    /\ pending fs1 !! name = Some (Jpeg i1)
    /\ size (pending fs2) = size (pending fs1)
    /\ pending fs2 !! name = Some (Jpeg i2)
    /\ pending fs2 = <[name := Jpeg i2]> (pending fs).
Proof.
  intros Hlt1 Hlt2 Hdec1 Hdec2 Hprint.
  assert (Hname : pending_filename timestamp c2 class_id
                  = pending_filename timestamp c1 class_id)
    by (unfold pending_filename; by rewrite Hprint).
  unfold handle_detection.
  rewrite (Qltb_true _ _ Hlt1), (Qltb_true _ _ Hlt2), Hdec1, Hdec2, Hname.
  set (name := pending_filename timestamp c1 class_id).
  cbn [imwrite_pending]. eexists name, _, _.
  split; [reflexivity|]. split; [reflexivity|]. split; [reflexivity|].
  cbn [pending set_pending]. split; [|split; [|split; [|split]]].
  - destruct (pending fs !! name) as [old|] eqn:Hold.
    + rewrite map_size_insert_Some by (by eexists).
      split; [lia | discriminate].
    + by rewrite map_size_insert_None.
  - apply lookup_insert_eq.
  - apply map_size_insert_Some. rewrite lookup_insert_eq. by eexists.
  - apply lookup_insert_eq.
  - apply insert_insert_eq.
Qed.

Lemma handle_detection_name_collision_witness :
  exists fs1 fs2,
    handle_detection Example.env "20240101_120000_000001" Example.image_bytes
      (3 # 10) 0 Example.empty_fs
    = (AL_FLAGGED "review_pending_20240101_120000_000001_conf0.30_cls0.jpg"
         "Low confidence score", fs1)
    /\ handle_detection Example.env "20240101_120000_000001" [Byte.x07]
         (301 # 1000) 0 fs1
       = (AL_FLAGGED "review_pending_20240101_120000_000001_conf0.30_cls0.jpg"
            "Low confidence score", fs2)
    /\ size (pending fs1) = 1%nat
    /\ size (pending fs2) = 1%nat.
Proof.
  destruct (handle_detection_name_collision Example.env
              "20240101_120000_000001" Example.image_bytes [Byte.x07]
              (3 # 10) (301 # 1000) 0 Example.empty_fs Example.img
              Example.img ltac:(reflexivity) ltac:(reflexivity)
              ltac:(reflexivity) ltac:(reflexivity) ltac:(reflexivity))
    as (name & fs1 & fs2 & Hname & Hrun1 & Hrun2 & Hnew & _ & Hsame & _ & _).
  assert (Hone : size (pending fs1) = 1%nat).
  { rewrite (proj2 Hnew); [reflexivity|]. rewrite Hname. reflexivity. }
  exists fs1, fs2. rewrite Hname in Hrun1, Hrun2.
  split; [exact Hrun1|]. split; [exact Hrun2|].
  split; [exact Hone|]. by rewrite Hsame.
Defined.

(** C9: the trigger fires exactly when the labeled count has reached the
    threshold, the count equal to the threshold included, and it leaves the
    file system as it was. *)
Theorem check_retrain_trigger_iff (E : Env) (fs : FS) :
  (fst (check_retrain_trigger E fs) = true
   <-> labeled_count fs >= TRIGGER_COUNT E)
  /\ (labeled_count fs = TRIGGER_COUNT E ->
      fst (check_retrain_trigger E fs) = true)
  /\ snd (check_retrain_trigger E fs) = fs.
Proof.
  unfold check_retrain_trigger. cbn. rewrite Z.leb_le.
  split; [lia|]. split; [lia | reflexivity].
Qed.

Lemma check_retrain_trigger_iff_witness :
  labeled_count Example.two_labeled = TRIGGER_COUNT Example.env
  /\ fst (check_retrain_trigger Example.env Example.two_labeled) = true
  /\ fst (check_retrain_trigger Example.env Example.no_model) = false.
Proof.
  destruct (check_retrain_trigger_iff Example.env Example.two_labeled)
    as (_ & Hat & _).
  split; [reflexivity|]. split; [apply Hat; reflexivity | reflexivity].
Defined.

Lemma append_assoc (a b c : string) : (a +:+ b) +:+ c = a +:+ (b +:+ c).
Proof.
  induction a as [|x a IH]; [reflexivity|].
  change (String x ((a +:+ b) +:+ c) = String x (a +:+ (b +:+ c))).
  by rewrite IH.
Qed.

Lemma append_empty_r (a : string) : a +:+ "" = a.
Proof.
  induction a as [|x a IH]; [reflexivity|].
  change (String x (a +:+ "") = String x a). by rewrite IH.
Qed.

Lemma box_line_complete (fmt : Q -> string) (b : box) :
  box_complete b -> exists line, box_line fmt b = Ok line
                                 /\ annotation_line fmt b line.
Proof.
  intros ([c Hc] & [cx Hcx] & [cy Hcy] & [w Hw] & [h Hh]).
  unfold box_line, box_get. rewrite Hc, Hcx, Hcy, Hw, Hh.
  eexists. split; [reflexivity|].
  exists c, cx, cy, w, h. repeat (split; [assumption|]). reflexivity.
Qed.

(** The writing loop on complete boxes: every box adds its line, in order. *)
Lemma write_boxes_complete (fmt : Q -> string) (boxes : list box) :
  Forall box_complete boxes ->
  exists lines,
    Forall2 (annotation_line fmt) boxes lines
    /\ forall written,
         write_boxes fmt boxes written
         = (Ok tt, written +:+ join_lines lines).
Proof.
  induction 1 as [|b boxes Hb _ IH].
  - exists []. split; [constructor|]. intros written. cbn.
    by rewrite append_empty_r.
  - destruct IH as (lines & Hlines & Hrun).
    destruct (box_line_complete fmt b Hb) as (line & Hline & Hann).
    exists (line :: lines). split; [by constructor|].
    intros written. cbn. rewrite Hline, Hrun. cbn.
    by rewrite append_assoc.
Qed.

Lemma elem_of_dir_names (dir : gmap string file) (k : string) :
  k ∈ map fst (map_to_list dir) <-> is_Some (dir !! k).
Proof.
  rewrite list_elem_of_fmap. split.
  - intros ([k' f] & -> & Hin). apply elem_of_map_to_list in Hin. by eexists.
  - intros [f Hf]. exists (k, f). split; [reflexivity|].
    by apply elem_of_map_to_list.
Qed.



(** What a call on a pending id does to the two directories, with boxes
    that carry their keys (or no boxes at all). *)
Lemma label_image_pending (E : Env) (fmt : Q -> string)
    (filename label_class : string) (boxes : option (list box)) (fs : FS)
    (f : file) :
  pending fs !! filename = Some f ->
  match boxes with None => True | Some bs => Forall box_complete bs end ->
  exists fs',
    label_image E fmt filename label_class boxes fs
    = Answered L_status_SUCCESS fs'
    /\ pending fs' = delete filename (pending fs)
    /\ match boxes with
       | None => labeled fs' = <[filename := f]> (labeled fs)
       | Some bs =>
           exists lines,
             Forall2 (annotation_line fmt) bs lines
             /\ labeled fs'
                = <[sidecar_name filename := Text (join_lines lines)]>
                    (<[filename := f]> (labeled fs))
       end.
Proof.
  intros Hf Hboxes. unfold label_image, pending_path_of. rewrite Hf.
  destruct boxes as [bs|].
  - destruct (write_boxes_complete fmt bs Hboxes) as (lines & Hlines & Hrun).
    rewrite Hrun. eexists. split; [reflexivity|]. cbn. split; [reflexivity|].
    exists lines. split; [exact Hlines | reflexivity].
  - eexists. split; [reflexivity|]. cbn. split; reflexivity.
Qed.



(** C5, the part the code breaks: the empty name and "." are the names of
    no pending item, and no listing shows them, yet [label_image] does not
    answer "File not found" for them.  [PENDING_DIR / filename] is then the
    pending directory itself, which exists: unless the labeled directory
    has an entry of that name already, the call moves the whole directory,
    with every pending item in it, into the labeled directory, writes the
    annotation file ".txt" there when boxes are passed, and answers
    SUCCESS. *)
Theorem label_image_pending_directory (E : Env) (fmt : Q -> string)
    (filename label_class : string) (boxes : option (list box)) (fs : FS) :
  filename = "" \/ filename = "." ->
  pending fs !! filename = None ->
  labeled fs !! pending_dir_name E = None ->
  pending_dir_name E <> ".txt" ->
  match boxes with None => True | Some bs => Forall box_complete bs end ->
(filename ∉ fst (get_pending_images fs))
  /\ label_image E fmt filename label_class boxes fs <> Answered NotFound fs
  /\ exists fs',
       label_image E fmt filename label_class boxes fs
       = Answered_pending_moved L_status_SUCCESS fs'
       /\ pending fs' = pending fs
       /\ match boxes with
          | None => labeled fs' = labeled fs
          | Some bs =>
              exists lines,
                Forall2 (annotation_line fmt) bs lines
                /\ labeled fs'
                   = <[".txt" := Text (join_lines lines)]> (labeled fs)
          end.
Proof.
  intros Hname Hnone Hfree Hdir Hboxes.
  assert (Hpath : pending_path_of E filename fs = Path_pending_dir).
  { unfold pending_path_of. rewrite Hnone. by destruct Hname as [-> | ->]. }
  assert (Hlabel : rsplit_dot_head filename +:+ ".txt" = ".txt")
    by (by destruct Hname as [-> | ->]).
  assert (Hrun : exists fs',
    label_image E fmt filename label_class boxes fs
    = Answered_pending_moved L_status_SUCCESS fs'
    /\ pending fs' = pending fs
    /\ match boxes with
       | None => labeled fs' = labeled fs
       | Some bs =>
           exists lines,
             Forall2 (annotation_line fmt) bs lines
             /\ labeled fs'
                = <[".txt" := Text (join_lines lines)]> (labeled fs)
       end).
  { unfold label_image. rewrite Hpath, Hfree.
    destruct boxes as [bs|].
    - rewrite Hlabel.
      destruct (String.eqb_spec ".txt" (pending_dir_name E)) as [Heq|_];
        [by symmetry in Heq|].
      destruct (write_boxes_complete fmt bs Hboxes)
        as (lines & Hlines & Hwrite).
      rewrite Hwrite. eexists. split; [reflexivity|]. cbn.
      split; [reflexivity|]. exists lines. by split.
    - eexists. by repeat split. }
  split.
  - unfold get_pending_images. cbn [fst]. rewrite elem_of_dir_names, Hnone.
    by intros [? ?].
  - split; [|exact Hrun].
    destruct Hrun as (fs' & -> & _). discriminate.
Qed.

Lemma label_image_pending_directory_witness :
  exists fs',
    label_image Example.env Example.str_float "" "0" (Some [])
      Example.one_pending
    = Answered_pending_moved L_status_SUCCESS fs'
    /\ pending fs' !! "a.jpg" = Some (Jpeg Example.img)
    /\ labeled fs' !! ".txt" = Some (Text "").
Proof.
  destruct (label_image_pending_directory Example.env Example.str_float ""
              "0" (Some []) Example.one_pending)
    as (_ & _ & fs' & Hrun & Hpend & lines & Hlines & Hlab).
  - by left.
  - reflexivity.
  - reflexivity.
  - discriminate.
  - constructor.
  - exists fs'. split; [exact Hrun|].
    rewrite Hpend, Hlab. apply Forall2_nil_inv_l in Hlines as ->.
    split; reflexivity.
Defined.




(** ** The anomaly check and the inspection pipeline *)

Lemma aggregate_status_FAIL (verified : list defect) (a : anomaly_result) :
  aggregate_status verified a = "FAIL"
  <-> verified <> [] \/ a_status a = "ANOMALY".
Proof.
  unfold aggregate_status.
  destruct verified as [|d verified]; cbn [length].
  - change (0 <? Z.of_nat 0) with false. cbn [orb].
    destruct (String.eqb_spec (a_status a) "ANOMALY") as [Heq|Hne].
    + split; [by right | done].
    + split; [discriminate | intros [?|?]; done].
  - replace (0 <? Z.of_nat (S (length verified))) with true
      by (symmetry; apply Z.ltb_lt; lia).
    cbn [orb]. split; [by left | done].
Qed.

Lemma aggregate_status_PASS (verified : list defect) (a : anomaly_result) :
  aggregate_status verified a = "PASS"
  <-> ~ (verified <> [] \/ a_status a = "ANOMALY").
Proof.
  rewrite <- aggregate_status_FAIL. unfold aggregate_status.
  destruct (_ || _); split; done.
Qed.

(** What a request that is answered with a result went through. *)
Lemma pipeline_ok_inv (E : Env) (timestamp : string)
    (request_image : option upload) (wd wd' : world) (r : final_results) :
  pipeline E timestamp request_image wd = (Json_ok r, wd') ->
  exists file anomaly yolo verified discarded,
    request_image = Some file
    /\ detect_anomaly E (up_content file) = Ok anomaly
    /\ predict_defects E (up_content file) = Ok yolo
    /\ verify_loop E (imdecode E (up_content file)) (y_defects yolo) [] []
         (w_verifier_calls wd)
       = (Ok (verified, discarded), w_verifier_calls wd')
    /\ fr_status r = aggregate_status verified anomaly
    /\ fr_defects r = verified
    /\ fr_discarded_defects r = discarded
    /\ fr_anomaly_info r = anomaly.
Proof.
  unfold pipeline. intros Hrun.
  destruct request_image as [file|]; [|discriminate].
  destruct (String.eqb (up_filename file) ""); [discriminate|].
  destruct (detect_anomaly E (up_content file)) as [anomaly|] eqn:Ha;
    [|discriminate].
  destruct (predict_defects E (up_content file)) as [yolo|] eqn:Hy;
    [|discriminate].
  destruct (handle_detection E timestamp (up_content file) (y_confidence yolo)
              0 (w_fs wd)) as [al fs1].
  destruct (verify_loop E (imdecode E (up_content file)) (y_defects yolo) [] []
              (w_verifier_calls wd)) as [[[verified discarded]|m] calls] eqn:Hv;
    [|discriminate].
  injection Hrun as <- <-.
  exists file, anomaly, yolo, verified, discarded. cbn. by repeat split.
Qed.

(** C1: whenever the pipeline answers a request with a result, the status
    of the result is FAIL exactly when the list of confirmed defects is not
    empty or the status of the anomaly check is ANOMALY, and it is PASS
    otherwise. *)
Theorem pipeline_status (E : Env) (timestamp : string)
    (request_image : option upload) (wd wd' : world) (r : final_results) :
  pipeline E timestamp request_image wd = (Json_ok r, wd') ->
  (fr_status r = "FAIL"
   <-> fr_defects r <> [] \/ a_status (fr_anomaly_info r) = "ANOMALY")
  /\ (fr_status r = "PASS"
      <-> ~ (fr_defects r <> [] \/ a_status (fr_anomaly_info r) = "ANOMALY")).
Proof.
  intros Hrun.
  destruct (pipeline_ok_inv _ _ _ _ _ _ Hrun)
    as (file & anomaly & yolo & verified & discarded
        & _ & _ & _ & _ & -> & -> & _ & ->).
  split; [apply aggregate_status_FAIL | apply aggregate_status_PASS].
Qed.

Lemma pipeline_status_witness :
  exists r wd',
    pipeline Example.env "20240101_120000_000001" Example.request Example.start
      = (Json_ok r, wd')
    /\ fr_status r = "FAIL" /\ fr_defects r <> [].
Proof.
  destruct (pipeline Example.env "20240101_120000_000001" Example.request
              Example.start) as [resp wd'] eqn:Hrun.
  vm_compute in Hrun. injection Hrun as <- <-.
  eexists _, _. split; [reflexivity|].
  match goal with
  | |- fr_status ?r = _ /\ _ =>
      pose proof (pipeline_status Example.env "20240101_120000_000001"
                    Example.request Example.start
                    (snd (pipeline Example.env "20240101_120000_000001"
                            Example.request Example.start))
                    r ltac:(reflexivity)) as [Hfail _]
  end.
  split; [apply Hfail; left; discriminate | discriminate].
Defined.

(** C2, as the code has it: without an autoencoder the check answers with
    status PASS (the code has no SKIPPED), score 0 and a message that says
    so, and for the aggregation that status is not an anomaly: the
    inspection then fails only on a confirmed defect. *)
Theorem detect_anomaly_no_model (E : Env) (image_bytes : bytes) :
  autoencoder_model E = None ->
  detect_anomaly E image_bytes
  = Ok {| a_status := "PASS";
          a_anomaly_score := 0;
          a_threshold := anomaly_threshold E;
          a_message :=
            Some "Autoencoder model not found. Passing by default." |}
  /\ forall r verified,
       detect_anomaly E image_bytes = Ok r ->
       (aggregate_status verified r = "FAIL" <-> verified <> []).
Proof.
  intros Hnone. unfold detect_anomaly. rewrite Hnone.
  split; [reflexivity|].
  intros r verified [= <-]. rewrite aggregate_status_FAIL. cbn.
  split; [intros [?|?]; [done | discriminate] | by left].
Qed.

Lemma detect_anomaly_no_model_witness :
  exists r,
    detect_anomaly Example.env Example.image_bytes = Ok r
    /\ a_status r = "PASS"
    /\ aggregate_status [] r = "PASS".
Proof.
  destruct (detect_anomaly_no_model Example.env Example.image_bytes
              ltac:(reflexivity)) as [Hrun _].
  eexists. split; [exact Hrun|]. split; reflexivity.
Defined.

(** C2 as stated fails: without an autoencoder the status is not SKIPPED. *)
Lemma detect_anomaly_no_model_not_SKIPPED :
  autoencoder_model Example.env = None
  /\ exists r,
       detect_anomaly Example.env Example.image_bytes = Ok r
       /\ a_status r <> "SKIPPED".
Proof.
  split; [reflexivity|]. eexists. split; [reflexivity | discriminate].
Qed.

(** One turn of the loop, read through [crop_to_verify]. *)
Lemma verify_loop_cons (E : Env) (img : image) (d : defect)
    (rest verified discarded : list defect) (calls : list bytes) :
  verify_loop E (Some img) (d :: rest) verified discarded calls
  = match crop_to_verify E img d with
    | None => verify_loop E (Some img) rest verified discarded calls
    | Some crop_bytes =>
        match predict_cnn_lstm E crop_bytes with
        | Raise m => (Raise m, (calls ++ [crop_bytes])%list)
        | Ok cnn =>
            if String.eqb (cnn_verdict cnn) "DEFECTIVE" then
              verify_loop E (Some img) rest
                (verified ++ [with_verification d cnn])%list discarded
                (calls ++ [crop_bytes])%list
            else
              verify_loop E (Some img) rest verified
                (discarded ++ [with_verification d cnn])%list
                (calls ++ [crop_bytes])%list
        end
    end.
Proof.
  cbn [verify_loop]. unfold crop_to_verify.
  destruct (ndarray_size (crop_bbox img (d_bbox d)) =? 0); reflexivity.
Qed.

(** A region with nothing to verify leaves no trace in the loop. *)
Lemma verify_loop_drop (E : Env) (img : image) (d : defect)
    (before after : list defect) :
  crop_to_verify E img d = None ->
  forall verified discarded calls,
    verify_loop E (Some img) (before ++ d :: after)%list verified discarded
      calls
    = verify_loop E (Some img) (before ++ after)%list verified discarded calls.
Proof.
  intros Hnone. induction before as [|x before IH];
    intros verified discarded calls.
  - cbn [app]. by rewrite verify_loop_cons, Hnone.
  - cbn [app]. rewrite !verify_loop_cons.
    destruct (crop_to_verify E img x) as [b|]; [|apply IH].
    destruct (predict_cnn_lstm E b) as [cnn|m]; [|reflexivity].
    destruct (String.eqb (cnn_verdict cnn) "DEFECTIVE"); apply IH.
Qed.

(** Where the entries of the two lists and the calls of the verifier come
    from. *)
Lemma verify_loop_inv (E : Env) (img : image) (defects : list defect) :
  forall verified discarded calls r calls',
    verify_loop E (Some img) defects verified discarded calls = (r, calls') ->
    (exists new,
       calls' = (calls ++ new)%list
       /\ forall b, b ∈ new ->
            exists cand, cand ∈ defects /\ crop_to_verify E img cand = Some b)
    /\ forall verified' discarded',
         r = Ok (verified', discarded') ->
         forall d, d ∈ verified' \/ d ∈ discarded' ->
           (d ∈ verified \/ d ∈ discarded)
           \/ exists cand b cnn,
                cand ∈ defects /\ crop_to_verify E img cand = Some b
                /\ predict_cnn_lstm E b = Ok cnn
                /\ d = with_verification cand cnn.
Proof.
  induction defects as [|x defects IH];
    intros verified discarded calls r calls' Hrun.
  - cbn in Hrun. injection Hrun as <- <-. split.
    + exists []. split; [by rewrite app_nil_r|]. intros b Hb.
      by apply elem_of_nil in Hb.
    + intros verified' discarded' [= <- <-] d Hd. by left.
  - rewrite verify_loop_cons in Hrun.
    destruct (crop_to_verify E img x) as [b|] eqn:Hcrop.
    2:{ destruct (IH _ _ _ _ _ Hrun) as [(new & Hcalls & Hnew) Hlists]. split.
        - exists new. split; [exact Hcalls|]. intros b Hb.
          destruct (Hnew b Hb) as (cand & Hin & Hc).
          exists cand. split; [by apply elem_of_cons; right | exact Hc].
        - intros verified' discarded' Hr d Hd.
          destruct (Hlists _ _ Hr d Hd)
            as [Hold|(cand & b & cnn & Hin & Hc & Hp & Hd')]; [by left|].
          right. exists cand, b, cnn.
          split; [by apply elem_of_cons; right | done]. }
    destruct (predict_cnn_lstm E b) as [cnn|m] eqn:Hcnn.
    2:{ injection Hrun as <- <-. split.
        - exists [b]. split; [reflexivity|]. intros b' Hb'.
          apply list_elem_of_singleton in Hb' as ->.
          exists x. split; [by apply elem_of_cons; left | exact Hcrop].
        - intros verified' discarded' Hr. discriminate. }
    assert (Hstep : forall v ds,
      verify_loop E (Some img) defects v ds (calls ++ [b])%list = (r, calls') ->
      (forall d, d ∈ v \/ d ∈ ds ->
         (d ∈ verified \/ d ∈ discarded) \/ d = with_verification x cnn) ->
      (exists new,
         calls' = (calls ++ new)%list
         /\ forall b0, b0 ∈ new ->
              exists cand, cand ∈ x :: defects
                           /\ crop_to_verify E img cand = Some b0)
      /\ forall verified' discarded',
           r = Ok (verified', discarded') ->
           forall d, d ∈ verified' \/ d ∈ discarded' ->
             (d ∈ verified \/ d ∈ discarded)
             \/ exists cand b0 cnn0,
                  cand ∈ x :: defects /\ crop_to_verify E img cand = Some b0
                  /\ predict_cnn_lstm E b0 = Ok cnn0
                  /\ d = with_verification cand cnn0).
    { intros v ds Hrest Hacc.
      destruct (IH _ _ _ _ _ Hrest) as [(new & Hcalls & Hnew) Hlists]. split.
      - exists (b :: new). split.
        + rewrite Hcalls, <- app_assoc. reflexivity.
        + intros b0 Hb0. apply elem_of_cons in Hb0 as [->|Hb0].
          * exists x. split; [by apply elem_of_cons; left | exact Hcrop].
          * destruct (Hnew b0 Hb0) as (cand & Hin & Hc).
            exists cand. split; [by apply elem_of_cons; right | exact Hc].
      - intros verified' discarded' Hr d Hd.
        destruct (Hlists _ _ Hr d Hd)
          as [Hold|(cand & b0 & cnn0 & Hin & Hc & Hp & Hd')].
        + destruct (Hacc d Hold) as [Hold'| ->]; [by left|].
          right. exists x, b, cnn.
          split; [by apply elem_of_cons; left | done].
        + right. exists cand, b0, cnn0.
          split; [by apply elem_of_cons; right | done]. }
    destruct (String.eqb (cnn_verdict cnn) "DEFECTIVE").
    + apply (Hstep _ _ Hrun). intros d [Hd|Hd].
      * apply elem_of_app in Hd as [Hd|Hd]; [by left; left|].
        apply list_elem_of_singleton in Hd. by right.
      * by left; right.
    + apply (Hstep _ _ Hrun). intros d [Hd|Hd].
      * by left; left.
      * apply elem_of_app in Hd as [Hd|Hd]; [by left; right|].
        apply list_elem_of_singleton in Hd. by right.
Qed.

Lemma py_slice_same {A} (a : Z) (l : list A) : py_slice a a l = [].
Proof. unfold py_slice. by rewrite Z.sub_diag. Qed.

Lemma concat_all_nil {A} (ls : list (list A)) :
  Forall (fun l => l = []) ls -> concat ls = [].
Proof. induction 1 as [|l ls -> _ IH]; [reflexivity | exact IH]. Qed.

(** A clamped box of zero width or zero height crops to an empty array. *)
Lemma zero_area_crop_empty (img : image) (bbox : Z * Z * Z * Z) :
  clamped_width img bbox = 0 \/ clamped_height img bbox = 0 ->
  ndarray_size (crop_bbox img bbox) = 0.
Proof.
  destruct bbox as [[[x1 y1] x2] y2].
  unfold clamped_width, clamped_height, crop_bbox, clamp_bbox, shape2,
    crop_image, ndarray_size.
  intros [Hw|Hh].
  - assert (Heq : Z.min (Z.of_nat (length (List.hd [] img))) x2 = Z.max 0 x1)
      by lia.
    rewrite Heq, concat_all_nil; [reflexivity|].
    apply Forall_forall. intros row Hrow.
    apply list_elem_of_fmap in Hrow as (r & -> & _). apply py_slice_same.
  - assert (Heq : Z.min (Z.of_nat (length img)) y2 = Z.max 0 y1) by lia.
    rewrite Heq, py_slice_same. reflexivity.
Qed.

(** A request whose image decodes and whose detection succeeds either
    stops before the loop, or is answered from what the loop returns. *)
Lemma pipeline_run_inv (E : Env) (timestamp : string) (file : upload)
    (wd wd' : world) (resp : response) (yolo : yolo_results) (img : image) :
  predict_defects E (up_content file) = Ok yolo ->
  imdecode E (up_content file) = Some img ->
  pipeline E timestamp (Some file) wd = (resp, wd') ->
  (w_verifier_calls wd' = w_verifier_calls wd
   /\ exists msg code, resp = Json_error msg code)
  \/ exists looped,
       verify_loop E (Some img) (y_defects yolo) [] [] (w_verifier_calls wd)
       = (looped, w_verifier_calls wd')
       /\ match looped with
          | Ok (verified, discarded) =>
              exists r, resp = Json_ok r /\ fr_defects r = verified
                        /\ fr_discarded_defects r = discarded
          | Raise m => resp = Json_error m 500
          end.
Proof.
  intros Hy Himg. unfold pipeline. rewrite Hy, Himg.
  destruct (String.eqb (up_filename file) "").
  { intros [= <- <-]. left. split; [reflexivity | by eexists _, _]. }
  destruct (detect_anomaly E (up_content file)) as [anomaly|m].
  2:{ intros [= <- <-]. left. split; [reflexivity | by eexists _, _]. }
  destruct (handle_detection E timestamp (up_content file) (y_confidence yolo)
              0 (w_fs wd)) as [al fs1].
  destruct (verify_loop E (Some img) (y_defects yolo) [] []
              (w_verifier_calls wd)) as [looped calls] eqn:Hv.
  destruct looped as [[verified discarded]|m]; intros [= <- <-]; right.
  - exists (Ok (verified, discarded)). split; [reflexivity|].
    eexists. by repeat split.
  - exists (Raise m). by split.
Qed.

(** C10: a region whose crop is not empty but does not encode is dropped
    without a trace: the request is answered exactly as if the detector had
    not reported the region (same lists, same calls of the verifier, same
    status, and an error only if the other regions raise one); the verifier
    is called on encoded crops only, and the region is in neither list. *)
Theorem pipeline_drops_unencodable (E : Env) (timestamp : string)
    (file : upload) (wd : world) (yolo : yolo_results) (img : image)
    (before after : list defect) (cand : defect) :
  predict_defects E (up_content file) = Ok yolo ->
  imdecode E (up_content file) = Some img ->
  y_defects yolo = (before ++ cand :: after)%list ->
  ndarray_size (crop_bbox img (d_bbox cand)) <> 0 ->
  imencode_jpg E (crop_bbox img (d_bbox cand)) = None ->
  pipeline E timestamp (Some file) wd
  = pipeline
      (with_yolo_infer E
         (fun _ => Ok (with_defects yolo (before ++ after)%list)))
      timestamp (Some file) wd
  /\ forall resp wd',
       pipeline E timestamp (Some file) wd = (resp, wd') ->
       (exists new,
          w_verifier_calls wd' = (w_verifier_calls wd ++ new)%list
          /\ forall b, b ∈ new ->
               exists c, c ∈ y_defects yolo
                         /\ ndarray_size (crop_bbox img (d_bbox c)) <> 0
                         /\ imencode_jpg E (crop_bbox img (d_bbox c)) = Some b)
       /\ forall r, resp = Json_ok r ->
            forall d, d ∈ fr_defects r \/ d ∈ fr_discarded_defects r ->
              imencode_jpg E (crop_bbox img (d_bbox d)) <> None.
Proof.
  intros Hy Himg Hdefects Hsize Henc.
  assert (Hnone : crop_to_verify E img cand = None).
  { unfold crop_to_verify.
    destruct (Z.eqb_spec (ndarray_size (crop_bbox img (d_bbox cand))) 0);
      [done | exact Henc]. }
  assert (Hsome : forall c b,
    crop_to_verify E img c = Some b ->
    ndarray_size (crop_bbox img (d_bbox c)) <> 0
    /\ imencode_jpg E (crop_bbox img (d_bbox c)) = Some b).
  { intros c b. unfold crop_to_verify.
    destruct (Z.eqb_spec (ndarray_size (crop_bbox img (d_bbox c))) 0);
      [discriminate | by split]. }
  split.
  - unfold pipeline.
    change (detect_anomaly (with_yolo_infer E _) (up_content file))
      with (detect_anomaly E (up_content file)).
    rewrite Hy. unfold predict_defects.
    cbn [with_yolo_infer imdecode yolo_infer]. rewrite Himg, Hdefects.
    cbn [with_defects y_defects y_confidence].
    rewrite (verify_loop_drop E img cand before after Hnone).
    reflexivity.
  - intros resp wd' Hrun.
    destruct (pipeline_run_inv _ _ _ _ _ _ _ _ Hy Himg Hrun)
      as [(Hcalls & msg & code & ->)|(looped & Hloop & Hans)].
    + split.
      * exists []. split; [by rewrite app_nil_r|].
        intros b Hb. by apply elem_of_nil in Hb.
      * intros r Hr. discriminate.
    + destruct (verify_loop_inv _ _ _ _ _ _ _ _ Hloop)
        as [(new & Hcalls & Hnew) Hfrom].
      split.
      * exists new. split; [exact Hcalls|]. intros b Hb.
        destruct (Hnew b Hb) as (c & Hin & Hc).
        exists c. split; [exact Hin | by apply Hsome].
      * intros r -> d Hin.
        destruct looped as [[verified discarded]|m]; [|discriminate].
        destruct Hans as (r' & [= <-] & Hv & Hd). rewrite Hv, Hd in Hin.
        destruct (Hfrom _ _ eq_refl d Hin)
          as [[Hnil|Hnil]|(c & b & cnn & _ & Hcrop & _ & ->)];
          [by apply elem_of_nil in Hnil | by apply elem_of_nil in Hnil |].
        cbn [with_verification d_bbox].
        destruct (Hsome _ _ Hcrop) as [_ ->]. discriminate.
Qed.

Lemma pipeline_drops_unencodable_witness :
  imencode_jpg Example.env (crop_bbox Example.img (d_bbox Example.one_row))
  = None
  /\ pipeline Example.env "20240101_120000_000001" Example.request
       Example.start
     = pipeline
         (with_yolo_infer Example.env
            (fun _ =>
               Ok (with_defects Example.detection
                     [Example.whole; Example.zero_width; Example.outside])))
         "20240101_120000_000001" Example.request Example.start.
Proof.
  split; [reflexivity|].
  apply (pipeline_drops_unencodable Example.env "20240101_120000_000001"
           {| up_filename := "part.jpg"; up_content := Example.image_bytes |}
           Example.start Example.detection Example.img
           [Example.whole; Example.zero_width; Example.outside] []
           Example.one_row);
    [reflexivity | reflexivity | reflexivity | discriminate | reflexivity].
Defined.

(** ** Incremental retraining *)

Lemma consume_loop_other_fields (names : list string) :
  forall fs,
    pending (consume_loop names fs) = pending fs
    /\ model_out (consume_loop names fs) = model_out fs
    /\ backup_model (consume_loop names fs) = backup_model fs
    /\ best_weights (consume_loop names fs) = best_weights fs
    /\ incremental_yaml (consume_loop names fs) = incremental_yaml fs.
Proof.
  induction names as [|n names IH]; intros fs; cbn [consume_loop].
  - by repeat split.
  - destruct (labeled fs !! n) as [f|]; [|apply IH].
    destruct (IH (move_to_consumed n f fs)) as (-> & -> & -> & -> & ->).
    by repeat split.
Qed.

Ltac names_cases :=
  match goal with
  | Hin : ?k ∈ ?n :: ?names, Hout : ?k ∉ ?names, Hne : ?k <> ?n |- _ =>
      apply elem_of_cons in Hin as [?|?]; contradiction
  | Hin : ?k ∈ ?names, Hout : ?k ∉ ?n :: ?names |- _ =>
      exfalso; apply Hout, elem_of_cons; by right
  end.

(** The loop, entry by entry: a listed name leaves the labeled directory
    and, if it was a file there, is in the consumed directory afterwards. *)
Lemma consume_loop_lookup (names : list string) :
  forall fs c0,
    consumed fs = Some c0 ->
    (forall k,
       labeled (consume_loop names fs) !! k
       = if decide (k ∈ names) then None else labeled fs !! k)
    /\ exists c',
         consumed (consume_loop names fs) = Some c'
         /\ forall k,
              c' !! k
              = if decide (k ∈ names)
                then match labeled fs !! k with
                     | Some f => Some f
                     | None => c0 !! k
                     end
                else c0 !! k.
Proof.
  induction names as [|n names IH]; intros fs c0 Hc0; cbn [consume_loop].
  - split.
    + intros k. case_decide as Hin; [by apply elem_of_nil in Hin | done].
    + exists c0. split; [exact Hc0|]. intros k.
      case_decide as Hin; [by apply elem_of_nil in Hin | done].
  - destruct (labeled fs !! n) as [f|] eqn:Hn.
    + destruct (IH (move_to_consumed n f fs) (<[n := f]> c0))
        as [Hlab (c' & Hc' & Hcons)].
      { cbn. by rewrite Hc0. }
      split.
      * intros k. rewrite Hlab. cbn [move_to_consumed labeled set_labeled
                                       set_consumed].
        destruct (decide (k = n)) as [->|Hne].
        -- rewrite lookup_delete_eq.
           rewrite (decide_True (P := n ∈ n :: names))
             by (apply elem_of_cons; by left).
           by case_decide.
        -- rewrite lookup_delete_ne by done.
           repeat case_decide; try done; names_cases.
      * exists c'. split; [exact Hc'|]. intros k. rewrite Hcons.
        cbn [move_to_consumed labeled set_labeled set_consumed].
        destruct (decide (k = n)) as [->|Hne].
        -- rewrite lookup_delete_eq, lookup_insert_eq, Hn.
           rewrite (decide_True (P := n ∈ n :: names))
             by (apply elem_of_cons; by left).
           by case_decide.
        -- rewrite lookup_delete_ne, lookup_insert_ne by done.
           repeat case_decide; try done; names_cases.
    + destruct (IH fs c0 Hc0) as [Hlab (c' & Hc' & Hcons)]. split.
      * intros k. rewrite Hlab.
        destruct (decide (k = n)) as [->|Hne].
        -- rewrite (decide_True (P := n ∈ n :: names))
             by (apply elem_of_cons; by left).
           by case_decide.
        -- repeat case_decide; try done; names_cases.
      * exists c'. split; [exact Hc'|]. intros k. rewrite Hcons.
        destruct (decide (k = n)) as [->|Hne].
        -- rewrite (decide_True (P := n ∈ n :: names))
             by (apply elem_of_cons; by left).
           rewrite Hn. by case_decide.
        -- repeat case_decide; try done; names_cases.
Qed.

(** Consuming a whole directory listing empties the labeled directory and
    adds all of it to the consumed directory. *)
Lemma consume_loop_all (fs : FS) (c0 : gmap string file) :
  consumed fs = Some c0 ->
  labeled (consume_loop (map fst (map_to_list (labeled fs))) fs) = ∅
  /\ consumed (consume_loop (map fst (map_to_list (labeled fs))) fs)
     = Some (labeled fs ∪ c0).
Proof.
  intros Hc0.
  destruct (consume_loop_lookup (map fst (map_to_list (labeled fs))) fs c0 Hc0)
    as [Hlab (c' & Hc' & Hcons)].
  split.
  - apply map_eq. intros k. rewrite Hlab, lookup_empty.
    case_decide as Hin; [reflexivity|].
    destruct (labeled fs !! k) as [f|] eqn:Hk; [|reflexivity].
    exfalso. apply Hin, elem_of_dir_names. by eexists.
  - rewrite Hc'. f_equal. apply map_eq. intros k.
    rewrite Hcons, lookup_union.
    case_decide as Hin.
    + by destruct (labeled fs !! k), (c0 !! k).
    + destruct (labeled fs !! k) as [f|] eqn:Hk.
      * exfalso. apply Hin, elem_of_dir_names. by eexists.
      * by destruct (c0 !! k).
Qed.

(** Without a labeled image the run gives up at once and touches nothing. *)
Lemma run_incremental_retraining_no_data (E : Env)
    (training : string -> FS -> res unit * FS) (fs : FS) :
  glob_jpg (labeled fs) = [] ->
  run_incremental_retraining E training fs = (Ok false, fs).
Proof. intros Hnone. unfold run_incremental_retraining. by rewrite Hnone. Qed.

(** With labeled images but no production model the run gives up after it
    has written the dataset file. *)
Lemma run_incremental_retraining_no_model (E : Env)
    (training : string -> FS -> res unit * FS) (fs : FS) :
  glob_jpg (labeled fs) <> [] ->
  model_out fs = None ->
  run_incremental_retraining E training fs
  = (Ok false, set_incremental_yaml (Some (Yaml (abs_yaml E))) fs).
Proof.
  intros Hsome Hnone. unfold run_incremental_retraining.
  destruct (glob_jpg (labeled fs)); [done|].
  cbn. by rewrite Hnone.
Qed.

(** C4, the part the code breaks: with one labeled image and no production
    model the run aborts, but only after [create_incremental_dataset_yaml]
    has created the dataset file, whatever the trainer would do. *)
Theorem run_incremental_retraining_no_model_writes_yaml
    (training : string -> FS -> res unit * FS) :
  glob_jpg (labeled Example.no_model) <> []
  /\ model_out Example.no_model = None
  /\ incremental_yaml Example.no_model = None
  /\ fst (run_incremental_retraining Example.env training Example.no_model)
     = Ok false
  /\ incremental_yaml
       (snd (run_incremental_retraining Example.env training Example.no_model))
     = Some (Yaml (abs_yaml Example.env))
  /\ snd (run_incremental_retraining Example.env training Example.no_model)
     <> Example.no_model.
Proof.
  assert (Hglob : glob_jpg (labeled Example.no_model) <> [])
    by (vm_compute; discriminate).
  rewrite (run_incremental_retraining_no_model Example.env training
             Example.no_model Hglob eq_refl).
  split; [exact Hglob|]. repeat split. cbn. intros Heq.
  apply (f_equal incremental_yaml) in Heq. discriminate.
Qed.

(** What a successful run does: it backs up the production model,
    installs the new checkpoint, and moves to the consumed directory every
    file that is in the labeled directory when training has returned,
    whether it was there at the start of the run or was added while
    training ran; the labeled directory is left empty. *)
Theorem run_incremental_retraining_consumes (E : Env)
    (training : string -> FS -> res unit * FS) (fs fs2 : FS)
    (old_best new_best : file) :
  glob_jpg (labeled fs) <> [] ->
  is_Some (model_out fs) ->
  training "incremental_dataset.yaml"
    (snd (create_incremental_dataset_yaml E fs)) = (Ok tt, fs2) ->
  best_weights fs2 = Some new_best ->
  model_out fs2 = Some old_best ->
  exists fs',
    run_incremental_retraining E training fs = (Ok true, fs')
    /\ labeled fs' = ∅
    /\ consumed fs' = Some (labeled fs2 ∪ default ∅ (consumed fs2))
    /\ (forall name f, labeled fs2 !! name = Some f ->
          exists c, consumed fs' = Some c /\ c !! name = Some f)
    /\ backup_model fs' = Some old_best
    /\ model_out fs' = Some new_best
    /\ pending fs' = pending fs2.
Proof.
  intros Hsome [m Hm] Htrain Hnew Hold. unfold run_incremental_retraining.
  destruct (glob_jpg (labeled fs)); [done|].
  cbn [create_incremental_dataset_yaml snd] in Htrain |- *.
  cbn [model_out set_incremental_yaml]. rewrite Hm, Htrain, Hnew, Hold.
  set (fs5 := mkdir_consumed _).
  destruct (consume_loop_all fs5 (default ∅ (consumed fs2)) eq_refl)
    as [Hlab Hcons].
  destruct (consume_loop_other_fields (map fst (map_to_list (labeled fs5))) fs5)
    as (Hp & Hmo & Hb & _ & _).
  eexists. split; [reflexivity|].
  split; [exact Hlab|]. split; [exact Hcons|]. split.
  - intros name f Hf. eexists. split; [exact Hcons|].
    apply lookup_union_Some_l. exact Hf.
  - rewrite Hb, Hmo, Hp. by repeat split.
Qed.

Lemma run_incremental_retraining_consumes_witness :
  exists fs',
    run_incremental_retraining Example.env Example.training_with_late_label
      Example.ready = (Ok true, fs')
    /\ labeled fs' = ∅
    /\ model_out fs' = Some (Blob [Byte.x11])
    /\ backup_model fs' = Some (Blob [Byte.x10]).
Proof.
  destruct (Example.training_with_late_label "incremental_dataset.yaml"
              (snd (create_incremental_dataset_yaml Example.env Example.ready)))
    as [out fs2] eqn:Htrain.
  assert (Hout : out = Ok tt) by (by injection Htrain as <- _).
  subst out.
  destruct (run_incremental_retraining_consumes Example.env
              Example.training_with_late_label Example.ready fs2
              (Blob [Byte.x10]) (Blob [Byte.x11]))
    as (fs' & Hrun & Hlab & _ & _ & Hb & Hm & _).
  - vm_compute. discriminate.
  - by eexists.
  - exact Htrain.
  - by injection Htrain as <-.
  - by injection Htrain as <-.
  - exists fs'. by repeat split.
Defined.

(** C3, the part the code breaks: the items to train on are listed when
    the run starts, but the consume loop lists the labeled directory again
    after training.  "late.jpg" is labeled while training runs; it is not
    among the labeled items the run found at its start, and the run, which
    succeeds, moves it to the consumed directory all the same. *)
Lemma run_incremental_retraining_consumes_late_item :
  labeled Example.ready !! "late.jpg" = None
  /\ map fst (glob_jpg (labeled Example.ready)) = ["a.jpg"]
  /\ labeled
       (snd (Example.training_with_late_label "incremental_dataset.yaml"
               (snd (create_incremental_dataset_yaml Example.env
                       Example.ready)))) !! "late.jpg"
     = Some (Jpeg Example.img)
  /\ fst (run_incremental_retraining Example.env
            Example.training_with_late_label Example.ready) = Ok true
  /\ consumed
       (snd (run_incremental_retraining Example.env
               Example.training_with_late_label Example.ready))
       ≫= (fun c => c !! "late.jpg")
     = Some (Jpeg Example.img)
  /\ labeled
       (snd (run_incremental_retraining Example.env
               Example.training_with_late_label Example.ready)) !! "late.jpg"
     = None.
Proof. repeat split; vm_compute; reflexivity. Qed.

(** * Further properties of the services *)

(** ** Labeling with a box that lacks a key *)





(** ** Names of flagged images *)

Lemma append_length (a b : string) :
  String.length (a +:+ b) = (String.length a + String.length b)%nat.
Proof.
  induction a as [|x a IH]; [reflexivity|].
  change (S (String.length (a +:+ b))
          = S (String.length a + String.length b)).
  by rewrite IH.
Qed.

Lemma append_eq_same_length (a b c d : string) :
  String.length a = String.length b ->
  a +:+ c = b +:+ d -> a = b /\ c = d.
Proof.
  revert b. induction a as [|x a IH]; intros [|y b] Hlen Heq;
    try discriminate Hlen.
  - by split.
  - change (String x (a +:+ c) = String y (b +:+ d)) in Heq.
    injection Heq as -> Heq. injection Hlen as Hlen.
    destruct (IH b Hlen Heq) as [-> ->]. by split.
Qed.

(** Two timestamps of the same width give different file names. *)
Lemma pending_filename_timestamp (t1 t2 : string) (c1 c2 : Q) (k1 k2 : Z) :
  String.length t1 = String.length t2 ->
  pending_filename t1 c1 k1 = pending_filename t2 c2 k2 -> t1 = t2.
Proof.
  intros Hlen Heq. unfold pending_filename in Heq.
  apply (String.app_inj "review_pending_") in Heq.
  by destruct (append_eq_same_length _ _ _ _ Hlen Heq).
Qed.

Lemma handle_detection_flagged (E : Env) (timestamp : string)
    (image_bytes : bytes) (c : Q) (class_id : Z) (fs : FS) (i : image) :
  (c < CONFIDENCE_THRESHOLD E)%Q ->
  imdecode E image_bytes = Some i ->
  handle_detection E timestamp image_bytes c class_id fs
  = (AL_FLAGGED (pending_filename timestamp c class_id) "Low confidence score",
     set_pending
       (<[pending_filename timestamp c class_id := Jpeg i]> (pending fs)) fs).
Proof.
  intros Hlt Hdec. unfold handle_detection.
  by rewrite (Qltb_true _ _ Hlt), Hdec.
Qed.

(** X2: two low-confidence detections that read the same timestamp, with
    the same confidence and class id, are stored under one name: the second
    image replaces the first, both calls answer FLAGGED, and the pending
    directory holds one item for the two. *)
Theorem handle_detection_same_timestamp (E : Env) (timestamp : string)
    (bytes1 bytes2 : bytes) (c : Q) (class_id : Z) (fs : FS) (i1 i2 : image) :
  (c < CONFIDENCE_THRESHOLD E)%Q ->
  imdecode E bytes1 = Some i1 ->
  imdecode E bytes2 = Some i2 ->
  let name := pending_filename timestamp c class_id in
  let fs1 := snd (handle_detection E timestamp bytes1 c class_id fs) in
  fst (handle_detection E timestamp bytes1 c class_id fs)
  = AL_FLAGGED name "Low confidence score"
  /\ handle_detection E timestamp bytes2 c class_id fs1
     = (AL_FLAGGED name "Low confidence score",
        set_pending (<[name := Jpeg i2]> (pending fs)) fs)
  /\ size (pending (snd (handle_detection E timestamp bytes2 c class_id fs1)))
     = size (pending fs1).
Proof.
  intros Hlt H1 H2 name fs1. subst fs1.
  rewrite (handle_detection_flagged E timestamp bytes1 c class_id fs i1 Hlt H1).
  cbn [fst snd]. split; [reflexivity|].
  rewrite (handle_detection_flagged E timestamp bytes2 c class_id _ i2 Hlt H2).
  cbn [snd pending set_pending]. fold name.
  rewrite insert_insert_eq. split; [reflexivity|].
  destruct (pending fs !! name) as [old|] eqn:Hold.
  - by rewrite !map_size_insert_Some by (by eexists).
  - by rewrite !map_size_insert_None by done.
Qed.

Lemma handle_detection_same_timestamp_witness :
  let fs1 :=
    snd (handle_detection Example.env "20240101_120000_000001"
           Example.image_bytes (3 # 10) 0 Example.empty_fs) in
  size (pending (snd (handle_detection Example.env "20240101_120000_000001"
                        [Byte.x07] (3 # 10) 0 fs1)))
  = size (pending fs1).
Proof.
  exact (proj2 (proj2
    (handle_detection_same_timestamp Example.env "20240101_120000_000001"
       Example.image_bytes [Byte.x07] (3 # 10) 0 Example.empty_fs
       Example.img Example.img ltac:(reflexivity) ltac:(reflexivity)
       ltac:(reflexivity)))).
Defined.

(** X3: two low-confidence detections whose timestamps differ (and have
    the same width, as [strftime] gives them) are stored under two
    different names, whatever their confidences and class ids: if both
    names are new, the pending directory grows by two items and holds both
    images. *)
Theorem handle_detection_distinct_timestamps (E : Env) (t1 t2 : string)
    (bytes1 bytes2 : bytes) (c1 c2 : Q) (k1 k2 : Z) (fs : FS)
    (i1 i2 : image) :
  t1 <> t2 ->
  String.length t1 = String.length t2 ->
  (c1 < CONFIDENCE_THRESHOLD E)%Q ->
  (c2 < CONFIDENCE_THRESHOLD E)%Q ->
  imdecode E bytes1 = Some i1 ->
  imdecode E bytes2 = Some i2 ->
  pending fs !! pending_filename t1 c1 k1 = None ->
  pending fs !! pending_filename t2 c2 k2 = None ->
  let fs2 :=
    snd (handle_detection E t2 bytes2 c2 k2
           (snd (handle_detection E t1 bytes1 c1 k1 fs))) in
  pending_filename t1 c1 k1 <> pending_filename t2 c2 k2
  /\ pending fs2 !! pending_filename t1 c1 k1 = Some (Jpeg i1)
  /\ pending fs2 !! pending_filename t2 c2 k2 = Some (Jpeg i2)
  /\ size (pending fs2) = S (S (size (pending fs))).
Proof.
  intros Hne Hlen Hc1 Hc2 H1 H2 Hf1 Hf2 fs2. subst fs2.
  assert (Hnames : pending_filename t1 c1 k1 <> pending_filename t2 c2 k2).
  { intros Heq. apply Hne. by eapply pending_filename_timestamp. }
  rewrite (handle_detection_flagged E t1 bytes1 c1 k1 fs i1 Hc1 H1).
  cbn [snd].
  rewrite (handle_detection_flagged E t2 bytes2 c2 k2 _ i2 Hc2 H2).
  cbn [snd pending set_pending].
  split; [exact Hnames|]. split; [|split].
  - rewrite lookup_insert_ne by done. apply lookup_insert_eq.
  - apply lookup_insert_eq.
  - rewrite map_size_insert_None.
    + by rewrite map_size_insert_None.
    + by rewrite lookup_insert_ne.
Qed.

Lemma handle_detection_distinct_timestamps_witness :
  size (pending
          (snd (handle_detection Example.env "20240101_120000_000002"
                  Example.image_bytes (3 # 10) 0
                  (snd (handle_detection Example.env "20240101_120000_000001"
                          Example.image_bytes (3 # 10) 0 Example.empty_fs)))))
  = 2%nat.
Proof.
  exact (proj2 (proj2 (proj2
    (handle_detection_distinct_timestamps Example.env
       "20240101_120000_000001" "20240101_120000_000002"
       Example.image_bytes Example.image_bytes (3 # 10) (3 # 10) 0 0
       Example.empty_fs Example.img Example.img
       ltac:(discriminate) ltac:(reflexivity) ltac:(reflexivity)
       ltac:(reflexivity) ltac:(reflexivity) ltac:(reflexivity)
       ltac:(reflexivity) ltac:(reflexivity))))).
Defined.

(** ** Listing, labeling and counting *)





Lemma filter_length_Permutation {A} (p : A -> bool) (l1 l2 : list A) :
  l1 ≡ₚ l2 -> length (List.filter p l1) = length (List.filter p l2).
Proof.
  induction 1 as [|x l1 l2 _ IH|x y l|l1 l2 l3 _ IH1 _ IH2]; cbn.
  - reflexivity.
  - destruct (p x); cbn; by rewrite IH.
  - by destruct (p x), (p y).
  - by rewrite IH1.
Qed.

(** Writing an entry changes the count of "*.jpg" names by one if the name
    matches and is new, and not at all otherwise. *)
Lemma glob_jpg_insert (dir : gmap string file) (name : string) (f : file) :
  length (glob_jpg (<[name := f]> dir))
  = ((if endswith name ".jpg"
      then match dir !! name with Some _ => 0 | None => 1 end
      else 0) + length (glob_jpg dir))%nat.
Proof.
  unfold glob_jpg. destruct (dir !! name) as [old|] eqn:Hold.
  - rewrite <- (insert_delete_eq dir name f).
    rewrite (filter_length_Permutation _ _ _
               (map_to_list_insert (delete name dir) name f
                  (lookup_delete_eq dir name))).
    rewrite <- (filter_length_Permutation _ _ _
                  (map_to_list_delete dir name old Hold)).
    cbn. by destruct (endswith name ".jpg").
  - rewrite (filter_length_Permutation _ _ _
               (map_to_list_insert dir name f Hold)).
    cbn. by destruct (endswith name ".jpg").
Qed.

Lemma substring_skip (a b : string) (k : nat) :
  substring (String.length a) k (a +:+ b) = substring 0 k b.
Proof. induction a as [|x a IH]; [reflexivity | exact IH]. Qed.

Lemma substring_all (s : string) : substring 0 (String.length s) s = s.
Proof.
  induction s as [|x s IH]; [reflexivity|].
  change (String x (substring 0 (String.length s) s) = String x s).
  by rewrite IH.
Qed.

(** The last characters of [a +:+ b], as many as [b] has, are [b]. *)
Lemma endswith_append (a suffix other : string) :
  String.length other = String.length suffix ->
  endswith (a +:+ suffix) other = String.eqb suffix other.
Proof.
  intros Hlen. unfold endswith. rewrite append_length, Hlen.
  replace (String.length suffix
           <=? String.length a + String.length suffix)%nat
    with true by (symmetry; apply Nat.leb_le; lia).
  replace (String.length a + String.length suffix - String.length suffix)%nat
    with (String.length a) by lia.
  by rewrite substring_skip, substring_all.
Qed.

Lemma pending_filename_jpg (timestamp : string) (c : Q) (class_id : Z) :
  endswith (pending_filename timestamp c class_id) ".jpg" = true.
Proof.
  unfold pending_filename. rewrite <- !append_assoc.
  by rewrite endswith_append.
Qed.

(** X5: labeling a pending image whose name ends in ".jpg" and is not yet
    in the labeled directory raises the labeled count, the number the
    retrain trigger compares, by exactly one, with or without boxes: the
    annotation file is not counted.  Every name the gate generates ends in
    ".jpg". *)
Theorem label_image_labeled_count (E : Env) (fmt : Q -> string)
    (filename label_class : string) (boxes : option (list box)) (fs : FS)
    (f : file) :
  pending fs !! filename = Some f ->
  labeled fs !! filename = None ->
  endswith filename ".jpg" = true ->
  match boxes with None => True | Some bs => Forall box_complete bs end ->
  (exists fs',
     label_image E fmt filename label_class boxes fs
     = Answered L_status_SUCCESS fs'
     /\ labeled_count fs' = labeled_count fs + 1)
  /\ forall timestamp c class_id,
       endswith (pending_filename timestamp c class_id) ".jpg" = true.
Proof.
  intros Hf Hnew Hjpg Hboxes. split; [|apply pending_filename_jpg].
  destruct (label_image_pending E fmt filename label_class boxes fs f Hf
              Hboxes) as (fs' & Hrun & _ & Hlab).
  exists fs'. split; [exact Hrun|]. unfold labeled_count.
  destruct boxes as [bs|].
  - destruct Hlab as (lines & _ & ->).
    rewrite glob_jpg_insert. unfold sidecar_name.
    rewrite endswith_append by reflexivity.
    change (String.eqb ".txt" ".jpg") with false. cbv iota.
    rewrite glob_jpg_insert, Hjpg, Hnew. lia.
  - rewrite Hlab, glob_jpg_insert, Hjpg, Hnew. lia.
Qed.

Lemma label_image_labeled_count_witness :
  exists fs',
    label_image Example.env Example.str_float "a.jpg" "0"
      (Some [Example.full_box]) Example.one_pending
    = Answered L_status_SUCCESS fs'
    /\ labeled_count fs' = 1.
Proof.
  exact (proj1
    (label_image_labeled_count Example.env Example.str_float "a.jpg" "0"
       (Some [Example.full_box]) Example.one_pending (Jpeg Example.img)
       ltac:(reflexivity) ltac:(reflexivity) ltac:(reflexivity)
       ltac:(constructor; [unfold box_complete; repeat split; by eexists
                          | constructor]))).
Defined.

(** ** Outcomes of a retraining run *)

Lemma glob_jpg_empty : glob_jpg ∅ = [].
Proof. unfold glob_jpg. by rewrite map_to_list_empty. Qed.

(** The state a run ends in when training has produced a checkpoint. *)
Lemma run_incremental_retraining_success (E : Env)
    (training : string -> FS -> res unit * FS) (fs fs2 : FS)
    (old_best new_best : file) :
  glob_jpg (labeled fs) <> [] ->
  is_Some (model_out fs) ->
  training "incremental_dataset.yaml"
    (snd (create_incremental_dataset_yaml E fs)) = (Ok tt, fs2) ->
  best_weights fs2 = Some new_best ->
  model_out fs2 = Some old_best ->
  exists fs',
    run_incremental_retraining E training fs = (Ok true, fs')
    /\ labeled fs' = ∅
    /\ consumed fs' = Some (labeled fs2 ∪ default ∅ (consumed fs2))
    /\ pending fs' = pending fs2
    /\ model_out fs' = Some new_best
    /\ backup_model fs' = Some old_best
    /\ best_weights fs' = Some new_best
    /\ incremental_yaml fs' = incremental_yaml fs2.
Proof.
  intros Hsome [m Hm] Htrain Hnew Hold. unfold run_incremental_retraining.
  destruct (glob_jpg (labeled fs)); [done|].
  cbn [create_incremental_dataset_yaml snd] in Htrain |- *.
  cbn [model_out set_incremental_yaml]. rewrite Hm, Htrain, Hnew, Hold.
  set (fs5 := mkdir_consumed _).
  destruct (consume_loop_all fs5 (default ∅ (consumed fs2)) eq_refl)
    as [Hlab Hcons].
  destruct (consume_loop_other_fields (map fst (map_to_list (labeled fs5))) fs5)
    as (Hp & Hmo & Hb & Hbw & Hy).
  eexists. split; [reflexivity|].
  rewrite Hlab, Hcons, Hp, Hmo, Hb, Hbw, Hy. cbn. by repeat split.
Qed.

(** X6: when training returns without a checkpoint, or raises, the run
    copies no weights and consumes nothing: it ends in the state training
    left, the production model, the backup, the labeled and the consumed
    directory included.  Without a checkpoint the run still returns
    [True]; an exception of the trainer is passed on. *)
Theorem run_incremental_retraining_no_checkpoint (E : Env)
    (training : string -> FS -> res unit * FS) (fs fs2 : FS)
    (out : res unit) :
  glob_jpg (labeled fs) <> [] ->
  is_Some (model_out fs) ->
  training "incremental_dataset.yaml"
    (snd (create_incremental_dataset_yaml E fs)) = (out, fs2) ->
  (exists m, out = Raise m) \/ best_weights fs2 = None ->
  run_incremental_retraining E training fs
  = (match out with Ok _ => Ok true | Raise m => Raise m end, fs2).
Proof.
  intros Hsome [m Hm] Htrain Hfail. unfold run_incremental_retraining.
  destruct (glob_jpg (labeled fs)); [done|].
  cbn [create_incremental_dataset_yaml snd] in Htrain |- *.
  cbn [model_out set_incremental_yaml]. rewrite Hm, Htrain.
  destruct out as [[]|msg]; [|reflexivity].
  destruct Hfail as [[? ?]|Hnone]; [discriminate|]. by rewrite Hnone.
Qed.

Lemma run_incremental_retraining_no_checkpoint_witness :
  run_incremental_retraining Example.env (fun _ fs => (Ok tt, fs))
    Example.ready
  = (Ok true, snd (create_incremental_dataset_yaml Example.env Example.ready)).
Proof.
  apply (run_incremental_retraining_no_checkpoint Example.env
           (fun _ fs => (Ok tt, fs)) Example.ready _ (Ok tt)).
  - vm_compute. discriminate.
  - by eexists.
  - reflexivity.
  - right. reflexivity.
Defined.

(** X7: a successful run resets the retrain trigger: afterwards the
    labeled count is zero, so the trigger (for a threshold of at least one)
    does not fire, and a second run gives up at once with no labeled data
    and changes nothing. *)
Theorem run_incremental_retraining_resets_trigger (E : Env)
    (training training' : string -> FS -> res unit * FS) (fs fs2 : FS)
    (old_best new_best : file) :
  glob_jpg (labeled fs) <> [] ->
  is_Some (model_out fs) ->
  training "incremental_dataset.yaml"
    (snd (create_incremental_dataset_yaml E fs)) = (Ok tt, fs2) ->
  best_weights fs2 = Some new_best ->
  model_out fs2 = Some old_best ->
  1 <= TRIGGER_COUNT E ->
  exists fs',
    run_incremental_retraining E training fs = (Ok true, fs')
    /\ labeled_count fs' = 0
    /\ check_retrain_trigger E fs' = (false, fs')
    /\ run_incremental_retraining E training' fs' = (Ok false, fs').
Proof.
  intros Hsome Hm Htrain Hnew Hold Hcount.
  destruct (run_incremental_retraining_success E training fs fs2 old_best
              new_best Hsome Hm Htrain Hnew Hold)
    as (fs' & Hrun & Hlab & _).
  exists fs'. split; [exact Hrun|].
  assert (Hzero : labeled_count fs' = 0).
  { unfold labeled_count. by rewrite Hlab, glob_jpg_empty. }
  split; [exact Hzero|]. split.
  - unfold check_retrain_trigger. rewrite Hzero.
    replace (TRIGGER_COUNT E <=? 0) with false; [reflexivity|].
    symmetry. apply Z.leb_gt. lia.
  - apply run_incremental_retraining_no_data. by rewrite Hlab, glob_jpg_empty.
Qed.

Lemma run_incremental_retraining_resets_trigger_witness :
  exists fs',
    run_incremental_retraining Example.env Example.training_with_late_label
      Example.ready = (Ok true, fs')
    /\ check_retrain_trigger Example.env fs' = (false, fs').
Proof.
  destruct (Example.training_with_late_label "incremental_dataset.yaml"
              (snd (create_incremental_dataset_yaml Example.env Example.ready)))
    as [out fs2] eqn:Htrain.
  assert (Hout : out = Ok tt) by (by injection Htrain as <- _).
  subst out.
  destruct (run_incremental_retraining_resets_trigger Example.env
              Example.training_with_late_label Example.training_with_late_label
              Example.ready fs2 (Blob [Byte.x10]) (Blob [Byte.x11]))
    as (fs' & Hrun & _ & Htrig & _).
  - vm_compute. discriminate.
  - by eexists.
  - exact Htrain.
  - by injection Htrain as <-.
  - by injection Htrain as <-.
  - vm_compute. discriminate.
  - exists fs'. by split.
Defined.

(** X8: a successful run keeps what the consumed directory already held,
    except under the names of the files it moves in: a file archived
    earlier under the name of a labeled file is replaced by it. *)
Theorem run_incremental_retraining_archive (E : Env)
    (training : string -> FS -> res unit * FS) (fs fs2 : FS)
    (old_best new_best : file) :
  glob_jpg (labeled fs) <> [] ->
  is_Some (model_out fs) ->
  training "incremental_dataset.yaml"
    (snd (create_incremental_dataset_yaml E fs)) = (Ok tt, fs2) ->
  best_weights fs2 = Some new_best ->
  model_out fs2 = Some old_best ->
  exists fs' archive,
    run_incremental_retraining E training fs = (Ok true, fs')
    /\ consumed fs' = Some archive
    /\ forall name,
         archive !! name
         = match labeled fs2 !! name with
           | Some f => Some f
           | None => consumed fs2 ≫= (fun c => c !! name)
           end.
Proof.
  intros Hsome Hm Htrain Hnew Hold.
  destruct (run_incremental_retraining_success E training fs fs2 old_best
              new_best Hsome Hm Htrain Hnew Hold)
    as (fs' & Hrun & _ & Hcons & _).
  exists fs'. eexists. split; [exact Hrun|]. split; [exact Hcons|].
  intros name. rewrite lookup_union.
  destruct (labeled fs2 !! name) as [f|]; destruct (consumed fs2) as [c|];
    cbn.
  - by destruct (c !! name).
  - by rewrite lookup_empty.
  - by destruct (c !! name).
  - by rewrite lookup_empty.
Qed.

Lemma run_incremental_retraining_archive_witness :
  exists fs' archive,
    run_incremental_retraining Example.env Example.training_with_late_label
      (set_consumed (Some {[ "a.jpg" := Text "old"; "z.jpg" := Text "kept" ]})
         Example.ready) = (Ok true, fs')
    /\ consumed fs' = Some archive
    /\ archive !! "a.jpg" = Some (Jpeg Example.img)
    /\ archive !! "z.jpg" = Some (Text "kept").
Proof.
  set (fs := set_consumed _ Example.ready).
  destruct (Example.training_with_late_label "incremental_dataset.yaml"
              (snd (create_incremental_dataset_yaml Example.env fs)))
    as [out fs2] eqn:Htrain.
  assert (Hout : out = Ok tt) by (by injection Htrain as <- _).
  subst out.
  destruct (run_incremental_retraining_archive Example.env
              Example.training_with_late_label fs fs2 (Blob [Byte.x10])
              (Blob [Byte.x11]))
    as (fs' & archive & Hrun & Hcons & Harchive).
  - vm_compute. discriminate.
  - by eexists.
  - exact Htrain.
  - by injection Htrain as <-.
  - by injection Htrain as <-.
  - exists fs', archive. split; [exact Hrun|]. split; [exact Hcons|].
    rewrite !Harchive. injection Htrain as <-. split; reflexivity.
Defined.

(** ** The anomaly check with a model, and the pipeline around it *)

Lemma Qltb_iff (a b : Q) : Qltb a b = true <-> (a < b)%Q.
Proof.
  split; [|apply Qltb_true].
  intros Htrue. apply Qnot_le_lt. intros Hle.
  rewrite (Qltb_false _ _ Hle) in Htrue. discriminate.
Qed.

(** The answer of the check when the autoencoder gives an error value. *)
Lemma detect_anomaly_model_status (E : Env) (image_bytes : bytes)
    (model : bytes -> res Q) (mse : Q) :
  autoencoder_model E = Some model ->
  model image_bytes = Ok mse ->
  exists r,
    detect_anomaly E image_bytes = Ok r
    /\ a_anomaly_score r = mse
    /\ a_threshold r = anomaly_threshold E
    /\ a_message r = None
    /\ (a_status r = "ANOMALY" <-> (anomaly_threshold E < mse)%Q)
    /\ (a_status r = "NORMAL" <-> (mse <= anomaly_threshold E)%Q)
    /\ a_status r <> "PASS".
Proof.
  intros Hmodel Hmse. unfold detect_anomaly. rewrite Hmodel, Hmse.
  eexists. split; [reflexivity|]. cbn.
  split; [reflexivity|]. split; [reflexivity|]. split; [reflexivity|].
  destruct (Qltb (anomaly_threshold E) mse) eqn:Hlt.
  - apply Qltb_iff in Hlt. split; [done|]. split; [|discriminate].
    split; [discriminate|]. intros Hle. exfalso.
    exact (Qlt_not_le _ _ Hlt Hle).
  - assert (Hle : (mse <= anomaly_threshold E)%Q).
    { apply Qnot_lt_le. intros Hlt'. apply Qltb_iff in Hlt'. congruence. }
    split; [|split; [done | discriminate]].
    split; [discriminate|]. intros Hlt'. exfalso.
    exact (Qlt_not_le _ _ Hlt' Hle).
Qed.

(** X9: with an autoencoder loaded, the check reports the reconstruction
    error as the score and answers ANOMALY exactly when the error is
    strictly above the threshold, NORMAL otherwise (an error equal to the
    threshold is NORMAL); it never answers PASS and carries no message. *)
Theorem detect_anomaly_with_model (E : Env) (image_bytes : bytes)
    (model : bytes -> res Q) (mse : Q) :
  autoencoder_model E = Some model ->
  model image_bytes = Ok mse ->
  exists r,
    detect_anomaly E image_bytes = Ok r
    /\ a_anomaly_score r = mse
    /\ a_threshold r = anomaly_threshold E
    /\ a_message r = None
    /\ (a_status r = "ANOMALY" <-> (anomaly_threshold E < mse)%Q)
    /\ (a_status r = "NORMAL" <-> (mse <= anomaly_threshold E)%Q)
    /\ a_status r <> "PASS".
Proof. exact (detect_anomaly_model_status E image_bytes model mse). Qed.

Lemma detect_anomaly_with_model_witness :
  (exists r,
     detect_anomaly Scenario.at_threshold Example.image_bytes = Ok r
     /\ a_status r = "NORMAL")
  /\ exists r,
       detect_anomaly Scenario.anomalous Example.image_bytes = Ok r
       /\ a_status r = "ANOMALY".
Proof.
  split.
  - destruct (detect_anomaly_with_model Scenario.at_threshold
                Example.image_bytes (fun _ => Ok (1 # 2)) (1 # 2)
                eq_refl eq_refl) as (r & Hrun & _ & _ & _ & _ & Hnormal & _).
    exists r. split; [exact Hrun|]. apply Hnormal. cbv. discriminate.
  - destruct (detect_anomaly_with_model Scenario.anomalous
                Example.image_bytes (fun _ => Ok (9 # 10)) (9 # 10)
                eq_refl eq_refl) as (r & Hrun & _ & _ & _ & Hanom & _ & _).
    exists r. split; [exact Hrun|]. apply Hanom. reflexivity.
Defined.

(** A request with a file name, whose anomaly check and detection both
    answer, runs the gate and the loop. *)
Lemma pipeline_unfold (E : Env) (timestamp : string) (file : upload)
    (wd : world) (anomaly : anomaly_result) (yolo : yolo_results) :
  up_filename file <> "" ->
  detect_anomaly E (up_content file) = Ok anomaly ->
  predict_defects E (up_content file) = Ok yolo ->
  pipeline E timestamp (Some file) wd
  = let fs1 :=
      snd (handle_detection E timestamp (up_content file) (y_confidence yolo)
             0 (w_fs wd)) in
    match verify_loop E (imdecode E (up_content file)) (y_defects yolo) [] []
            (w_verifier_calls wd) with
    | (Raise m, calls) =>
        (Json_error m 500, {| w_fs := fs1; w_verifier_calls := calls |})
    | (Ok (verified, discarded), calls) =>
        (Json_ok
           {| fr_status := aggregate_status verified anomaly;
              fr_defects := verified;
              fr_discarded_defects := discarded;
              fr_confidence := y_confidence yolo;
              fr_annotated_image := y_annotated_image yolo;
              fr_anomaly_info := anomaly;
              fr_active_learning_flagged :=
                al_is_flagged
                  (fst (handle_detection E timestamp (up_content file)
                          (y_confidence yolo) 0 (w_fs wd)));
              fr_model_type := "YOLOv8 + CNN-LSTM + TF-Anomaly";
              fr_yolo_classes := y_classes yolo |},
         {| w_fs := fs1; w_verifier_calls := calls |})
    end.
Proof.
  intros Hname Ha Hy. unfold pipeline. rewrite Ha, Hy.
  destruct (String.eqb_spec (up_filename file) ""); [done|].
  by destruct (handle_detection E timestamp (up_content file)
                 (y_confidence yolo) 0 (w_fs wd)).
Qed.

(** What an answered request went through, with the state it ends in. *)
Lemma pipeline_ok_state (E : Env) (timestamp : string)
    (request_image : option upload) (wd wd' : world) (r : final_results) :
  pipeline E timestamp request_image wd = (Json_ok r, wd') ->
  exists file anomaly yolo i,
    request_image = Some file
    /\ up_filename file <> ""
    /\ detect_anomaly E (up_content file) = Ok anomaly
    /\ predict_defects E (up_content file) = Ok yolo
    /\ imdecode E (up_content file) = Some i
    /\ verify_loop E (Some i) (y_defects yolo) [] [] (w_verifier_calls wd)
       = (Ok (fr_defects r, fr_discarded_defects r), w_verifier_calls wd')
    /\ fr_status r = aggregate_status (fr_defects r) anomaly
    /\ fr_anomaly_info r = anomaly
    /\ fr_confidence r = y_confidence yolo
    /\ fr_active_learning_flagged r
       = al_is_flagged
           (fst (handle_detection E timestamp (up_content file)
                   (y_confidence yolo) 0 (w_fs wd)))
    /\ w_fs wd'
       = snd (handle_detection E timestamp (up_content file)
                (y_confidence yolo) 0 (w_fs wd)).
Proof.
  intros Hrun. destruct request_image as [file|]; [|discriminate].
  destruct (String.eqb_spec (up_filename file) "") as [Hempty|Hname].
  { unfold pipeline in Hrun. rewrite Hempty in Hrun. discriminate. }
  destruct (detect_anomaly E (up_content file)) as [anomaly|m] eqn:Ha.
  2:{ unfold pipeline in Hrun. rewrite Ha in Hrun.
      destruct (String.eqb (up_filename file) ""); discriminate. }
  destruct (predict_defects E (up_content file)) as [yolo|m] eqn:Hy.
  2:{ unfold pipeline in Hrun. rewrite Ha, Hy in Hrun.
      destruct (String.eqb (up_filename file) ""); discriminate. }
  destruct (predict_defects_decodes E _ _ Hy) as [i Hi].
  rewrite (pipeline_unfold E timestamp file wd anomaly yolo Hname Ha Hy) in Hrun.
  cbv zeta in Hrun. rewrite Hi in Hrun.
  destruct (verify_loop E (Some i) (y_defects yolo) [] []
              (w_verifier_calls wd)) as [[[verified discarded]|m] calls] eqn:Hv;
    [|discriminate].
  injection Hrun as <- <-.
  exists file, anomaly, yolo, i. cbn. by repeat split.
Qed.

(** X10: an anomaly decides the inspection: when the autoencoder's
    reconstruction error is strictly above the threshold, every request the
    pipeline answers has status FAIL, whatever the detector and the
    verifier found (no candidate at all included); when the error is at or
    below the threshold, the status is FAIL exactly when a defect was
    confirmed. *)
Theorem pipeline_anomaly_decides (E : Env) (timestamp : string)
    (file : upload) (wd wd' : world) (r : final_results)
    (model : bytes -> res Q) (mse : Q) :
  autoencoder_model E = Some model ->
  model (up_content file) = Ok mse ->
  pipeline E timestamp (Some file) wd = (Json_ok r, wd') ->
  ((anomaly_threshold E < mse)%Q -> fr_status r = "FAIL")
  /\ ((mse <= anomaly_threshold E)%Q ->
      (fr_status r = "FAIL" <-> fr_defects r <> [])).
Proof.
  intros Hmodel Hmse Hrun.
  destruct (pipeline_ok_state _ _ _ _ _ _ Hrun)
    as (file' & anomaly & yolo & i & [= <-] & _ & Ha & _ & _ & _ & Hst & _).
  destruct (detect_anomaly_model_status E _ model mse Hmodel Hmse)
    as (a & Ha' & _ & _ & _ & Hanom & _ & _).
  rewrite Ha in Ha'. injection Ha' as ->.
  rewrite Hst, aggregate_status_FAIL. split.
  - intros Hlt. right. by apply Hanom.
  - intros Hle. split; [|by left].
    intros [Hd|Hs]; [exact Hd|]. apply Hanom in Hs. exfalso.
    exact (Qlt_not_le _ _ Hs Hle).
Qed.

Lemma pipeline_anomaly_decides_witness :
  exists r wd',
    pipeline Scenario.anomalous "20240101_120000_000001" (Some Scenario.part)
      Example.start = (Json_ok r, wd')
    /\ fr_defects r = [] /\ fr_status r = "FAIL".
Proof.
  destruct (pipeline Scenario.anomalous "20240101_120000_000001"
              (Some Scenario.part) Example.start) as [resp wd'] eqn:Hrun.
  assert (Hok : exists r, resp = Json_ok r /\ fr_defects r = []).
  { vm_compute in Hrun. injection Hrun as <- _. by eexists. }
  destruct Hok as (r & -> & Hnone). exists r, wd'.
  split; [reflexivity|]. split; [exact Hnone|].
  apply (proj1
           (pipeline_anomaly_decides Scenario.anomalous
              "20240101_120000_000001" Scenario.part Example.start wd' r
              (fun _ => Ok (9 # 10)) (9 # 10) eq_refl eq_refl Hrun)).
  reflexivity.
Defined.

(** X11: an upload whose bytes do not decode is answered with an error
    of code 500 and changes nothing: no image is stored for review and the
    verifier is not called.  Unless the autoencoder itself raises first,
    the error is the detector's "Could not decode the uploaded image.". *)
Theorem pipeline_undecodable (E : Env) (timestamp : string) (file : upload)
    (wd : world) :
  up_filename file <> "" ->
  imdecode E (up_content file) = None ->
  exists msg,
    pipeline E timestamp (Some file) wd = (Json_error msg 500, wd)
    /\ ((forall model m, autoencoder_model E = Some model ->
                         model (up_content file) <> Raise m) ->
        msg = "Could not decode the uploaded image.").
Proof.
  intros Hname Hdec. unfold pipeline.
  destruct (String.eqb_spec (up_filename file) ""); [done|].
  unfold predict_defects. rewrite Hdec.
  destruct (detect_anomaly E (up_content file)) as [a|m] eqn:Ha.
  - eexists. split; [reflexivity|]. done.
  - exists m. split; [reflexivity|]. intros Hmodel. exfalso.
    unfold detect_anomaly in Ha.
    destruct (autoencoder_model E) as [model|]; [|discriminate].
    destruct (model (up_content file)) as [mse|m'] eqn:Hm; [discriminate|].
    by eapply Hmodel.
Qed.

Lemma pipeline_undecodable_witness :
  pipeline Example.env "20240101_120000_000001" (Some Scenario.unreadable)
    Example.start
  = (Json_error "Could not decode the uploaded image." 500, Example.start).
Proof.
  destruct (pipeline_undecodable Example.env "20240101_120000_000001"
              Scenario.unreadable Example.start ltac:(discriminate)
              ltac:(reflexivity)) as (msg & Hrun & Hmsg).
  rewrite Hrun, Hmsg; [reflexivity|]. intros model m Hmodel. discriminate.
Defined.

(** X12: in every request the pipeline answers, the result says "flagged
    for active learning" exactly when the detector's confidence is strictly
    below the gate's threshold; then the uploaded image, decoded, is in the
    pending directory under the generated name (class id 0), and otherwise
    the file system is as before the request. *)
Theorem pipeline_active_learning_flag (E : Env) (timestamp : string)
    (file : upload) (wd wd' : world) (r : final_results) :
  pipeline E timestamp (Some file) wd = (Json_ok r, wd') ->
  (fr_active_learning_flagged r = true
   <-> (fr_confidence r < CONFIDENCE_THRESHOLD E)%Q)
  /\ ((CONFIDENCE_THRESHOLD E <= fr_confidence r)%Q -> w_fs wd' = w_fs wd)
  /\ ((fr_confidence r < CONFIDENCE_THRESHOLD E)%Q ->
      exists i,
        imdecode E (up_content file) = Some i
        /\ w_fs wd'
           = set_pending
               (<[pending_filename timestamp (fr_confidence r) 0 := Jpeg i]>
                  (pending (w_fs wd))) (w_fs wd)).
Proof.
  intros Hrun.
  destruct (pipeline_ok_state _ _ _ _ _ _ Hrun)
    as (file' & anomaly & yolo & i & [= <-] & _ & _ & _ & Hi & _ & _ & _
        & -> & -> & ->).
  split; [|split].
  - destruct (Qlt_le_dec (y_confidence yolo) (CONFIDENCE_THRESHOLD E))
      as [Hlt|Hle].
    + rewrite (handle_detection_flagged E _ _ _ _ _ i Hlt Hi). by split.
    + unfold handle_detection. rewrite (Qltb_false _ _ Hle). cbn.
      split; [discriminate|]. intros Hlt. exfalso.
      exact (Qlt_not_le _ _ Hlt Hle).
  - intros Hle. unfold handle_detection. by rewrite (Qltb_false _ _ Hle).
  - intros Hlt. exists i. split; [exact Hi|].
    by rewrite (handle_detection_flagged E _ _ _ _ _ i Hlt Hi).
Qed.

Lemma pipeline_active_learning_flag_witness :
  exists r wd',
    pipeline Scenario.anomalous "20240101_120000_000001" (Some Scenario.part)
      Example.start = (Json_ok r, wd')
    /\ fr_active_learning_flagged r = true
    /\ pending (w_fs wd')
         !! "review_pending_20240101_120000_000001_conf0.00_cls0.jpg"
       = Some (Jpeg Example.img).
Proof.
  destruct (pipeline Scenario.anomalous "20240101_120000_000001"
              (Some Scenario.part) Example.start) as [resp wd'] eqn:Hrun.
  assert (Hok : exists r, resp = Json_ok r /\ fr_confidence r = 0%Q).
  { vm_compute in Hrun. injection Hrun as <- _. by eexists. }
  destruct Hok as (r & -> & Hconf). exists r, wd'. split; [reflexivity|].
  destruct (pipeline_active_learning_flag Scenario.anomalous
              "20240101_120000_000001" Scenario.part Example.start wd' r Hrun)
    as (Hflag & _ & Hstored).
  split.
  - apply Hflag. by rewrite Hconf.
  - destruct Hstored as (i & Hi & ->); [by rewrite Hconf|].
    rewrite Hconf. injection Hi as <-. reflexivity.
Defined.

(** ** What the loop keeps, and what it raises *)

(** The loop raises only what the verifier raised on its last call. *)
Lemma verify_loop_raise (E : Env) (img : image) (defects : list defect) :
  forall verified discarded calls m calls',
    verify_loop E (Some img) defects verified discarded calls
    = (Raise m, calls') ->
    exists b, last calls' = Some b /\ predict_cnn_lstm E b = Raise m.
Proof.
  induction defects as [|x defects IH];
    intros verified discarded calls m calls' Hrun.
  - discriminate.
  - rewrite verify_loop_cons in Hrun.
    destruct (crop_to_verify E img x) as [b|]; [|by eapply IH].
    destruct (predict_cnn_lstm E b) as [cnn|m'] eqn:Hcnn.
    + destruct (String.eqb (cnn_verdict cnn) "DEFECTIVE"); by eapply IH.
    + injection Hrun as <- <-. exists b. split; [apply last_snoc | exact Hcnn].
Qed.

(** X13: once detection has succeeded with a confidence below the gate's
    threshold, the uploaded image is in the pending directory when the
    request ends, also when the request then fails: the flag is not undone.
    Such a failure has code 500 and carries what the verifier raised on its
    last call. *)
Theorem pipeline_flag_survives_error (E : Env) (timestamp : string)
    (file : upload) (wd wd' : world) (resp : response)
    (anomaly : anomaly_result) (yolo : yolo_results) (i : image) :
  up_filename file <> "" ->
  detect_anomaly E (up_content file) = Ok anomaly ->
  predict_defects E (up_content file) = Ok yolo ->
  imdecode E (up_content file) = Some i ->
  (y_confidence yolo < CONFIDENCE_THRESHOLD E)%Q ->
  pipeline E timestamp (Some file) wd = (resp, wd') ->
  pending (w_fs wd') !! pending_filename timestamp (y_confidence yolo) 0
  = Some (Jpeg i)
  /\ forall m code,
       resp = Json_error m code ->
       code = 500
       /\ exists b,
            last (w_verifier_calls wd') = Some b
            /\ predict_cnn_lstm E b = Raise m.
Proof.
  intros Hname Ha Hy Hi Hlt Hrun.
  rewrite (pipeline_unfold E timestamp file wd anomaly yolo Hname Ha Hy) in Hrun.
  cbv zeta in Hrun.
  rewrite (handle_detection_flagged E _ _ _ _ _ i Hlt Hi), Hi in Hrun.
  cbn [fst snd] in Hrun.
  destruct (verify_loop E (Some i) (y_defects yolo) [] []
              (w_verifier_calls wd)) as [[[verified discarded]|m] calls] eqn:Hv;
    injection Hrun as <- <-; cbn [w_fs w_verifier_calls pending set_pending].
  - split; [apply lookup_insert_eq | discriminate].
  - split; [apply lookup_insert_eq|]. intros m' code [= <- <-].
    split; [reflexivity|]. by eapply verify_loop_raise.
Qed.

Lemma pipeline_flag_survives_error_witness :
  exists m wd',
    pipeline Scenario.failing_verifier "20240101_120000_000001"
      (Some Scenario.part) Example.start = (Json_error m 500, wd')
    /\ pending (w_fs wd')
         !! "review_pending_20240101_120000_000001_conf0.30_cls0.jpg"
       = Some (Jpeg Example.img).
Proof.
  destruct (pipeline Scenario.failing_verifier "20240101_120000_000001"
              (Some Scenario.part) Example.start) as [resp wd'] eqn:Hrun.
  assert (Herr : exists m, resp = Json_error m 500).
  { vm_compute in Hrun. injection Hrun as <- _. by eexists. }
  destruct Herr as (m & ->). exists m, wd'. split; [reflexivity|].
  exact (proj1
    (pipeline_flag_survives_error Scenario.failing_verifier
       "20240101_120000_000001" Scenario.part Example.start wd' _ _
       Scenario.unsure Example.img ltac:(discriminate) eq_refl eq_refl
       eq_refl ltac:(reflexivity) Hrun)).
Defined.

(** The loop puts a region in the first list exactly on the verdict
    DEFECTIVE, in the second on any other verdict, each with the verdict,
    confidence and heatmap the verifier gave for its encoded crop. *)
Lemma verify_loop_partition (E : Env) (img : image) (defects : list defect)
    (P Q : defect -> Prop) :
  (forall cand b cnn,
     crop_to_verify E img cand = Some b -> predict_cnn_lstm E b = Ok cnn ->
     cnn_verdict cnn = "DEFECTIVE" -> P (with_verification cand cnn)) ->
  (forall cand b cnn,
     crop_to_verify E img cand = Some b -> predict_cnn_lstm E b = Ok cnn ->
     cnn_verdict cnn <> "DEFECTIVE" -> Q (with_verification cand cnn)) ->
  forall verified discarded calls verified' discarded' calls',
    verify_loop E (Some img) defects verified discarded calls
    = (Ok (verified', discarded'), calls') ->
    Forall P verified -> Forall Q discarded ->
    Forall P verified' /\ Forall Q discarded'.
Proof.
  intros HP HQ. induction defects as [|x defects IH];
    intros verified discarded calls verified' discarded' calls' Hrun Hv Hd.
  - injection Hrun as <- <- _. by split.
  - rewrite verify_loop_cons in Hrun.
    destruct (crop_to_verify E img x) as [b|] eqn:Hcrop; [|by eapply IH].
    destruct (predict_cnn_lstm E b) as [cnn|m] eqn:Hcnn; [|discriminate].
    destruct (String.eqb_spec (cnn_verdict cnn) "DEFECTIVE") as [Hdef|Hgood].
    + eapply IH; [exact Hrun | | exact Hd].
      apply Forall_app. split; [exact Hv|].
      constructor; [by eapply HP | constructor].
    + eapply IH; [exact Hrun | exact Hv |].
      apply Forall_app. split; [exact Hd|].
      constructor; [by eapply HQ | constructor].
Qed.

(** The verification each entry of a result carries. *)
Lemma pipeline_verdicts (E : Env) (timestamp : string) (file : upload)
    (wd wd' : world) (r : final_results) (i : image) :
  imdecode E (up_content file) = Some i ->
  pipeline E timestamp (Some file) wd = (Json_ok r, wd') ->
  (forall d, d ∈ fr_defects r ->
     exists v b cnn,
       d_verification d = Some v /\ v_verdict v = "DEFECTIVE"
       /\ imencode_jpg E (crop_bbox i (d_bbox d)) = Some b
       /\ predict_cnn_lstm E b = Ok cnn
       /\ v = {| v_verdict := cnn_verdict cnn;
                 v_confidence := cnn_confidence cnn;
                 v_heatmap := cnn_heatmap_image cnn |})
  /\ (forall d, d ∈ fr_discarded_defects r ->
        exists v b cnn,
          d_verification d = Some v /\ v_verdict v <> "DEFECTIVE"
          /\ imencode_jpg E (crop_bbox i (d_bbox d)) = Some b
          /\ predict_cnn_lstm E b = Ok cnn
          /\ v = {| v_verdict := cnn_verdict cnn;
                    v_confidence := cnn_confidence cnn;
                    v_heatmap := cnn_heatmap_image cnn |}).
Proof.
  intros Hi Hrun.
  destruct (pipeline_ok_state _ _ _ _ _ _ Hrun)
    as (file' & anomaly & yolo & i' & [= <-] & _ & _ & _ & Hi' & Hloop & _).
  rewrite Hi in Hi'. injection Hi' as <-.
  assert (Hcrop : forall cand b,
    crop_to_verify E i cand = Some b ->
    imencode_jpg E (crop_bbox i (d_bbox cand)) = Some b).
  { intros cand b. unfold crop_to_verify.
    by destruct (ndarray_size (crop_bbox i (d_bbox cand)) =? 0). }
  rewrite <- !Forall_forall.
  eapply (verify_loop_partition E i (y_defects yolo)); [| |exact Hloop| |];
    try by constructor.
  - intros cand b cnn Hc Hp Hverdict. cbn.
    eexists _, b, cnn. split; [reflexivity|]. cbn.
    split; [exact Hverdict|]. split; [by apply Hcrop|]. by split.
  - intros cand b cnn Hc Hp Hverdict. cbn.
    eexists _, b, cnn. split; [reflexivity|]. cbn.
    split; [exact Hverdict|]. split; [by apply Hcrop|]. by split.
Qed.

(** X14: in every result of the pipeline, each confirmed defect carries a
    verification whose verdict is DEFECTIVE and each discarded candidate
    one whose verdict is not DEFECTIVE; the verdict, confidence and
    heatmap attached are those the verifier returned for the encoded crop of
    that candidate's clamped box. *)
Theorem pipeline_partition (E : Env) (timestamp : string) (file : upload)
    (wd wd' : world) (r : final_results) (i : image) :
  imdecode E (up_content file) = Some i ->
  pipeline E timestamp (Some file) wd = (Json_ok r, wd') ->
  (forall d, d ∈ fr_defects r ->
     exists v b cnn,
       d_verification d = Some v /\ v_verdict v = "DEFECTIVE"
       /\ imencode_jpg E (crop_bbox i (d_bbox d)) = Some b
       /\ predict_cnn_lstm E b = Ok cnn
       /\ v = {| v_verdict := cnn_verdict cnn;
                 v_confidence := cnn_confidence cnn;
                 v_heatmap := cnn_heatmap_image cnn |})
  /\ (forall d, d ∈ fr_discarded_defects r ->
        exists v b cnn,
          d_verification d = Some v /\ v_verdict v <> "DEFECTIVE"
          /\ imencode_jpg E (crop_bbox i (d_bbox d)) = Some b
          /\ predict_cnn_lstm E b = Ok cnn
          /\ v = {| v_verdict := cnn_verdict cnn;
                    v_confidence := cnn_confidence cnn;
                    v_heatmap := cnn_heatmap_image cnn |}).
Proof. exact (pipeline_verdicts E timestamp file wd wd' r i). Qed.

Lemma pipeline_partition_witness :
  exists r wd',
    pipeline Example.env "20240101_120000_000001" Example.request Example.start
      = (Json_ok r, wd')
    /\ forall d, d ∈ fr_defects r ->
         exists v, d_verification d = Some v /\ v_verdict v = "DEFECTIVE".
Proof.
  destruct (pipeline Example.env "20240101_120000_000001" Example.request
              Example.start) as [resp wd'] eqn:Hrun.
  assert (Hok : exists r, resp = Json_ok r).
  { vm_compute in Hrun. injection Hrun as <- _. by eexists. }
  destruct Hok as [r ->]. exists r, wd'. split; [reflexivity|].
  intros d Hd.
  destruct (proj1
    (pipeline_partition Example.env "20240101_120000_000001" Scenario.part
       Example.start wd' r Example.img eq_refl Hrun) d Hd)
    as (v & _ & _ & Hv & Hverdict & _).
  by exists v.
Defined.

Lemma Forall_sublist {A} (P : A -> Prop) (l1 l2 : list A) :
  l1 `sublist_of` l2 -> Forall P l2 -> Forall P l1.
Proof.
  induction 1 as [|x l1 l2 _ IH|x l1 l2 _ IH]; intros Hall.
  - constructor.
  - inversion Hall; subst. constructor; [assumption | by apply IH].
  - inversion Hall; subst. by apply IH.
Qed.

Lemma StronglySorted_sublist {A} (R : A -> A -> Prop) (l1 l2 : list A) :
  l1 `sublist_of` l2 -> StronglySorted R l2 -> StronglySorted R l1.
Proof.
  induction 1 as [|x l1 l2 Hsub IH|x l1 l2 _ IH]; intros Hsorted.
  - constructor.
  - apply StronglySorted_inv in Hsorted as [Hrest Hall].
    constructor; [by apply IH | by eapply Forall_sublist].
  - apply StronglySorted_inv in Hsorted as [Hrest _]. by apply IH.
Qed.

Lemma StronglySorted_fmap_inv {A B} (f : A -> B) (R : B -> B -> Prop)
    (l : list A) :
  StronglySorted R (f <$> l) ->
  StronglySorted (fun x y => R (f x) (f y)) l.
Proof.
  induction l as [|x l IH]; intros Hsorted; [constructor|].
  cbn in Hsorted. apply StronglySorted_inv in Hsorted as [Hrest Hall].
  constructor; [by apply IH|].
  apply Forall_forall. intros y Hy.
  rewrite Forall_forall in Hall. apply Hall. by apply list_elem_of_fmap_2.
Qed.

(** The loop appends to its lists, in the order of the regions, and calls
    the verifier once for each region that has a crop to verify. *)
Lemma verify_loop_order (E : Env) (img : image) (defects : list defect) :
  forall verified discarded calls verified' discarded' calls',
    verify_loop E (Some img) defects verified discarded calls
    = (Ok (verified', discarded'), calls') ->
    exists v1 d1,
      verified' = (verified ++ v1)%list
      /\ discarded' = (discarded ++ d1)%list
      /\ (detected <$> v1) `sublist_of` (detected <$> defects)
      /\ (detected <$> d1) `sublist_of` (detected <$> defects)
      /\ calls' = (calls ++ omap (crop_to_verify E img) defects)%list
      /\ (length v1 + length d1)%nat
         = length (omap (crop_to_verify E img) defects).
Proof.
  induction defects as [|x defects IH];
    intros verified discarded calls verified' discarded' calls' Hrun.
  - injection Hrun as <- <- <-. exists [], [].
    rewrite !app_nil_r. by repeat split.
  - rewrite verify_loop_cons in Hrun.
    change (omap (crop_to_verify E img) (x :: defects))
      with (match crop_to_verify E img x with
            | Some b => b :: omap (crop_to_verify E img) defects
            | None => omap (crop_to_verify E img) defects
            end).
    destruct (crop_to_verify E img x) as [b|] eqn:Hcrop.
    2:{ destruct (IH _ _ _ _ _ _ Hrun)
          as (v1 & d1 & -> & -> & Hv & Hd & -> & Hlen).
        exists v1, d1. repeat split; try done; cbn [fmap list_fmap];
          by apply sublist_cons. }
    destruct (predict_cnn_lstm E b) as [cnn|m]; [|discriminate].
    destruct (String.eqb (cnn_verdict cnn) "DEFECTIVE").
    + destruct (IH _ _ _ _ _ _ Hrun)
        as (v1 & d1 & -> & -> & Hv & Hd & -> & Hlen).
      exists (with_verification x cnn :: v1), d1.
      rewrite <- !app_assoc. cbn [app fmap list_fmap length].
      repeat split; try done.
      * by apply sublist_skip.
      * by apply sublist_cons.
      * cbn. lia.
    + destruct (IH _ _ _ _ _ _ Hrun)
        as (v1 & d1 & -> & -> & Hv & Hd & -> & Hlen).
      exists v1, (with_verification x cnn :: d1).
      rewrite <- !app_assoc. cbn [app fmap list_fmap length].
      repeat split; try done.
      * by apply sublist_cons.
      * by apply sublist_skip.
      * cbn. lia.
Qed.

(** The two lists of a result against the detector's list. *)
Lemma pipeline_order (E : Env) (timestamp : string) (file : upload)
    (wd wd' : world) (r : final_results) (yolo : yolo_results) (i : image) :
  predict_defects E (up_content file) = Ok yolo ->
  imdecode E (up_content file) = Some i ->
  pipeline E timestamp (Some file) wd = (Json_ok r, wd') ->
  (detected <$> fr_defects r) `sublist_of` (detected <$> y_defects yolo)
  /\ (detected <$> fr_discarded_defects r)
       `sublist_of` (detected <$> y_defects yolo)
  /\ w_verifier_calls wd'
     = (w_verifier_calls wd
          ++ omap (crop_to_verify E i) (y_defects yolo))%list
  /\ (length (fr_defects r) + length (fr_discarded_defects r))%nat
     = length (omap (crop_to_verify E i) (y_defects yolo))
  /\ (StronglySorted
        (fun d1 d2 => (d_confidence d2 <= d_confidence d1)%Q) (y_defects yolo)
      -> StronglySorted
           (fun d1 d2 => (d_confidence d2 <= d_confidence d1)%Q) (fr_defects r)
         /\ StronglySorted
              (fun d1 d2 => (d_confidence d2 <= d_confidence d1)%Q)
              (fr_discarded_defects r)).
Proof.
  intros Hy Hi Hrun.
  destruct (pipeline_ok_state _ _ _ _ _ _ Hrun)
    as (file' & anomaly & yolo' & i' & [= <-] & _ & _ & Hy' & Hi' & Hloop & _).
  rewrite Hy in Hy'. injection Hy' as <-.
  rewrite Hi in Hi'. injection Hi' as <-.
  destruct (verify_loop_order _ _ _ _ _ _ _ _ _ Hloop)
    as (v1 & d1 & Hv1 & Hd1 & Hv & Hd & Hcalls & Hlen).
  cbn [app] in Hv1, Hd1. subst v1 d1.
  split; [exact Hv|]. split; [exact Hd|]. split; [exact Hcalls|].
  split; [exact Hlen|]. intros Hsorted.
  set (R := fun p q : string * Z * Q * (Z * Z * Z * Z) * string =>
              (q.1.1.2 <= p.1.1.2)%Q).
  assert (Hproj : StronglySorted R (detected <$> y_defects yolo)).
  { eapply StronglySorted_fmap; [|exact Hsorted]. by intros x y. }
  split.
  - apply (StronglySorted_fmap_inv detected R).
    by eapply StronglySorted_sublist.
  - apply (StronglySorted_fmap_inv detected R).
    by eapply StronglySorted_sublist.
Qed.

(** X15: the pipeline neither reorders nor repeats candidates: the
    confirmed and the discarded lists, without the verification attached,
    are sublists of the detector's list in the detector's order, their
    lengths add up to the number of verifier calls of the request, and if
    the detector's list is in descending order of confidence, so are
    both. *)
Theorem pipeline_keeps_order (E : Env) (timestamp : string) (file : upload)
    (wd wd' : world) (r : final_results) (yolo : yolo_results) (i : image) :
  predict_defects E (up_content file) = Ok yolo ->
  imdecode E (up_content file) = Some i ->
  pipeline E timestamp (Some file) wd = (Json_ok r, wd') ->
  (detected <$> fr_defects r) `sublist_of` (detected <$> y_defects yolo)
  /\ (detected <$> fr_discarded_defects r)
       `sublist_of` (detected <$> y_defects yolo)
  /\ w_verifier_calls wd'
     = (w_verifier_calls wd
          ++ omap (crop_to_verify E i) (y_defects yolo))%list
  /\ (length (fr_defects r) + length (fr_discarded_defects r))%nat
     = length (omap (crop_to_verify E i) (y_defects yolo))
  /\ (StronglySorted
        (fun d1 d2 => (d_confidence d2 <= d_confidence d1)%Q) (y_defects yolo)
      -> StronglySorted
           (fun d1 d2 => (d_confidence d2 <= d_confidence d1)%Q) (fr_defects r)
         /\ StronglySorted
              (fun d1 d2 => (d_confidence d2 <= d_confidence d1)%Q)
              (fr_discarded_defects r)).
Proof. exact (pipeline_order E timestamp file wd wd' r yolo i). Qed.

Lemma pipeline_keeps_order_witness :
  exists r wd',
    pipeline Example.env "20240101_120000_000001" Example.request Example.start
      = (Json_ok r, wd')
    /\ (length (fr_defects r) + length (fr_discarded_defects r))%nat = 1%nat
    /\ w_verifier_calls wd' = [[Byte.x02]].
Proof.
  destruct (pipeline Example.env "20240101_120000_000001" Example.request
              Example.start) as [resp wd'] eqn:Hrun.
  assert (Hok : exists r, resp = Json_ok r).
  { vm_compute in Hrun. injection Hrun as <- _. by eexists. }
  destruct Hok as [r ->]. exists r, wd'. split; [reflexivity|].
  destruct (pipeline_keeps_order Example.env "20240101_120000_000001"
              Scenario.part Example.start wd' r Example.detection Example.img
              eq_refl eq_refl Hrun) as (_ & _ & Hcalls & Hlen & _).
  split; [exact Hlen | exact Hcalls].
Defined.

(** ** Crops *)

Lemma slice_bound_range (n i : Z) : 0 <= n -> 0 <= slice_bound n i <= n.
Proof. unfold slice_bound. destruct (Z.ltb_spec i 0); lia. Qed.

Lemma py_slice_length {A} (lo hi : Z) (l : list A) :
  Z.of_nat (length (py_slice lo hi l))
  = Z.max 0 (slice_bound (Z.of_nat (length l)) hi
             - slice_bound (Z.of_nat (length l)) lo).
Proof.
  unfold py_slice. rewrite length_take, length_drop.
  pose proof (slice_bound_range (Z.of_nat (length l)) lo ltac:(lia)).
  pose proof (slice_bound_range (Z.of_nat (length l)) hi ltac:(lia)).
  lia.
Qed.

Lemma py_slice_lookup {A} (lo hi : Z) (l : list A) (k : nat) :
  0 <= lo -> lo <= hi -> hi <= Z.of_nat (length l) ->
  Z.of_nat k < hi - lo ->
  py_slice lo hi l !! k = l !! (Z.to_nat lo + k)%nat.
Proof.
  intros Hlo Hle Hhi Hk. unfold py_slice, slice_bound.
  destruct (Z.ltb_spec lo 0); [lia|]. destruct (Z.ltb_spec hi 0); [lia|].
  rewrite !Z.min_l by lia.
  rewrite lookup_take_lt by lia. apply lookup_drop.
Qed.

Lemma py_slice_elem_of {A} (lo hi : Z) (l : list A) (x : A) :
  x ∈ py_slice lo hi l -> x ∈ l.
Proof.
  unfold py_slice. intros Hin.
  eapply elem_of_sublist; [|apply sublist_drop].
  eapply elem_of_sublist; [exact Hin | apply sublist_take].
Qed.

Lemma concat_uniform_length {A} (rows : list (list A)) (k : Z) :
  Forall (fun row => Z.of_nat (length row) = k) rows ->
  Z.of_nat (length (concat rows)) = Z.of_nat (length rows) * k.
Proof.
  induction 1 as [|row rows Hrow _ IH]; [reflexivity|].
  cbn [concat length]. rewrite length_app. lia.
Qed.

Lemma crop_image_lookup {A} (rows : list (list A)) (w x1 y1 x2 y2 : Z)
    (r c : nat) :
  Forall (fun row => Z.of_nat (length row) = w) rows ->
  0 <= x1 -> x1 <= x2 -> x2 <= w ->
  0 <= y1 -> y1 <= y2 -> y2 <= Z.of_nat (length rows) ->
  Z.of_nat r < y2 - y1 -> Z.of_nat c < x2 - x1 ->
  map (py_slice x1 x2) (py_slice y1 y2 rows) !! r ≫= (fun row => row !! c)
  = rows !! (Z.to_nat y1 + r)%nat
      ≫= (fun row => row !! (Z.to_nat x1 + c)%nat).
Proof.
  intros Hrows Hx1 Hx Hx2 Hy1 Hy Hy2 Hr Hc.
  change (map (py_slice x1 x2) (py_slice y1 y2 rows))
    with (py_slice x1 x2 <$> py_slice y1 y2 rows).
  rewrite list_lookup_fmap, (py_slice_lookup y1 y2 rows r) by lia.
  destruct (rows !! (Z.to_nat y1 + r)%nat) as [row|] eqn:Hrow; [|reflexivity].
  cbn. apply py_slice_lookup; try lia.
  rewrite Forall_forall in Hrows.
  rewrite (Hrows row) by (by eapply list_elem_of_lookup_2). lia.
Qed.

Lemma shape2_rectangular (img : image) (h w : Z) :
  rectangular img h w -> 0 < h -> shape2 img = (h, w).
Proof.
  intros [Hh Hrows] Hpos. unfold shape2. rewrite Hh. f_equal.
  destruct img as [|row img]; [cbn in Hh; lia|].
  by inversion Hrows.
Qed.

(** The crop of a box inside the image, row by row and pixel by pixel. *)
Lemma crop_bbox_box (img : image) (h w x1 y1 x2 y2 : Z) :
  rectangular img h w ->
  0 < h ->
  0 <= x1 -> x1 <= x2 -> x2 <= w ->
  0 <= y1 -> y1 <= y2 -> y2 <= h ->
  Z.of_nat (length (crop_bbox img (x1, y1, x2, y2))) = y2 - y1
  /\ Forall (fun row => Z.of_nat (length row) = x2 - x1)
       (crop_bbox img (x1, y1, x2, y2))
  /\ ndarray_size (crop_bbox img (x1, y1, x2, y2))
     = 3 * ((y2 - y1) * (x2 - x1))
  /\ forall r c : nat,
       Z.of_nat r < y2 - y1 -> Z.of_nat c < x2 - x1 ->
       crop_bbox img (x1, y1, x2, y2) !! r ≫= (fun row => row !! c)
       = img !! (Z.to_nat y1 + r)%nat
           ≫= (fun row => row !! (Z.to_nat x1 + c)%nat).
Proof.
  intros Hrect Hpos Hx1 Hx Hx2 Hy1 Hy Hy2.
  pose proof Hrect as [Hh Hrows].
  unfold crop_bbox, clamp_bbox. rewrite (shape2_rectangular img h w Hrect Hpos).
  rewrite !Z.max_r, !Z.min_r by lia. unfold crop_image.
  assert (Hlen : Z.of_nat (length (py_slice y1 y2 img)) = y2 - y1).
  { rewrite py_slice_length, Hh. unfold slice_bound.
    destruct (Z.ltb_spec y1 0), (Z.ltb_spec y2 0); lia. }
  assert (Hsub : forall row, row ∈ py_slice y1 y2 img ->
                             Z.of_nat (length row) = w).
  { intros row Hin. rewrite Forall_forall in Hrows. apply Hrows.
    by eapply py_slice_elem_of. }
  assert (Hwidth : forall row, row ∈ py_slice y1 y2 img ->
                     Z.of_nat (length (py_slice x1 x2 row)) = x2 - x1).
  { intros row Hin. rewrite py_slice_length, (Hsub row Hin).
    unfold slice_bound.
    destruct (Z.ltb_spec x1 0), (Z.ltb_spec x2 0); lia. }
  assert (Hall : Forall (fun row => Z.of_nat (length row) = x2 - x1)
                   (map (py_slice x1 x2) (py_slice y1 y2 img))).
  { apply Forall_forall. intros row Hin.
    apply list_elem_of_fmap in Hin as (row0 & -> & Hin0). by apply Hwidth. }
  split; [by rewrite length_map|]. split; [exact Hall|]. split.
  - unfold ndarray_size.
    by rewrite (concat_uniform_length _ _ Hall), length_map, Hlen.
  - intros r c Hr Hc. apply (crop_image_lookup img w); try lia.
    exact Hrows.
Qed.

(** X16: for a box that lies inside the image, the crop the pipeline
    hands on is the box itself: as many rows as the box is high, each as
    wide as the box, three scalars per pixel, and the pixel at row [r] and
    column [c] of the crop is the pixel at row [y1 + r] and column [x1 + c]
    of the image. *)
Theorem crop_bbox_inside (img : image) (h w x1 y1 x2 y2 : Z) :
  rectangular img h w ->
  0 < h ->
  0 <= x1 -> x1 <= x2 -> x2 <= w ->
  0 <= y1 -> y1 <= y2 -> y2 <= h ->
  Z.of_nat (length (crop_bbox img (x1, y1, x2, y2))) = y2 - y1
  /\ Forall (fun row => Z.of_nat (length row) = x2 - x1)
       (crop_bbox img (x1, y1, x2, y2))
  /\ ndarray_size (crop_bbox img (x1, y1, x2, y2))
     = 3 * ((y2 - y1) * (x2 - x1))
  /\ forall r c : nat,
       Z.of_nat r < y2 - y1 -> Z.of_nat c < x2 - x1 ->
       crop_bbox img (x1, y1, x2, y2) !! r ≫= (fun row => row !! c)
       = img !! (Z.to_nat y1 + r)%nat
           ≫= (fun row => row !! (Z.to_nat x1 + c)%nat).
Proof. exact (crop_bbox_box img h w x1 y1 x2 y2). Qed.

Lemma crop_bbox_inside_witness :
  ndarray_size (crop_bbox Example.img (0, 0, 2, 1)) = 6
  /\ crop_bbox Example.img (0, 0, 2, 1) !! 0%nat ≫= (fun row => row !! 1%nat)
     = Some (1, 1, 1)%N.
Proof.
  destruct (crop_bbox_inside Example.img 2 2 0 0 2 1) as (_ & _ & Hsize & Hpx);
    try lia.
  - split; [reflexivity|]. by repeat constructor.
  - split; [exact Hsize|].
    etrans; [apply (Hpx 0%nat 1%nat); lia | reflexivity].
Defined.

(** The crop of a box that lies to the left of the image. *)
Lemma crop_bbox_left (img : image) (h w x1 y1 x2 y2 : Z) :
  rectangular img h w ->
  0 < h ->
  x1 <= x2 -> x2 < 0 -> - w < x2 ->
  0 <= y1 -> y1 < y2 -> y2 <= h ->
  clamp_bbox img (x1, y1, x2, y2) = (0, y1, x2, y2)
  /\ crop_bbox img (x1, y1, x2, y2) = crop_bbox img (0, y1, w + x2, y2)
  /\ ndarray_size (crop_bbox img (x1, y1, x2, y2))
     = 3 * ((y2 - y1) * (w + x2))
  /\ ndarray_size (crop_bbox img (x1, y1, x2, y2)) <> 0.
Proof.
  intros Hrect Hpos Hx Hneg Hw Hy1 Hy Hy2.
  pose proof Hrect as [Hh Hrows].
  assert (Hclamp : clamp_bbox img (x1, y1, x2, y2) = (0, y1, x2, y2)).
  { unfold clamp_bbox. rewrite (shape2_rectangular img h w Hrect Hpos).
    by rewrite (Z.max_l 0 x1), (Z.max_r 0 y1), (Z.min_r w x2),
      (Z.min_r h y2) by lia. }
  assert (Hsame : crop_bbox img (x1, y1, x2, y2)
                  = crop_bbox img (0, y1, w + x2, y2)).
  { unfold crop_bbox. rewrite Hclamp. unfold clamp_bbox.
    rewrite (shape2_rectangular img h w Hrect Hpos).
    rewrite (Z.max_l 0 0), (Z.max_r 0 y1), (Z.min_r w (w + x2)),
      (Z.min_r h y2) by lia.
    unfold crop_image. apply map_ext_in. intros row Hin.
    assert (Hrow : Z.of_nat (length row) = w).
    { rewrite Forall_forall in Hrows. apply Hrows.
      apply list_elem_of_In in Hin. by eapply py_slice_elem_of. }
    unfold py_slice, slice_bound. rewrite Hrow.
    destruct (Z.ltb_spec x2 0); [|lia].
    destruct (Z.ltb_spec (w + x2) 0); [lia|].
    destruct (Z.ltb_spec 0 0); [lia|].
    by rewrite Z.max_r, (Z.min_l (w + x2)), (Z.add_comm x2 w) by lia. }
  split; [exact Hclamp|]. split; [exact Hsame|].
  destruct (crop_bbox_box img h w 0 y1 (w + x2) y2 Hrect Hpos)
    as (_ & _ & Hsize & _); try lia.
  rewrite Hsame, Hsize. replace (w + x2 - 0) with (w + x2) by lia.
  split; [reflexivity | nia].
Qed.

(** X17: the clamp of [pipeline] leaves a negative right or lower edge
    as it is, and the slice counts it from the far side: a box that lies
    entirely to the left of the image (both x coordinates negative, the
    right one above [-w]) is not dropped as empty but cropped from the
    image's left edge up to [w + x2], in its rows [y1..y2]. *)
Theorem crop_bbox_left_of_image (img : image) (h w x1 y1 x2 y2 : Z) :
  rectangular img h w ->
  0 < h ->
  x1 <= x2 -> x2 < 0 -> - w < x2 ->
  0 <= y1 -> y1 < y2 -> y2 <= h ->
  clamp_bbox img (x1, y1, x2, y2) = (0, y1, x2, y2)
  /\ crop_bbox img (x1, y1, x2, y2) = crop_bbox img (0, y1, w + x2, y2)
  /\ ndarray_size (crop_bbox img (x1, y1, x2, y2))
     = 3 * ((y2 - y1) * (w + x2))
  /\ ndarray_size (crop_bbox img (x1, y1, x2, y2)) <> 0.
Proof. exact (crop_bbox_left img h w x1 y1 x2 y2). Qed.

Lemma crop_bbox_left_of_image_witness :
  crop_bbox Example.img (-5, 0, -1, 2) = [[(0, 0, 0)]; [(2, 2, 2)]]%N
  /\ ndarray_size (crop_bbox Example.img (-5, 0, -1, 2)) <> 0.
Proof.
  destruct (crop_bbox_left_of_image Example.img 2 2 (-5) 0 (-1) 2)
    as (_ & _ & _ & Hsize); try lia.
  - split; [reflexivity|]. by repeat constructor.
  - split; [reflexivity | exact Hsize].
Defined.

(** ** Boxes without area *)

Lemma py_slice_empty {A} (a b : Z) (l : list A) :
  0 <= a -> 0 <= b -> b <= a -> py_slice a b l = [].
Proof.
  intros Ha Hb Hle. unfold py_slice, slice_bound.
  destruct (Z.ltb_spec a 0); [lia|]. destruct (Z.ltb_spec b 0); [lia|].
  replace (Z.to_nat (Z.min b (Z.of_nat (length l))
                     - Z.min a (Z.of_nat (length l)))) with 0%nat by lia.
  reflexivity.
Qed.

(** The size of the crop of a box whose right and lower edges are not
    negative: three scalars for each pixel of the clamped box, none when
    its width or its height is not positive. *)
Lemma crop_bbox_size (img : image) (h w x1 y1 x2 y2 : Z) :
  rectangular img h w ->
  0 < h ->
  0 <= x2 -> 0 <= y2 ->
  ndarray_size (crop_bbox img (x1, y1, x2, y2))
  = 3 * (Z.max 0 (clamped_height img (x1, y1, x2, y2))
         * Z.max 0 (clamped_width img (x1, y1, x2, y2))).
Proof.
  intros Hrect Hpos Hx2 Hy2.
  assert (Hw : 0 <= w).
  { destruct Hrect as [Hh Hrows]. destruct img as [|row img];
      [cbn in Hh; lia|]. inversion Hrows; subst. lia. }
  unfold clamped_height, clamped_width, crop_bbox, clamp_bbox.
  rewrite (shape2_rectangular img h w Hrect Hpos).
  set (a := Z.max 0 x1). set (c := Z.max 0 y1).
  set (b := Z.min w x2). set (d := Z.min h y2).
  destruct (Z.le_gt_cases d c) as [Hrows|Hrows].
  { unfold crop_image. rewrite (py_slice_empty c d) by lia.
    unfold ndarray_size. cbn. lia. }
  destruct (Z.le_gt_cases b a) as [Hcols|Hcols].
  { unfold crop_image, ndarray_size. rewrite concat_all_nil; [cbn; lia|].
    apply Forall_forall. intros row Hrow.
    apply list_elem_of_fmap in Hrow as (row0 & -> & _).
    apply py_slice_empty; lia. }
  destruct (crop_bbox_box img h w a c b d Hrect Hpos)
    as (_ & _ & Hsize & _); try lia.
  unfold crop_bbox, clamp_bbox in Hsize.
  rewrite (shape2_rectangular img h w Hrect Hpos) in Hsize.
  rewrite (Z.max_r 0 a), (Z.max_r 0 c), (Z.min_r w b), (Z.min_r h d) in Hsize
    by lia.
  rewrite Hsize. lia.
Qed.

(** Every entry of the two lists of a result has a crop that is not
    empty. *)
Lemma pipeline_entries_have_crop (E : Env) (timestamp : string)
    (file : upload) (wd wd' : world) (r : final_results) (img : image) :
  imdecode E (up_content file) = Some img ->
  pipeline E timestamp (Some file) wd = (Json_ok r, wd') ->
  forall d, d ∈ fr_defects r \/ d ∈ fr_discarded_defects r ->
    ndarray_size (crop_bbox img (d_bbox d)) <> 0.
Proof.
  intros Hi Hrun d Hin.
  destruct (pipeline_ok_state _ _ _ _ _ _ Hrun)
    as (file' & anomaly & yolo & i' & [= <-] & _ & _ & _ & Hi' & Hloop & _).
  rewrite Hi in Hi'. injection Hi' as <-.
  destruct (verify_loop_inv _ _ _ _ _ _ _ _ Hloop) as [_ Hfrom].
  destruct (Hfrom _ _ eq_refl d Hin)
    as [[Hnil|Hnil]|(cand & b & cnn & _ & Hcrop & _ & ->)];
    [by apply elem_of_nil in Hnil | by apply elem_of_nil in Hnil |].
  cbn [with_verification d_bbox]. unfold crop_to_verify in Hcrop.
  destruct (Z.eqb_spec (ndarray_size (crop_bbox img (d_bbox cand))) 0);
    [discriminate | done].
Qed.

(** X30: a region whose crop is empty is handed to no verifier and
    appears in neither list of the result, whatever the verifier would
    answer.  The crop is empty whenever the clamped box
    [max(0, x1), max(0, y1), min(w, x2), min(h, y2)] has zero width or zero
    height; and for a box without a negative right or lower edge the crop
    has three scalars for each pixel of the clamped box, so that it is
    empty exactly when the clamped box has no positive width or no
    positive height. *)
Theorem pipeline_zero_area_excluded (E : Env) (timestamp : string)
    (file : upload) (wd wd' : world) (r : final_results)
    (yolo : yolo_results) (img : image) (cand : defect) :
  predict_defects E (up_content file) = Ok yolo ->
  imdecode E (up_content file) = Some img ->
  pipeline E timestamp (Some file) wd = (Json_ok r, wd') ->
  cand ∈ y_defects yolo ->
  (ndarray_size (crop_bbox img (d_bbox cand)) = 0 ->
   crop_to_verify E img cand = None
   /\ forall cnn,
        (with_verification cand cnn ∉ fr_defects r)
        /\ (with_verification cand cnn ∉ fr_discarded_defects r))
  /\ (clamped_width img (d_bbox cand) = 0
      \/ clamped_height img (d_bbox cand) = 0 ->
      ndarray_size (crop_bbox img (d_bbox cand)) = 0)
  /\ forall h w x1 y1 x2 y2,
       rectangular img h w ->
       0 < h ->
       d_bbox cand = (x1, y1, x2, y2) ->
       0 <= x2 -> 0 <= y2 ->
       ndarray_size (crop_bbox img (d_bbox cand))
       = 3 * (Z.max 0 (clamped_height img (d_bbox cand))
              * Z.max 0 (clamped_width img (d_bbox cand))).
Proof.
  intros Hy Hi Hrun Hin. split; [|split].
  - intros Hempty. split.
    + unfold crop_to_verify. by rewrite Hempty.
    + intros cnn. split; intros Hd.
      * apply (pipeline_entries_have_crop E timestamp file wd wd' r img Hi
                 Hrun _ (or_introl Hd)).
        exact Hempty.
      * apply (pipeline_entries_have_crop E timestamp file wd wd' r img Hi
                 Hrun _ (or_intror Hd)).
        exact Hempty.
  - apply zero_area_crop_empty.
  - intros h w x1 y1 x2 y2 Hrect Hpos Hbox Hx2 Hy2. rewrite Hbox.
    by apply (crop_bbox_size img h w).
Qed.

Lemma pipeline_zero_area_excluded_witness :
  exists r wd',
    pipeline Example.env "20240101_120000_000001" Example.request Example.start
      = (Json_ok r, wd')
    /\ clamped_width Example.img (d_bbox Example.outside) = -3
    /\ forall cnn,
         (with_verification Example.outside cnn ∉ fr_defects r)
         /\ (with_verification Example.outside cnn
              ∉ fr_discarded_defects r).
Proof.
  destruct (pipeline Example.env "20240101_120000_000001" Example.request
              Example.start) as [resp wd'] eqn:Hrun.
  assert (Hok : exists r, resp = Json_ok r).
  { vm_compute in Hrun. injection Hrun as <- _. by eexists. }
  destruct Hok as [r ->]. exists r, wd'. split; [reflexivity|].
  split; [reflexivity|].
  destruct (pipeline_zero_area_excluded Example.env "20240101_120000_000001"
              {| up_filename := "part.jpg"; up_content := Example.image_bytes |}
              Example.start wd' r Example.detection Example.img
              Example.outside eq_refl eq_refl Hrun) as (Hexcluded & _ & Hsize).
  - apply elem_of_cons; right. apply elem_of_cons; right.
    apply elem_of_cons; by left.
  - apply Hexcluded. rewrite (Hsize 2 2 5 5 9 9); try lia; try reflexivity.
    split; [reflexivity|]. by repeat constructor.
Defined.

(** ** A box outside the image *)

(** A region whose crop the verifier calls DEFECTIVE ends among the
    confirmed defects. *)
Lemma verify_loop_confirms (E : Env) (img : image) (defects : list defect) :
  forall verified discarded calls verified' discarded' calls',
    verify_loop E (Some img) defects verified discarded calls
    = (Ok (verified', discarded'), calls') ->
    forall cand b cnn,
      cand ∈ defects ->
      crop_to_verify E img cand = Some b ->
      predict_cnn_lstm E b = Ok cnn ->
      cnn_verdict cnn = "DEFECTIVE" ->
      with_verification cand cnn ∈ verified'.
Proof.
  induction defects as [|x defects IH];
    intros verified discarded calls verified' discarded' calls' Hrun
      cand b cnn Hin Hcrop Hcnn Hverdict.
  - by apply elem_of_nil in Hin.
  - rewrite verify_loop_cons in Hrun.
    apply elem_of_cons in Hin as [<-|Hin].
    + rewrite Hcrop, Hcnn, Hverdict in Hrun. cbn in Hrun.
      destruct (verify_loop_order _ _ _ _ _ _ _ _ _ Hrun)
        as (v1 & d1 & -> & _).
      apply elem_of_app. left. apply elem_of_app. right.
      by apply list_elem_of_singleton.
    + destruct (crop_to_verify E img x) as [bx|]; [|by eapply IH].
      destruct (predict_cnn_lstm E bx) as [cx|m]; [|discriminate].
      destruct (String.eqb (cnn_verdict cx) "DEFECTIVE"); by eapply IH.
Qed.

(** C8, the part the code breaks: the clamp raises the left and upper
    edges to 0 and lowers the right and lower edges to the image's width
    and height, nothing else, so a negative right edge stays as it is and
    the box is not brought inside the image.  A region that lies entirely
    to the left of the image (right edge negative, above [-w]) has no pixel
    in common with it and a clamped box of negative width, but the slice
    counts the negative edge from the far side: the crop is the image's
    columns from 0 to [w + x2], it is handed to the verifier, and when the
    verifier calls it DEFECTIVE the region is among the confirmed defects
    and the request fails. *)
Theorem pipeline_confirms_box_left_of_image (E : Env) (timestamp : string)
    (file : upload) (wd wd' : world) (r : final_results)
    (yolo : yolo_results) (img : image) (h w x1 y1 x2 y2 : Z)
    (cand : defect) (b : bytes) (cnn : cnn_result) :
  predict_defects E (up_content file) = Ok yolo ->
  imdecode E (up_content file) = Some img ->
  rectangular img h w ->
  0 < h ->
  cand ∈ y_defects yolo ->
  d_bbox cand = (x1, y1, x2, y2) ->
  x1 <= x2 -> x2 < 0 -> - w < x2 ->
  0 <= y1 -> y1 < y2 -> y2 <= h ->
  imencode_jpg E (crop_bbox img (d_bbox cand)) = Some b ->
  predict_cnn_lstm E b = Ok cnn ->
  cnn_verdict cnn = "DEFECTIVE" ->
  pipeline E timestamp (Some file) wd = (Json_ok r, wd') ->
  clamp_bbox img (d_bbox cand) = (0, y1, x2, y2)
  /\ clamped_width img (d_bbox cand) < 0
  /\ crop_bbox img (d_bbox cand) = crop_bbox img (0, y1, w + x2, y2)
  /\ crop_to_verify E img cand = Some b
  /\ with_verification cand cnn ∈ fr_defects r
  /\ fr_status r = "FAIL".
Proof.
  intros Hy Hi Hrect Hpos Hin Hbox Hx Hneg Hw Hy1 Hlt Hy2 Henc Hcnn Hverdict
    Hrun.
  destruct (crop_bbox_left img h w x1 y1 x2 y2 Hrect Hpos Hx Hneg Hw Hy1 Hlt
              Hy2) as (Hclamp & Hcrop & _ & Hsize).
  rewrite <- Hbox in Hclamp, Hcrop, Hsize.
  assert (Hverify : crop_to_verify E img cand = Some b).
  { unfold crop_to_verify.
    destruct (Z.eqb_spec (ndarray_size (crop_bbox img (d_bbox cand))) 0);
      [done | exact Henc]. }
  destruct (pipeline_ok_state _ _ _ _ _ _ Hrun)
    as (file' & anomaly & yolo' & i' & [= <-] & _ & _ & Hy' & Hi' & Hloop
        & Hstatus & _).
  rewrite Hy in Hy'. injection Hy' as <-.
  rewrite Hi in Hi'. injection Hi' as <-.
  assert (Hconfirmed : with_verification cand cnn ∈ fr_defects r)
    by (by eapply verify_loop_confirms).
  split; [exact Hclamp|]. split.
  { unfold clamped_width. rewrite Hclamp. lia. }
  split; [exact Hcrop|]. split; [exact Hverify|].
  split; [exact Hconfirmed|].
  rewrite Hstatus. apply aggregate_status_FAIL. left.
  intros Hnil. rewrite Hnil in Hconfirmed. by apply elem_of_nil in Hconfirmed.
Qed.

Lemma pipeline_confirms_box_left_of_image_witness :
  exists r wd',
    pipeline Scenario.detects_left "20240101_120000_000001" Example.request
      Example.start = (Json_ok r, wd')
    /\ clamp_bbox Example.img (d_bbox Scenario.left_of_image) = (0, 0, -1, 2)
    /\ with_verification Scenario.left_of_image Example.verdict
       ∈ fr_defects r
    /\ fr_status r = "FAIL".
Proof.
  destruct (pipeline Scenario.detects_left "20240101_120000_000001"
              Example.request Example.start) as [resp wd'] eqn:Hrun.
  assert (Hok : exists r, resp = Json_ok r).
  { vm_compute in Hrun. injection Hrun as <- _. by eexists. }
  destruct Hok as [r ->]. exists r, wd'. split; [reflexivity|].
  destruct (pipeline_confirms_box_left_of_image Scenario.detects_left
              "20240101_120000_000001" Scenario.part Example.start wd' r
              (with_defects Example.detection [Scenario.left_of_image])
              Example.img 2 2 (-5) 0 (-1) 2 Scenario.left_of_image
              [Byte.x02] Example.verdict)
    as (Hclamp & _ & _ & _ & Hin & Hfail); try lia; try reflexivity.
  - split; [reflexivity|]. by repeat constructor.
  - by apply list_elem_of_singleton.
  - exact Hrun.
  - by repeat split.
Defined.

(** ** The detector's result *)

Lemma insert_desc_Permutation (d : defect) (l : list defect) :
  insert_desc d l ≡ₚ d :: l.
Proof.
  induction l as [|x l IH]; [reflexivity|]. cbn.
  destruct (Qle_bool (d_confidence d) (d_confidence x)); [|reflexivity].
  rewrite IH. apply Permutation_swap.
Qed.

Lemma insert_desc_sorted (d : defect) (l : list defect) :
  StronglySorted (fun d1 d2 => (d_confidence d2 <= d_confidence d1)%Q) l ->
  StronglySorted (fun d1 d2 => (d_confidence d2 <= d_confidence d1)%Q)
    (insert_desc d l).
Proof.
  induction 1 as [|x l Hsorted IH Hall]; cbn.
  - repeat constructor.
  - destruct (Qle_bool (d_confidence d) (d_confidence x)) eqn:Hle.
    + apply Qle_bool_iff in Hle. constructor; [exact IH|].
      rewrite insert_desc_Permutation. by constructor.
    + assert (Hlt : (d_confidence x < d_confidence d)%Q).
      { apply Qnot_le_lt. intros Hle'. apply Qle_bool_iff in Hle'.
        congruence. }
      constructor; [by constructor|].
      constructor; [by apply Qlt_le_weak|].
      eapply Forall_impl; [exact Hall|]. intros y Hy. cbn in Hy |- *.
      eapply Qle_trans; [exact Hy | by apply Qlt_le_weak].
Qed.

Lemma sort_desc_spec (defects : list defect) :
  sort_desc defects ≡ₚ defects
  /\ StronglySorted (fun d1 d2 => (d_confidence d2 <= d_confidence d1)%Q)
       (sort_desc defects).
Proof.
  unfold sort_desc.
  assert (Hgen : forall acc,
    StronglySorted (fun d1 d2 => (d_confidence d2 <= d_confidence d1)%Q) acc ->
    fold_left (fun sorted d => insert_desc d sorted) defects acc
      ≡ₚ (acc ++ defects)%list
    /\ StronglySorted (fun d1 d2 => (d_confidence d2 <= d_confidence d1)%Q)
         (fold_left (fun sorted d => insert_desc d sorted) defects acc)).
  { induction defects as [|d defects IH]; intros acc Hacc; cbn [fold_left].
    - by rewrite app_nil_r.
    - destruct (IH (insert_desc d acc) (insert_desc_sorted d acc Hacc))
        as [Hperm Hsorted].
      split; [|exact Hsorted].
      rewrite Hperm, insert_desc_Permutation. cbn [app].
      apply Permutation_middle. }
  apply (Hgen []). constructor.
Qed.

(** Order, content and status of the assembled result. *)
Lemma assemble_results_sorted_parts (names : gmap Z string)
    (boxes : list yolo_box) (annotated : string) :
  y_defects (assemble_results names boxes annotated)
    ≡ₚ map (defect_of_box names) boxes
  /\ StronglySorted (fun d1 d2 => (d_confidence d2 <= d_confidence d1)%Q)
       (y_defects (assemble_results names boxes annotated))
  /\ (y_status (assemble_results names boxes annotated) = "PASS"
      <-> boxes = [])
  /\ (y_status (assemble_results names boxes annotated) = "FAIL"
      <-> boxes <> [])
  /\ (boxes = [] ->
      y_confidence (assemble_results names boxes annotated) = 0%Q
      /\ y_defects (assemble_results names boxes annotated) = []).
Proof.
  destruct (sort_desc_spec (map (defect_of_box names) boxes))
    as [Hperm Hsorted].
  unfold assemble_results. cbn [y_defects y_status y_confidence].
  split; [exact Hperm|]. split; [exact Hsorted|].
  assert (Hempty : sort_desc (map (defect_of_box names) boxes) = []
                   <-> boxes = []).
  { split.
    - intros Hnil. rewrite Hnil in Hperm. symmetry in Hperm.
      apply Permutation_nil_r in Hperm. by destruct boxes.
    - by intros ->. }
  split; [|split].
  - rewrite <- Hempty.
    destruct (sort_desc (map (defect_of_box names) boxes)); by split.
  - rewrite <- Hempty.
    destruct (sort_desc (map (defect_of_box names) boxes)); by split.
  - by intros ->.
Qed.

(** X18: the defects [predict_defects] returns are the detections of the
    model's rows (class name and source looked up, coordinates truncated
    to integers, confidence rounded to four decimals, no verification
    yet), each row once, in descending order of confidence; the status is
    PASS exactly when the model gave no row, and then the confidence is
    0. *)
Theorem assemble_results_sorted (names : gmap Z string)
    (boxes : list yolo_box) (annotated : string) :
  y_defects (assemble_results names boxes annotated)
    ≡ₚ map (defect_of_box names) boxes
  /\ StronglySorted (fun d1 d2 => (d_confidence d2 <= d_confidence d1)%Q)
       (y_defects (assemble_results names boxes annotated))
  /\ (y_status (assemble_results names boxes annotated) = "PASS"
      <-> boxes = [])
  /\ (y_status (assemble_results names boxes annotated) = "FAIL"
      <-> boxes <> [])
  /\ (boxes = [] ->
      y_confidence (assemble_results names boxes annotated) = 0%Q
      /\ y_defects (assemble_results names boxes annotated) = []).
Proof. exact (assemble_results_sorted_parts names boxes annotated). Qed.

Lemma assemble_results_sorted_example :
  map (fun d => (d_class d, d_bbox d, d_confidence d))
    (y_defects (assemble_results ∅ Traffic.rows ""))
  = [("GOOD", (0, 0, 2, 2), 9500 # 10000);
     ("DEFECTIVE", (0, 0, 2, 2), 6123 # 10000)].
Proof. reflexivity. Qed.

(** X19: with the detector as [predict_defects] has it, the confirmed
    and the discarded list of every result are in descending order of
    detector confidence; when the model gives no row both are empty and
    the confidence of the result is 0. *)
Theorem pipeline_descending_confidence (E : Env) (timestamp : string)
    (file : upload) (wd wd' : world) (r : final_results)
    (names : gmap Z string) (boxes : list yolo_box) (annotated : string)
    (i : image) :
  imdecode E (up_content file) = Some i ->
  yolo_infer E i = Ok (assemble_results names boxes annotated) ->
  pipeline E timestamp (Some file) wd = (Json_ok r, wd') ->
  StronglySorted (fun d1 d2 => (d_confidence d2 <= d_confidence d1)%Q)
    (fr_defects r)
  /\ StronglySorted (fun d1 d2 => (d_confidence d2 <= d_confidence d1)%Q)
       (fr_discarded_defects r)
  /\ (boxes = [] ->
      fr_defects r = [] /\ fr_discarded_defects r = []
      /\ fr_confidence r = 0%Q).
Proof.
  intros Hi Hinfer Hrun.
  assert (Hy : predict_defects E (up_content file)
               = Ok (assemble_results names boxes annotated)).
  { unfold predict_defects. by rewrite Hi. }
  destruct (assemble_results_sorted_parts names boxes annotated)
    as (_ & Hsorted & _ & _ & Hnone).
  destruct (pipeline_order E timestamp file wd wd' r _ i Hy Hi Hrun)
    as (Hv & Hd & _ & _ & Hkeep).
  destruct (Hkeep Hsorted) as [Hsv Hsd].
  split; [exact Hsv|]. split; [exact Hsd|].
  intros Hboxes. destruct (Hnone Hboxes) as [Hconf Hnil].
  rewrite Hnil in Hv, Hd. cbn in Hv, Hd.
  apply sublist_nil_r in Hv, Hd.
  apply fmap_nil_inv in Hv, Hd.
  destruct (pipeline_ok_state _ _ _ _ _ _ Hrun)
    as (file' & anomaly & yolo & i' & [= <-] & _ & _ & Hy' & _ & _ & _ & _
        & Hc & _).
  rewrite Hy in Hy'. injection Hy' as <-. by rewrite Hc, Hconf.
Qed.

Lemma pipeline_descending_confidence_witness :
  exists r wd',
    pipeline Traffic.env "20240101_120000_000001" (Some Scenario.part)
      Example.start = (Json_ok r, wd')
    /\ map d_confidence (fr_defects r) = [9500 # 10000; 6123 # 10000]
    /\ StronglySorted (fun d1 d2 => (d_confidence d2 <= d_confidence d1)%Q)
         (fr_defects r).
Proof.
  destruct (pipeline Traffic.env "20240101_120000_000001" (Some Scenario.part)
              Example.start) as [resp wd'] eqn:Hrun.
  assert (Hok : exists r, resp = Json_ok r
                  /\ map d_confidence (fr_defects r)
                     = [9500 # 10000; 6123 # 10000]).
  { vm_compute in Hrun. injection Hrun as <- _. by eexists. }
  destruct Hok as (r & -> & Hconf). exists r, wd'.
  split; [reflexivity|]. split; [exact Hconf|].
  exact (proj1
    (pipeline_descending_confidence Traffic.env "20240101_120000_000001"
       Scenario.part Example.start wd' r ∅ Traffic.rows "" Example.img
       eq_refl eq_refl Hrun)).
Defined.

(** ** The verifier's verdict *)

(** The answer of the verifier service for a decodable image. *)
Lemma predict_cnn_lstm_service_answer (decode : bytes -> option image)
    (classifier : image -> res (Q * string)) (model_loaded : bool)
    (image_bytes : bytes) (img_cv : image) (prob : Q) (heatmap : string) :
  decode image_bytes = Some img_cv ->
  classifier img_cv = Ok (prob, heatmap) ->
  exists c,
    predict_cnn_lstm_service decode classifier model_loaded image_bytes = Ok c
    /\ (cl_verdict c = "DEFECTIVE" <-> (1 # 2 < prob)%Q)
    /\ (cl_verdict c = "GOOD" <-> (prob <= 1 # 2)%Q)
    /\ (cl_verdict_label c = "FAIL" <-> cl_verdict c = "DEFECTIVE")
    /\ (cl_verdict_label c = "PASS" <-> cl_verdict c = "GOOD")
    /\ cl_confidence c = round4 prob
    /\ cl_heatmap_image c = heatmap.
Proof.
  intros Hdec Hcls. unfold predict_cnn_lstm_service. rewrite Hdec, Hcls.
  eexists. split; [reflexivity|]. cbn.
  destruct (Qltb (1 # 2) prob) eqn:Hlt.
  - apply Qltb_iff in Hlt. repeat split; try done.
    intros Hle. exfalso. exact (Qlt_not_le _ _ Hlt Hle).
  - assert (Hle : (prob <= 1 # 2)%Q).
    { apply Qnot_lt_le. intros Hlt'. apply Qltb_iff in Hlt'. congruence. }
    repeat split; try done.
    intros Hlt'. exfalso. exact (Qlt_not_le _ _ Hlt' Hle).
Qed.

(** X20: [predict_cnn_lstm] answers DEFECTIVE (label FAIL) exactly when
    the classifier's probability is strictly above 0.5 and GOOD (label
    PASS) otherwise, a probability of exactly 0.5 included; the confidence
    it reports is that probability rounded to four decimals, for either
    verdict.  Bytes that do not decode raise "Could not decode the uploaded
    image.", and what the classifier raises is passed on. *)
Theorem predict_cnn_lstm_service_verdict (decode : bytes -> option image)
    (classifier : image -> res (Q * string)) (model_loaded : bool)
    (image_bytes : bytes) :
  (decode image_bytes = None ->
   predict_cnn_lstm_service decode classifier model_loaded image_bytes
   = Raise "Could not decode the uploaded image.")
  /\ (forall img_cv m,
        decode image_bytes = Some img_cv -> classifier img_cv = Raise m ->
        predict_cnn_lstm_service decode classifier model_loaded image_bytes
        = Raise m)
  /\ (forall img_cv prob heatmap,
        decode image_bytes = Some img_cv ->
        classifier img_cv = Ok (prob, heatmap) ->
        exists c,
          predict_cnn_lstm_service decode classifier model_loaded image_bytes
          = Ok c
          /\ (cl_verdict c = "DEFECTIVE" <-> (1 # 2 < prob)%Q)
          /\ (cl_verdict c = "GOOD" <-> (prob <= 1 # 2)%Q)
          /\ (cl_verdict_label c = "FAIL" <-> cl_verdict c = "DEFECTIVE")
          /\ (cl_verdict_label c = "PASS" <-> cl_verdict c = "GOOD")
          /\ cl_confidence c = round4 prob
          /\ cl_heatmap_image c = heatmap).
Proof.
  split; [|split].
  - intros Hdec. unfold predict_cnn_lstm_service. by rewrite Hdec.
  - intros img_cv m Hdec Hcls. unfold predict_cnn_lstm_service.
    by rewrite Hdec, Hcls.
  - intros img_cv prob heatmap. apply predict_cnn_lstm_service_answer.
Qed.

Lemma predict_cnn_lstm_service_verdict_witness :
  (exists c,
     predict_cnn_lstm_service (fun _ => Some Example.img)
       (fun _ => Ok (1 # 2, "")) true Example.image_bytes = Ok c
     /\ cl_verdict c = "GOOD")
  /\ predict_cnn_lstm_service (imdecode Example.env) Traffic.classifier true []
     = Raise "Could not decode the uploaded image.".
Proof.
  split.
  - destruct (proj2 (proj2
      (predict_cnn_lstm_service_verdict (fun _ => Some Example.img)
         (fun _ => Ok (1 # 2, "")) true Example.image_bytes))
      Example.img (1 # 2) "" eq_refl eq_refl)
      as (c & Hrun & _ & Hgood & _).
    exists c. split; [exact Hrun|]. apply Hgood. cbv. discriminate.
  - apply (proj1
      (predict_cnn_lstm_service_verdict (imdecode Example.env)
         Traffic.classifier true [])).
    reflexivity.
Defined.

(** X21: with the verifier as [predict_cnn_lstm] has it, a candidate is
    among the confirmed defects of a result only if the classifier's
    probability for its crop is strictly above 0.5, and among the discarded
    ones only if it is at most 0.5; in both lists the confidence of the
    verification is that probability of being defective, rounded to four
    decimals. *)
Theorem pipeline_confirms_above_half (E : Env)
    (decode : bytes -> option image) (classifier : image -> res (Q * string))
    (model_loaded : bool) (timestamp : string) (file : upload)
    (wd wd' : world) (r : final_results) (i : image) :
  (forall b,
     predict_cnn_lstm E b
     = res_map cnn_result_of
         (predict_cnn_lstm_service decode classifier model_loaded b)) ->
  imdecode E (up_content file) = Some i ->
  pipeline E timestamp (Some file) wd = (Json_ok r, wd') ->
  (forall d, d ∈ fr_defects r ->
     exists b crop prob heatmap,
       imencode_jpg E (crop_bbox i (d_bbox d)) = Some b
       /\ decode b = Some crop /\ classifier crop = Ok (prob, heatmap)
       /\ (1 # 2 < prob)%Q
       /\ v_confidence <$> d_verification d = Some (round4 prob))
  /\ (forall d, d ∈ fr_discarded_defects r ->
        exists b crop prob heatmap,
          imencode_jpg E (crop_bbox i (d_bbox d)) = Some b
          /\ decode b = Some crop /\ classifier crop = Ok (prob, heatmap)
          /\ (prob <= 1 # 2)%Q
          /\ v_confidence <$> d_verification d = Some (round4 prob)).
Proof.
  intros Hverifier Hi Hrun.
  destruct (pipeline_verdicts E timestamp file wd wd' r i Hi Hrun)
    as [Hconfirmed Hdiscarded].
  assert (Hservice : forall b cnn,
    predict_cnn_lstm E b = Ok cnn ->
    exists crop prob heatmap c,
      decode b = Some crop /\ classifier crop = Ok (prob, heatmap)
      /\ predict_cnn_lstm_service decode classifier model_loaded b = Ok c
      /\ cnn = cnn_result_of c).
  { intros b cnn Hb. rewrite Hverifier in Hb.
    unfold predict_cnn_lstm_service in Hb |- *.
    destruct (decode b) as [crop|]; [|discriminate].
    destruct (classifier crop) as [[prob heatmap]|m] eqn:Hcls; [|discriminate].
    injection Hb as <-. by eexists crop, prob, heatmap, _. }
  split.
  - intros d Hd.
    destruct (Hconfirmed d Hd) as (v & b & cnn & Hv & Hverdict & Hb & Hp & ->).
    destruct (Hservice b cnn Hp)
      as (crop & prob & heatmap & c & Hdec & Hcls & Hrunc & ->).
    destruct (predict_cnn_lstm_service_answer decode classifier model_loaded
                b crop prob heatmap Hdec Hcls)
      as (c' & Hc' & Hdef & _ & _ & _ & Hconf & _).
    rewrite Hrunc in Hc'. injection Hc' as <-.
    exists b, crop, prob, heatmap. repeat split; try done.
    + by apply Hdef.
    + rewrite Hv. cbn. by rewrite Hconf.
  - intros d Hd.
    destruct (Hdiscarded d Hd) as (v & b & cnn & Hv & Hverdict & Hb & Hp & ->).
    destruct (Hservice b cnn Hp)
      as (crop & prob & heatmap & c & Hdec & Hcls & Hrunc & ->).
    destruct (predict_cnn_lstm_service_answer decode classifier model_loaded
                b crop prob heatmap Hdec Hcls)
      as (c' & Hc' & Hdef & _ & _ & _ & Hconf & _).
    rewrite Hrunc in Hc'. injection Hc' as <-.
    exists b, crop, prob, heatmap. repeat split; try done.
    + apply Qnot_lt_le. intros Hlt. apply Hverdict. cbn. by apply Hdef.
    + rewrite Hv. cbn. by rewrite Hconf.
Qed.

Lemma pipeline_confirms_above_half_witness :
  exists r wd',
    pipeline Traffic.env "20240101_120000_000001" (Some Scenario.part)
      Example.start = (Json_ok r, wd')
    /\ length (fr_defects r) = 2%nat
    /\ forall d, d ∈ fr_defects r ->
         v_confidence <$> d_verification d = Some (round4 (7 # 10)).
Proof.
  destruct (pipeline Traffic.env "20240101_120000_000001" (Some Scenario.part)
              Example.start) as [resp wd'] eqn:Hrun.
  assert (Hok : exists r, resp = Json_ok r /\ length (fr_defects r) = 2%nat).
  { vm_compute in Hrun. injection Hrun as <- _. by eexists. }
  destruct Hok as (r & -> & Hlen). exists r, wd'.
  split; [reflexivity|]. split; [exact Hlen|]. intros d Hd.
  destruct (proj1
    (pipeline_confirms_above_half Traffic.env (fun _ => Some Example.img)
       Traffic.classifier true "20240101_120000_000001" Scenario.part
       Example.start wd' r Example.img (fun b => eq_refl) eq_refl Hrun) d Hd)
    as (b & crop & prob & heatmap & _ & _ & Hcls & _ & Hconf).
  injection Hcls as <- _. exact Hconf.
Defined.

(** ** The history *)

Lemma record_history_cons (now filename model_type : string)
    (result : result_keys) (store : list history_entry) :
  _record_history now filename model_type result store
  = {| h_id := Z.of_nat (length store) + 1;
       h_timestamp := now;
       h_filename := filename;
       h_model := model_type;
       h_verdict := py_or (k_verdict_label result) (k_status result);
       h_confidence := default 0%Q (k_confidence result);
       h_num_defects := Z.of_nat (default 0%nat (k_defects result)) |}
    :: take 49 store.
Proof. reflexivity. Qed.

(** X22: [_record_history] puts the new entry in front of the history,
    keeps the order of the older entries and never lets the history grow
    beyond 50 entries: from a history within the bound, the new length is
    the smaller of 50 and the old length plus one, and when the history
    was full its oldest entry is the one that goes. *)
Theorem record_history_bounded (now filename model_type : string)
    (result : result_keys) (store : list history_entry) :
  (length store <= 50)%nat ->
  let store' := _record_history now filename model_type result store in
  length store' = Nat.min 50 (S (length store))
  /\ (h_filename <$> head store') = Some filename
  /\ (h_model <$> head store') = Some model_type
  /\ (h_timestamp <$> head store') = Some now
  /\ tail store' = take 49 store
  /\ (forall k e, (k < 49)%nat -> store !! k = Some e ->
        store' !! S k = Some e)
  /\ (length store = 50%nat -> store' !! 50%nat = None
                                /\ last store' = store !! 48%nat).
Proof.
  intros Hlen store'. subst store'. rewrite record_history_cons.
  remember (take 49 store) as older eqn:Holder.
  assert (Holen : length older = Nat.min 49 (length store))
    by (subst older; apply length_take).
  cbn [head tail fmap option_fmap option_map length h_filename h_model
         h_timestamp].
  split; [lia|]. split; [reflexivity|]. split; [reflexivity|].
  split; [reflexivity|]. split; [reflexivity|]. split.
  - intros k e Hk He. change (older !! k = Some e). subst older.
    by rewrite lookup_take_lt.
  - intros Hfull. split.
    + apply lookup_ge_None. cbn [length]. lia.
    + rewrite last_cons.
      destruct (store !! 48%nat) as [e|] eqn:He.
      * assert (Hlast : last older = Some e).
        { rewrite last_lookup, Holen.
          replace (Init.Nat.pred (49 `min` length store)) with 48%nat by lia.
          subst older. by rewrite lookup_take_lt by lia. }
        by rewrite Hlast.
      * apply lookup_ge_None in He. lia.
Qed.

Lemma record_history_bounded_witness :
  length (_record_history "2024-01-02 10:00:00" "new.jpg" "Pipeline"
            (keys_of_yolo Example.detection) Traffic.full_history) = 50%nat.
Proof.
  exact (proj1
    (record_history_bounded "2024-01-02 10:00:00" "new.jpg" "Pipeline"
       (keys_of_yolo Example.detection) Traffic.full_history
       ltac:(vm_compute; lia))).
Defined.

(** X23: the id of an entry is the length of the history plus one when it
    is recorded, so the ids are not unique once the history is full: each
    new entry of a full history gets the id 51, and two records in a row
    leave the two newest entries with the same id. *)
Theorem record_history_full_ids (now1 now2 file1 file2 model1 model2 : string)
    (result1 result2 : result_keys) (store : list history_entry) :
  length store = 50%nat ->
  let store1 := _record_history now1 file1 model1 result1 store in
  let store2 := _record_history now2 file2 model2 result2 store1 in
  length store2 = 50%nat
  /\ (h_id <$> store2 !! 0%nat) = Some 51
  /\ (h_id <$> store2 !! 1%nat) = Some 51
  /\ (h_filename <$> store2 !! 0%nat) = Some file2
  /\ (h_filename <$> store2 !! 1%nat) = Some file1.
Proof.
  intros Hlen store1 store2. subst store1 store2.
  rewrite !record_history_cons.
  remember (take 49 store) as older eqn:Holder.
  assert (Holen : length older = 49%nat)
    by (subst older; rewrite length_take; lia).
  cbn [length]. rewrite Holen.
  destruct older as [|e older]; [discriminate|].
  change (take 49 (?x :: e :: older)) with (x :: take 48 (e :: older)).
  cbn [length lookup list_lookup fmap option_fmap option_map h_id h_filename].
  rewrite length_take. cbn [length] in Holen |- *.
  rewrite Hlen. split; [lia|]. by repeat split.
Qed.

Lemma record_history_full_ids_witness :
  let store2 :=
    _record_history "2024-01-02 10:00:01" "b.jpg" "CNN+LSTM"
      (keys_of_yolo Example.detection)
      (_record_history "2024-01-02 10:00:00" "a.jpg" "YOLOv8"
         (keys_of_yolo Example.detection) Traffic.full_history) in
  (h_id <$> store2 !! 0%nat) = Some 51 /\ (h_id <$> store2 !! 1%nat) = Some 51.
Proof.
  destruct (record_history_full_ids "2024-01-02 10:00:00"
              "2024-01-02 10:00:01" "a.jpg" "b.jpg" "YOLOv8" "CNN+LSTM"
              (keys_of_yolo Example.detection) (keys_of_yolo Example.detection)
              Traffic.full_history eq_refl) as (_ & H0 & H1 & _).
  split; [exact H0 | exact H1].
Defined.

(** ** The routes and the history *)

(** X24: a route touches the history only when it answers with a
    result, and then records one entry in front: [/api/detect] the
    detector's status and the number of detections, [/api/pipeline] the
    aggregate status and the number of confirmed defects.  For one and the
    same upload the Pipeline entry never counts more defects than the
    YOLOv8 entry. *)
Theorem routes_record_results (E : Env) (timestamp now : string)
    (request_image : option upload) (wd : world)
    (store : list history_entry) :
  (forall msg code,
     fst (detect E now request_image store) = Reply_error msg code ->
     snd (detect E now request_image store) = store)
  /\ (forall msg code,
        fst (fst (api_pipeline E timestamp now request_image wd store))
        = Json_error msg code ->
        snd (api_pipeline E timestamp now request_image wd store) = store)
  /\ (forall y,
        fst (detect E now request_image store) = Reply y ->
        exists file e,
          request_image = Some file
          /\ snd (detect E now request_image store) = e :: take 49 store
          /\ h_filename e = up_filename file /\ h_model e = "YOLOv8"
          /\ h_verdict e = Some (y_status y)
          /\ h_confidence e = y_confidence y
          /\ h_num_defects e = Z.of_nat (length (y_defects y)))
  /\ (forall r,
        fst (fst (api_pipeline E timestamp now request_image wd store))
        = Json_ok r ->
        exists file e,
          request_image = Some file
          /\ snd (api_pipeline E timestamp now request_image wd store)
             = e :: take 49 store
          /\ h_filename e = up_filename file /\ h_model e = "Pipeline"
          /\ h_verdict e = Some (fr_status r)
          /\ h_confidence e = fr_confidence r
          /\ h_num_defects e = Z.of_nat (length (fr_defects r)))
  /\ (forall y r,
        fst (detect E now request_image store) = Reply y ->
        fst (fst (api_pipeline E timestamp now request_image wd store))
        = Json_ok r ->
        (length (fr_defects r) + length (fr_discarded_defects r)
         <= length (y_defects y))%nat).
Proof.
  unfold detect, api_pipeline.
  destruct (pipeline E timestamp request_image wd) as [resp wd'] eqn:Hrun.
  destruct request_image as [file|].
  2:{ destruct resp; cbn; repeat split; try done. }
  destruct (predict_defects E (up_content file)) as [y|m] eqn:Hy; cbn [fst snd].
  - split; [discriminate|]. split; [by destruct resp|]. split; [|split].
    + intros y' [= <-]. exists file. eexists.
      split; [reflexivity|]. rewrite record_history_cons.
      split; [reflexivity|]. by repeat split.
    + intros r Hr. destruct resp as [r'|]; [|discriminate]. cbn in Hr.
      injection Hr as ->. exists file. eexists.
      split; [reflexivity|]. cbn [snd]. rewrite record_history_cons.
      split; [reflexivity|]. by repeat split.
    + intros y' r [= <-] Hr. destruct resp as [r'|]; [|discriminate].
      cbn in Hr. injection Hr as ->.
      destruct (predict_defects_decodes E _ _ Hy) as [i Hi].
      destruct (pipeline_order E timestamp file wd wd' r y i Hy Hi Hrun)
        as (_ & _ & _ & Hlen & _).
      rewrite Hlen. clear Hlen Hrun.
      induction (y_defects y) as [|d l IH]; [cbn; lia|].
      change (omap (crop_to_verify E i) (d :: l))
        with (match crop_to_verify E i d with
              | Some b => b :: omap (crop_to_verify E i) l
              | None => omap (crop_to_verify E i) l
              end).
      destruct (crop_to_verify E i d); cbn [length]; lia.
  - split; [done|]. split; [by destruct resp|]. split; [discriminate|].
    split.
    + intros r Hr. destruct resp as [r'|]; [|discriminate]. exfalso.
      destruct (pipeline_ok_state _ _ _ _ _ _ Hrun)
        as (file' & a & yolo & i & [= <-] & _ & _ & Hy' & _).
      congruence.
    + discriminate.
Qed.

Lemma routes_record_results_witness :
  let done :=
    api_pipeline Example.env "20240101_120000_000001" "2024-01-01 12:00:00"
      Example.request Example.start [] in
  exists e,
    snd done = [e] /\ h_model e = "Pipeline" /\ h_verdict e = Some "FAIL"
    /\ h_num_defects e = 1.
Proof.
  intros done.
  destruct (routes_record_results Example.env "20240101_120000_000001"
              "2024-01-01 12:00:00" Example.request Example.start [])
    as (_ & _ & _ & Hpipe & _).
  destruct (fst (fst done)) as [r|] eqn:Hr; [|vm_compute in Hr; discriminate].
  destruct (Hpipe r Hr) as (file & e & _ & Hstore & _ & Hmodel & Hv & _ & Hn).
  exists e. split; [exact Hstore|]. split; [exact Hmodel|].
  vm_compute in Hr. injection Hr as <-. by split.
Defined.



(** ** Reports *)

Lemma aggregate_status_values (verified : list defect) (a : anomaly_result) :
  aggregate_status verified a = "PASS" \/ aggregate_status verified a = "FAIL".
Proof. unfold aggregate_status. destruct (_ || _); [by right | by left]. Qed.

Lemma defect_classes_of_defects (defects : list defect) :
  defect_classes (map (fun d => Some (d_class d)) defects)
  = Ok (list_to_set (map d_class defects)).
Proof.
  induction defects as [|d defects IH]; [reflexivity|].
  cbn. by rewrite IH.
Qed.

(** X26: the report of a pipeline result that is posted back as it was
    answered repeats the result: its verdict is the aggregate status, its
    number of defects the number of confirmed defects, its classes the
    classes of the confirmed defects, its anomaly status the status of the
    anomaly check.  So a result that failed on an anomaly alone is reported
    as FAIL with the recommendation "0 defect(s) detected. Remove component
    from production line.". *)
Theorem generate_report_of_pipeline (E : Env) (timestamp uuid_hex now : string)
    (request_image : option upload) (wd wd' : world) (r : final_results) :
  pipeline E timestamp request_image wd = (Json_ok r, wd') ->
  exists rp,
    generate_report uuid_hex now (Some (report_data_of_final r)) = Reply rp
    /\ rp_verdict rp = fr_status r
    /\ rp_num_defects rp = Z.of_nat (length (fr_defects r))
    /\ rp_defect_classes rp = list_to_set (map d_class (fr_defects r))
    /\ rp_anomaly_status rp = a_status (fr_anomaly_info r)
    /\ rp_active_learning_flagged rp = fr_active_learning_flagged r
    /\ rp_model_used rp = Some "YOLOv8 + CNN-LSTM + TF-Anomaly"
    /\ (fr_defects r = [] ->
        a_status (fr_anomaly_info r) = "ANOMALY" ->
        rp_verdict rp = "FAIL"
        /\ rp_recommendation rp
           = "❌ 0 defect(s) detected. Remove component from production line.").
Proof.
  intros Hrun.
  destruct (pipeline_ok_state _ _ _ _ _ _ Hrun)
    as (file & anomaly & yolo & i & _ & _ & _ & _ & _ & _ & Hst & Ha & _).
  assert (Htype : fr_model_type r = "YOLOv8 + CNN-LSTM + TF-Anomaly").
  { destruct (pipeline_ok_inv _ _ _ _ _ _ Hrun) as (f & a & y & v & d & -> & _).
    unfold pipeline in Hrun.
    destruct (String.eqb (up_filename f) ""); [discriminate|].
    destruct (detect_anomaly E (up_content f)); [|discriminate].
    destruct (predict_defects E (up_content f)); [|discriminate].
    destruct (handle_detection E timestamp (up_content f) _ 0 (w_fs wd)).
    destruct (verify_loop E _ _ [] [] (w_verifier_calls wd)) as [[[? ?]|?] ?];
      [|discriminate].
    by injection Hrun as <- _. }
  unfold generate_report, report_data_of_final.
  cbv beta iota zeta delta
    [rd_status rd_verdict_label rd_verdict rd_defects rd_confidence
       rd_model_info_type rd_model_type rd_anomaly_status
       rd_active_learning_flagged default from_option id py_or].
  rewrite Htype.
  rewrite defect_classes_of_defects, !length_map.
  destruct (aggregate_status_values (fr_defects r) anomaly) as [Hs|Hs];
    rewrite <- Hst in Hs; rewrite Hs; cbn.
  - eexists. split; [reflexivity|]. cbn.
    split; [reflexivity|]. split; [reflexivity|]. split; [reflexivity|].
    split; [reflexivity|]. split; [reflexivity|]. split; [reflexivity|].
    intros Hnil Hanom. exfalso. rewrite Hst in Hs.
    apply aggregate_status_PASS in Hs. apply Hs. right. by rewrite <- Ha.
  - eexists. split; [reflexivity|]. cbn.
    split; [reflexivity|]. split; [reflexivity|]. split; [reflexivity|].
    split; [reflexivity|]. split; [reflexivity|]. split; [reflexivity|].
    intros Hnil Hanom. by rewrite Hnil.
Qed.

Lemma generate_report_of_pipeline_witness :
  exists r wd' rp,
    pipeline Scenario.anomalous "20240101_120000_000001" (Some Scenario.part)
      Example.start = (Json_ok r, wd')
    /\ generate_report "0123abcd4567" "2024-01-01T12:00:00"
         (Some (report_data_of_final r)) = Reply rp
    /\ rp_verdict rp = "FAIL" /\ rp_num_defects rp = 0.
Proof.
  destruct (pipeline Scenario.anomalous "20240101_120000_000001"
              (Some Scenario.part) Example.start) as [resp wd'] eqn:Hrun.
  assert (Hok : exists r, resp = Json_ok r /\ fr_defects r = []
                          /\ a_status (fr_anomaly_info r) = "ANOMALY").
  { vm_compute in Hrun. injection Hrun as <- _. by eexists. }
  destruct Hok as (r & -> & Hnil & Hanom).
  destruct (generate_report_of_pipeline Scenario.anomalous
              "20240101_120000_000001" "0123abcd4567" "2024-01-01T12:00:00"
              (Some Scenario.part) Example.start wd' r Hrun)
    as (rp & Hrp & _ & Hn & _ & _ & _ & _ & Hfail).
  exists r, wd', rp. split; [reflexivity|]. split; [exact Hrp|].
  split; [by destruct (Hfail Hnil Hanom) | by rewrite Hn, Hnil].
Defined.

Lemma is_pass_iff (s : string) :
  (if String.eqb s "PASS" || String.eqb s "GOOD" then "PASS" else "FAIL")
  = "PASS" <-> s = "PASS" \/ s = "GOOD".
Proof.
  destruct (String.eqb_spec s "PASS") as [->|Hp]; cbn [orb].
  - split; [by left | done].
  - destruct (String.eqb_spec s "GOOD") as [->|Hg].
    + split; [by right | done].
    + split; [discriminate | intros [?|?]; done].
Qed.

Lemma defect_classes_missing (defects : list (option string)) :
  None ∈ defects -> defect_classes defects = Raise "'class'".
Proof.
  induction defects as [|[c|] defects IH]; intros Hin.
  - by apply elem_of_nil in Hin.
  - apply elem_of_cons in Hin as [Heq|Hin]; [discriminate|].
    cbn. by rewrite IH.
  - reflexivity.
Qed.

(** X27: [generate_report] takes the verdict from the first of the keys
    "status", "verdict_label" and "verdict" that has a non-empty value, and
    reports PASS exactly when that value is PASS or GOOD: a dict with none
    of the three keys is reported as FAIL.  A missing or empty body is
    answered with code 400, a defect without the key "class" with code 500
    and the [KeyError] text. *)
Theorem generate_report_verdict (uuid_hex now : string) (data : report_data) :
  generate_report uuid_hex now None = Reply_error "No data provided" 400
  /\ (forall defects,
        rd_defects data = Some defects -> None ∈ defects ->
        generate_report uuid_hex now (Some data) = Reply_error "'class'" 500)
  /\ forall rp,
       generate_report uuid_hex now (Some data) = Reply rp ->
       (forall s, rd_status data = Some s -> s <> "" ->
          (rp_verdict rp = "PASS" <-> s = "PASS" \/ s = "GOOD"))
       /\ (forall s,
             rd_status data = None \/ rd_status data = Some "" ->
             rd_verdict_label data = Some s -> s <> "" ->
             (rp_verdict rp = "PASS" <-> s = "PASS" \/ s = "GOOD"))
       /\ (forall s,
             rd_status data = None \/ rd_status data = Some "" ->
             rd_verdict_label data = None \/ rd_verdict_label data = Some "" ->
             rd_verdict data = Some s ->
             (rp_verdict rp = "PASS" <-> s = "PASS" \/ s = "GOOD"))
       /\ (rd_status data = None \/ rd_status data = Some "" ->
           rd_verdict_label data = None \/ rd_verdict_label data = Some "" ->
           rd_verdict data = None -> rp_verdict rp = "FAIL")
       /\ rp_num_defects rp
          = Z.of_nat (length (default [] (rd_defects data))).
Proof.
  split; [reflexivity|]. split.
  - intros defects Hd Hin. unfold generate_report. rewrite Hd.
    cbv beta iota delta [default from_option id].
    by rewrite (defect_classes_missing defects Hin).
  - intros rp Hrun. unfold generate_report in Hrun.
    destruct (defect_classes (default [] (rd_defects data))) as [classes|m];
      [|discriminate].
    injection Hrun as <-. cbn [rp_verdict rp_num_defects].
    assert (Hfalsy : forall o : option string,
      o = None \/ o = Some "" -> forall b, py_or o b = b).
    { by intros o [-> | ->] b. }
    assert (Htruthy : forall s b, s <> "" -> py_or (Some s) b = Some s).
    { intros s b Hne. unfold py_or.
      by destruct (String.eqb_spec s ""). }
    split; [|split; [|split; [|split]]].
    + intros s Hs Hne. rewrite Hs, !Htruthy by done. apply is_pass_iff.
    + intros s Hst Hl Hne.
      rewrite (Hfalsy _ Hst), Hl, !Htruthy by done. apply is_pass_iff.
    + intros s Hst Hl Hv. rewrite (Hfalsy _ Hst), (Hfalsy _ Hl), Hv.
      apply is_pass_iff.
    + intros Hst Hl Hv. by rewrite (Hfalsy _ Hst), (Hfalsy _ Hl), Hv.
    + reflexivity.
Qed.

Lemma generate_report_verdict_witness :
  exists rp,
    generate_report "0123abcd4567" "2024-01-01T12:00:00"
      (Some {| rd_status := Some ""; rd_verdict_label := Some "PASS";
               rd_verdict := Some "DEFECTIVE"; rd_defects := None;
               rd_confidence := None; rd_model_info_type := None;
               rd_model_type := None; rd_anomaly_status := None;
               rd_active_learning_flagged := None |}) = Reply rp
    /\ rp_verdict rp = "PASS" /\ rp_report_id rp = "RPT-0123ABCD".
Proof.
  set (data := {| rd_status := Some ""; rd_verdict_label := Some "PASS";
                  rd_verdict := Some "DEFECTIVE"; rd_defects := None;
                  rd_confidence := None; rd_model_info_type := None;
                  rd_model_type := None; rd_anomaly_status := None;
                  rd_active_learning_flagged := None |}).
  destruct (generate_report "0123abcd4567" "2024-01-01T12:00:00" (Some data))
    as [rp|msg code] eqn:Hrun; [|discriminate].
  exists rp. split; [reflexivity|].
  destruct (proj2 (proj2
    (generate_report_verdict "0123abcd4567" "2024-01-01T12:00:00" data))
    rp Hrun) as (_ & Hlabel & _).
  split.
  - apply (Hlabel "PASS"); [by right | reflexivity | discriminate | by left].
  - injection Hrun as <-. reflexivity.
Defined.

(** X28: [/api/cnn-detect] on a decodable upload records one entry of
    model "CNN+LSTM" whose verdict is the label of the classifier's
    verdict, FAIL exactly when the probability is above 0.5, whose
    confidence is the probability rounded to four decimals, and whose
    number of defects is 0 whatever the verdict, since the verifier's
    answer has no list of defects; an upload that does not decode is
    answered with code 500 and recorded nowhere. *)
Theorem cnn_detect_records (decode : bytes -> option image)
    (classifier : image -> res (Q * string)) (model_loaded : bool)
    (now : string) (file : upload) (store : list history_entry) :
  (decode (up_content file) = None ->
   cnn_detect (predict_cnn_lstm_service decode classifier model_loaded) now
     (Some file) store
   = (Reply_error "Could not decode the uploaded image." 500, store))
  /\ forall img_cv prob heatmap,
       decode (up_content file) = Some img_cv ->
       classifier img_cv = Ok (prob, heatmap) ->
       exists c e,
         cnn_detect (predict_cnn_lstm_service decode classifier model_loaded)
           now (Some file) store
         = (Reply c, e :: take 49 store)
         /\ h_model e = "CNN+LSTM" /\ h_filename e = up_filename file
         /\ h_num_defects e = 0
         /\ h_confidence e = round4 prob
         /\ (h_verdict e = Some "FAIL" <-> (1 # 2 < prob)%Q)
         /\ (h_verdict e = Some "PASS" <-> (prob <= 1 # 2)%Q)
         /\ h_id e = Z.of_nat (length store) + 1.
Proof.
  split.
  - intros Hdec. unfold cnn_detect, predict_cnn_lstm_service.
    by rewrite Hdec.
  - intros img_cv prob heatmap Hdec Hcls.
    unfold cnn_detect, predict_cnn_lstm_service. rewrite Hdec, Hcls.
    rewrite record_history_cons. eexists _, _. split; [reflexivity|].
    cbn. split; [reflexivity|]. split; [reflexivity|].
    split; [reflexivity|]. split; [reflexivity|].
    destruct (Qltb (1 # 2) prob) eqn:Hlt; cbn.
    + apply Qltb_iff in Hlt. split; [done|]. split; [|reflexivity].
      split; [discriminate|]. intros Hle. exfalso.
      exact (Qlt_not_le _ _ Hlt Hle).
    + assert (Hle : (prob <= 1 # 2)%Q).
      { apply Qnot_lt_le. intros Hlt'. apply Qltb_iff in Hlt'. congruence. }
      split; [|split; [done | reflexivity]].
      split; [discriminate|]. intros Hlt'. exfalso.
      exact (Qlt_not_le _ _ Hlt' Hle).
Qed.

Lemma cnn_detect_records_witness :
  exists c e,
    cnn_detect Traffic.verifier "2024-01-01 12:00:00" (Some Scenario.part) []
    = (Reply c, [e])
    /\ h_verdict e = Some "FAIL" /\ h_num_defects e = 0.
Proof.
  destruct (proj2
    (cnn_detect_records (fun _ => Some Example.img) Traffic.classifier true
       "2024-01-01 12:00:00" Scenario.part [])
    Example.img (7 # 10) "heat" eq_refl eq_refl)
    as (c & e & Hrun & _ & _ & Hn & _ & Hfail & _).
  exists c, e. split; [exact Hrun|]. split; [|exact Hn].
  apply Hfail. reflexivity.
Defined.
